(** * POATC dashboard server: [Testnet/explorer/serve.py]

    A shallow embedding of the dashboard's static file server.  The script is
    a subclass of CPython's [http.server.SimpleHTTPRequestHandler] with two
    overridden methods ([end_headers], [log_message]) and one added method
    ([do_OPTIONS]), plus a [main] that parses the port, changes directory and
    runs a [socketserver.TCPServer].  What the script does is decided as much
    by the methods it inherits as by the lines it adds, so the inherited
    methods are embedded too, from [http/server.py] and [socketserver.py] of
    CPython 3.11, statement by statement.

    The file is organised as the program is:
    - [PyStr]: the Python string operations the code paths use;
    - [Http]: the handler object, the frames it writes and the state monad
      in which its methods run; a method that can raise returns a
      [result], the value or the exception that leaves it;
    - [BaseHTTPRequestHandler], [SimpleHTTPRequestHandler]: the inherited
      methods, with the calls through [self] that a subclass can redirect
      dispatched by the class [RequestHandler];
    - [SocketServer]: the server object, the process and its system calls;
    - [Serve]: the script itself, [CORSHTTPRequestHandler] and [main];
    - [Sample]: one concrete installation, to run the model on;
    - [Spec], [Observe]: the vocabulary of the statements;
    - a small program logic for handler methods, and the properties of a
      served request, of path resolution and of [main] proved with it. *)

From Stdlib Require Import String Ascii List ZArith Bool Lia DecimalString.
Import ListNotations.
Open Scope string_scope.

(* ------------------------------------------------------------------ *)
(** ** Python strings *)

Module PyStr.

Definition CR : ascii := "013"%char.
Definition LF : ascii := "010"%char.
Definition CRLF : string := String CR (String LF EmptyString).
Definition dquote : string := String "034"%char EmptyString.

Definition str_of_nat (n : nat) : string :=
  NilZero.string_of_uint (Nat.to_uint n).

Definition str_of_Z (z : Z) : string :=
  NilZero.string_of_int (Z.to_int z).

(** [str.isspace] on the code points a request line decoded as
    iso-8859-1 can hold. *)
Definition isspace (c : ascii) : bool :=
  let n := nat_of_ascii c in
  (((9 <=? n) && (n <=? 13)) || ((28 <=? n) && (n <=? 32))
   || (n =? 133) || (n =? 160))%nat.

(** [s.split()]: the maximal runs of non-blank characters. *)
Fixpoint words_from (cur : option string) (s : string) : list string :=
  match s with
  | EmptyString =>
      match cur with Some wd => [wd] | None => [] end
  | String c rest =>
      if isspace c then
        match cur with
        | Some wd => wd :: words_from None rest
        | None => words_from None rest
        end
      else
        words_from
          (Some (match cur with
                 | Some wd => wd ++ String c EmptyString
                 | None => String c EmptyString
                 end)) rest
  end.

Definition split (s : string) : list string := words_from None s.

(** [s.split(sep)] for a one-character separator. *)
Fixpoint split_on (sep : ascii) (s : string) : list string :=
  match s with
  | EmptyString => [EmptyString]
  | String c rest =>
      if Ascii.eqb c sep then EmptyString :: split_on sep rest
      else match split_on sep rest with
           | hd :: tl => String c hd :: tl
           | [] => [String c EmptyString]
           end
  end.

(** [s.split(sep, 1)]: the part before the first [sep] and, when there is
    one, the part after it. *)
Fixpoint split_once (sep : ascii) (s : string) : string * option string :=
  match s with
  | EmptyString => (EmptyString, None)
  | String c rest =>
      if Ascii.eqb c sep then (EmptyString, Some rest)
      else let (a, b) := split_once sep rest in (String c a, b)
  end.

Fixpoint rstrip (p : ascii -> bool) (s : string) : string :=
  match s with
  | EmptyString => EmptyString
  | String c rest =>
      match rstrip p rest with
      | EmptyString => if p c then EmptyString else String c EmptyString
      | r => String c r
      end
  end.

Fixpoint lstrip (p : ascii -> bool) (s : string) : string :=
  match s with
  | EmptyString => EmptyString
  | String c rest => if p c then lstrip p rest else s
  end.

Definition is_crlf (c : ascii) : bool := Ascii.eqb c CR || Ascii.eqb c LF.
Definition is_slash (c : ascii) : bool := Ascii.eqb c "/"%char.

Definition startswith (s pre : string) : bool := String.prefix pre s.

Fixpoint last_char (s : string) : option ascii :=
  match s with
  | EmptyString => None
  | String c EmptyString => Some c
  | String _ rest => last_char rest
  end.

(** [s.endswith('/')] *)
Definition endswith_slash (s : string) : bool :=
  match last_char s with
  | Some c => is_slash c
  | None => false
  end.

(** [s.lower()], on the letters A-Z: the code only compares the result
    with lower-case ASCII constants, which no other iso-8859-1 letter
    lowers to. *)
Definition lower_char (c : ascii) : ascii :=
  let n := nat_of_ascii c in
  if ((65 <=? n) && (n <=? 90))%nat then ascii_of_nat (n + 32) else c.

Fixpoint lower (s : string) : string :=
  match s with
  | EmptyString => EmptyString
  | String c rest => String (lower_char c) (lower rest)
  end.

(** [needle in s] *)
Fixpoint contains (needle s : string) : bool :=
  String.prefix needle s
  || match s with
     | EmptyString => false
     | String _ rest => contains needle rest
     end.

(** Arguments of the [%] operator. *)
Inductive pyval :=
| VStr (s : string)
| VInt (z : Z).

Definition str (v : pyval) : string :=
  match v with
  | VStr s => s
  | VInt z => str_of_Z z
  end.

(** [fmt % args] for the conversions the logging calls use ([%s], [%d],
    [%%]).  Python raises when the arguments run short; the calls modelled
    here always pass as many as the format names. *)
Fixpoint percent (fmt : string) (args : list pyval) : string :=
  match fmt with
  | EmptyString => EmptyString
  | String c rest =>
      if Ascii.eqb c "%"%char then
        match rest with
        | EmptyString => String c EmptyString
        | String d rest' =>
            if Ascii.eqb d "s"%char || Ascii.eqb d "d"%char then
              match args with
              | a :: args' => str a ++ percent rest' args'
              | [] => String c (String d (percent rest' []))
              end
            else if Ascii.eqb d "%"%char then String d (percent rest' args)
            else String c (String d (percent rest' args))
        end
      else String c (percent rest args)
  end.

End PyStr.

(* ------------------------------------------------------------------ *)
(** ** The handler object *)

Module Http.
Import PyStr.

(** The members of [http.HTTPStatus] that the handler's code paths name. *)
Inductive HTTPStatus :=
| CONTINUE | OK | NO_CONTENT | RESET_CONTENT
| MOVED_PERMANENTLY | NOT_MODIFIED
| BAD_REQUEST | NOT_FOUND | REQUEST_URI_TOO_LONG
| REQUEST_HEADER_FIELDS_TOO_LARGE
| NOT_IMPLEMENTED | HTTP_VERSION_NOT_SUPPORTED.

Definition members : list HTTPStatus :=
  [CONTINUE; OK; NO_CONTENT; RESET_CONTENT; MOVED_PERMANENTLY; NOT_MODIFIED;
   BAD_REQUEST; NOT_FOUND; REQUEST_URI_TOO_LONG;
   REQUEST_HEADER_FIELDS_TOO_LARGE; NOT_IMPLEMENTED;
   HTTP_VERSION_NOT_SUPPORTED].

Definition value (s : HTTPStatus) : nat :=
  match s with
  | CONTINUE => 100 | OK => 200 | NO_CONTENT => 204 | RESET_CONTENT => 205
  | MOVED_PERMANENTLY => 301 | NOT_MODIFIED => 304
  | BAD_REQUEST => 400 | NOT_FOUND => 404 | REQUEST_URI_TOO_LONG => 414
  | REQUEST_HEADER_FIELDS_TOO_LARGE => 431
  | NOT_IMPLEMENTED => 501 | HTTP_VERSION_NOT_SUPPORTED => 505
  end.

Definition phrase (s : HTTPStatus) : string :=
  match s with
  | CONTINUE => "Continue" | OK => "OK" | NO_CONTENT => "No Content"
  | RESET_CONTENT => "Reset Content"
  | MOVED_PERMANENTLY => "Moved Permanently"
  | NOT_MODIFIED => "Not Modified"
  | BAD_REQUEST => "Bad Request" | NOT_FOUND => "Not Found"
  | REQUEST_URI_TOO_LONG => "Request-URI Too Long"
  | REQUEST_HEADER_FIELDS_TOO_LARGE => "Request Header Fields Too Large"
  | NOT_IMPLEMENTED => "Not Implemented"
  | HTTP_VERSION_NOT_SUPPORTED => "HTTP Version Not Supported"
  end.

Definition description (s : HTTPStatus) : string :=
  match s with
  | CONTINUE => "Request received, please continue"
  | OK => "Request fulfilled, document follows"
  | NO_CONTENT => "Request fulfilled, nothing follows"
  | RESET_CONTENT => "Clear input form for further input"
  | MOVED_PERMANENTLY => "Object moved permanently -- see URI list"
  | NOT_MODIFIED => "Document has not changed since given time"
  | BAD_REQUEST => "Bad request syntax or unsupported method"
  | NOT_FOUND => "Nothing matches the given URI"
  | REQUEST_URI_TOO_LONG => "URI is too long"
  | REQUEST_HEADER_FIELDS_TOO_LARGE =>
      "The server is unwilling to process the request because its header "
      ++ "fields are too large"
  | NOT_IMPLEMENTED => "Server does not support this operation"
  | HTTP_VERSION_NOT_SUPPORTED => "Cannot fulfill request"
  end.

(** [BaseHTTPRequestHandler.responses]: code to (phrase, description);
    [None] is the [KeyError]. *)
Definition responses (code : nat) : option (string * string) :=
  match find (fun s => Nat.eqb (value s) code) members with
  | Some s => Some (phrase s, description s)
  | None => None
  end.

(** What the handler appends to [_headers_buffer] and writes to [wfile].
    [encode] gives the bytes the code builds for each piece; the byte
    stream a client reads is the concatenation of the encoded pieces. *)
Inductive frame :=
| StatusLine (protocol : string) (code : nat) (message : string)
| HeaderLine (keyword value : string)
| BlankLine
| Body (data : string).

Definition encode (f : frame) : string :=
  match f with
  | StatusLine protocol code message =>
      protocol ++ " " ++ str_of_nat code ++ " " ++ message ++ CRLF
  | HeaderLine keyword value => keyword ++ ": " ++ value ++ CRLF
  | BlankLine => CRLF
  | Body data => data
  end.

Definition wire (out : list frame) : string :=
  String.concat EmptyString (map encode out).

(** How a call ends: it returns a value, or it raises an exception, given
    by the last line of its traceback. *)
Inductive result (A : Type) :=
| Return (a : A)
| Raise (exn : string).

Arguments Return {A} a.
Arguments Raise {A} exn.

(** An open file: the bytes reading it to the end returns, and from
    [os.fstat] the size ([fs[6]]) and [st_mtime] in whole seconds (the code
    drops the microseconds before it compares). *)
Record file := { contents : string; st_size : nat; st_mtime : Z }.

(** How [open(path, 'rb')] ends: with a file, with an [OSError] (nothing
    of that name, a directory, no permission), or with another exception:
    a [ValueError] for a name that holds a NUL byte, a [UnicodeEncodeError]
    for a name the file system encoding cannot take. *)
Inductive opened :=
| Opened (f : file)
| OSError
| OpenFails (exn : string).

Inductive tz := TzNaive | TzUTC | TzOther.
Record datetime := { seconds : Z; tzinfo : tz }.

(** The result of [http.client.parse_headers] on the lines after the
    request line. *)
Inductive parsed_headers :=
| Headers (hs : list (string * string))
| LineTooLong (err : string)
| HTTPException (err : string).

(** One accepted connection: the peer's address (host and port), what
    [rfile.readline(65537)] returns and the header block that follows. *)
Record connection := {
  peer : string;
  peer_port : Z;
  raw_requestline : string;
  header_block : parsed_headers
}.

(** The interpreter, the operating system and the clock, as the handler
    sees them.  Library functions whose text plays no part in the control
    flow are fields here, so every statement below holds for whatever they
    return. *)
Record world := {
  (** [log_date_time_string()] at the k-th reading of the clock *)
  log_time : nat -> string;
  (** [date_time_string()] at the k-th reading of the clock *)
  http_date : nat -> string;
  (** [date_time_string(timestamp)] *)
  date_of_timestamp : Z -> string;
  (** [version_string()] *)
  version_string : string;
  (** [int(s)]; [None] is the [ValueError] *)
  py_int : string -> option Z;
  (** [repr(s)], the [%r] conversion *)
  py_repr : string -> string;
  (** [error_message_format] filled in with code, escaped message and
      escaped explanation, encoded *)
  error_page : nat -> string -> string -> string;
  unquote : string -> string;
  normpath : string -> string;
  (** [urlsplit(path).path]; [urlsplit] raises [ValueError] when the host
      part of [path] holds a square bracket it cannot make sense of *)
  urlsplit_path : string -> result string;
  (** [urlunsplit] of the split path with a slash added to component 2 *)
  redirect_url : string -> string;
  isdir : string -> bool;
  isfile : string -> bool;
  (** [open(path, 'rb')] *)
  open_rb : string -> opened;
  (** [os.listdir(path)]; [None] is the [OSError] *)
  listdir : string -> option (list string);
  (** the listing page [list_directory] builds for a directory, the
      request path and the entries, encoded in the file system encoding;
      the encoding raises [UnicodeEncodeError] when the unquoted request
      path holds a lone surrogate *)
  listing_page : string -> string -> list string -> result string;
  getfilesystemencoding : string;
  guess_type : string -> string;
  (** [email.utils.parsedate_to_datetime]; [None] is an ill-formed date *)
  parsedate_to_datetime : string -> option datetime;
  (** the frame lines [traceback.print_exc()] prints, between its first
      line and the exception's, for the exception that left the handler of
      a connection *)
  format_tb : connection -> string -> list string
}.

(** The attributes of a handler instance, with the two streams the
    process owns ([sys.stdout], [sys.stderr]) and the number of clock
    readings so far. *)
Record handler := mkHandler {
  env : world;
  client_address : string;
  directory : string;
  requestline : string;
  request_version : string;
  command : option string;
  path : string;
  headers : list (string * string);
  close_connection : bool;
  headers_buffer : list frame;
  wfile : list frame;
  stdout : list string;
  stderr : list string;
  clock : nat
}.

Definition with_requestline (v : string) (h : handler) : handler :=
  mkHandler (env h) (client_address h) (directory h) v (request_version h)
    (command h) (path h) (headers h) (close_connection h)
    (headers_buffer h) (wfile h) (stdout h) (stderr h) (clock h).

Definition with_request_version (v : string) (h : handler) : handler :=
  mkHandler (env h) (client_address h) (directory h) (requestline h) v
    (command h) (path h) (headers h) (close_connection h)
    (headers_buffer h) (wfile h) (stdout h) (stderr h) (clock h).

Definition with_command (v : option string) (h : handler) : handler :=
  mkHandler (env h) (client_address h) (directory h) (requestline h)
    (request_version h) v (path h) (headers h) (close_connection h)
    (headers_buffer h) (wfile h) (stdout h) (stderr h) (clock h).

Definition with_path (v : string) (h : handler) : handler :=
  mkHandler (env h) (client_address h) (directory h) (requestline h)
    (request_version h) (command h) v (headers h) (close_connection h)
    (headers_buffer h) (wfile h) (stdout h) (stderr h) (clock h).

Definition with_headers (v : list (string * string)) (h : handler)
  : handler :=
  mkHandler (env h) (client_address h) (directory h) (requestline h)
    (request_version h) (command h) (path h) v (close_connection h)
    (headers_buffer h) (wfile h) (stdout h) (stderr h) (clock h).

Definition with_close_connection (v : bool) (h : handler) : handler :=
  mkHandler (env h) (client_address h) (directory h) (requestline h)
    (request_version h) (command h) (path h) (headers h) v
    (headers_buffer h) (wfile h) (stdout h) (stderr h) (clock h).

Definition with_headers_buffer (v : list frame) (h : handler) : handler :=
  mkHandler (env h) (client_address h) (directory h) (requestline h)
    (request_version h) (command h) (path h) (headers h)
    (close_connection h) v (wfile h) (stdout h) (stderr h) (clock h).

Definition with_wfile (v : list frame) (h : handler) : handler :=
  mkHandler (env h) (client_address h) (directory h) (requestline h)
    (request_version h) (command h) (path h) (headers h)
    (close_connection h) (headers_buffer h) v (stdout h) (stderr h)
    (clock h).

Definition with_stdout (v : list string) (h : handler) : handler :=
  mkHandler (env h) (client_address h) (directory h) (requestline h)
    (request_version h) (command h) (path h) (headers h)
    (close_connection h) (headers_buffer h) (wfile h) v (stderr h)
    (clock h).

Definition with_stderr (v : list string) (h : handler) : handler :=
  mkHandler (env h) (client_address h) (directory h) (requestline h)
    (request_version h) (command h) (path h) (headers h)
    (close_connection h) (headers_buffer h) (wfile h) (stdout h) v
    (clock h).

Definition with_clock (v : nat) (h : handler) : handler :=
  mkHandler (env h) (client_address h) (directory h) (requestline h)
    (request_version h) (command h) (path h) (headers h)
    (close_connection h) (headers_buffer h) (wfile h) (stdout h)
    (stderr h) v.

(** Methods run in a state monad over the handler. *)
Definition M (A : Type) : Type := handler -> A * handler.

Definition ret {A} (a : A) : M A := fun h => (a, h).

Definition bind {A B} (c : M A) (k : A -> M B) : M B :=
  fun h => let (a, h') := c h in k a h'.

Definition gets {A} (f : handler -> A) : M A := fun h => (f h, h).

Definition modify (f : handler -> handler) : M unit := fun h => (tt, f h).

Definition exec {A} (c : M A) (h : handler) : handler := snd (c h).

(** A method that always returns, among methods that can raise. *)
Definition returns {A} (c : M A) : M (result A) :=
  bind c (fun a => ret (Return a)).

(** [wfile.write(data)] *)
Definition write (f : frame) : M unit :=
  modify (fun h => with_wfile (wfile h ++ [f]) h).

(** [print(line)] *)
Definition print (line : string) : M unit :=
  modify (fun h => with_stdout (stdout h ++ [line]) h).

(** [time.time()]: the index of this reading of the clock. *)
Definition time : M nat :=
  fun h => (clock h, with_clock (S (clock h)) h).

(** [Message.get(name)]: field names compare without case. *)
Definition get_header (name : string) (hs : list (string * string))
  : option string :=
  match find (fun kv => String.eqb (lower (fst kv)) (lower name)) hs with
  | Some kv => Some (snd kv)
  | None => None
  end.

Definition has_header (name : string) (hs : list (string * string)) : bool :=
  match get_header name hs with Some _ => true | None => false end.

End Http.

Declare Scope handler_scope.
Delimit Scope handler_scope with handler.
Notation "x <- c ;; k" := (Http.bind c (fun x => k))
  (at level 61, c at next level, right associativity) : handler_scope.
Notation "c ;; k" := (Http.bind c (fun _ => k))
  (at level 61, right associativity) : handler_scope.

(* ------------------------------------------------------------------ *)
(** ** Inherited methods: [http.server.BaseHTTPRequestHandler] *)

(** The methods a subclass may override and the base class calls through
    [self]: an instance says which body [self.end_headers()] and
    [self.log_message(...)] run. *)
Class RequestHandler := {
  self_end_headers : Http.M unit;
  self_log_message : string -> list PyStr.pyval -> Http.M unit
}.

Module BaseHTTPRequestHandler.
Import PyStr Http.
Open Scope handler_scope.

Definition default_request_version : string := "HTTP/0.9".
Definition protocol_version : string := "HTTP/1.0".
Definition error_content_type : string := "text/html;charset=utf-8".

(** [a >= b] on strings *)
Definition str_ge (a b : string) : bool := String.leb b a.

(** [a >= b] on pairs of integers *)
Definition pair_ge (a b : Z * Z) : bool :=
  ((fst b <? fst a) || ((fst a =? fst b) && (snd b <=? snd a)))%Z.

Definition address_string : M string := gets client_address.

Definition log_date_time_string : M string :=
  now <- time ;;
  w <- gets env ;;
  ret (log_time w now).

Definition date_time_string : M string :=
  timestamp <- time ;;
  w <- gets env ;;
  ret (http_date w timestamp).

(** The base class's [log_message]: client address, date, message, to
    [sys.stderr].  (The real one also escapes control characters of the
    message.) *)
Definition log_message (format : string) (args : list pyval) : M unit :=
  let message := percent format args in
  a <- address_string ;;
  t <- log_date_time_string ;;
  modify (fun h =>
    with_stderr (stderr h ++ [a ++ " - - [" ++ t ++ "] " ++ message]) h).

Definition flush_headers : M unit :=
  modify (fun h =>
    with_headers_buffer [] (with_wfile (wfile h ++ headers_buffer h) h)).

Definition send_header (keyword value : string) : M unit :=
  v <- gets request_version ;;
  (if negb (v =? "HTTP/0.9")%string then
     modify (fun h =>
       with_headers_buffer (headers_buffer h ++ [HeaderLine keyword value]) h)
   else ret tt) ;;
  if (lower keyword =? "connection")%string then
    if (lower value =? "close")%string then
      modify (with_close_connection true)
    else if (lower value =? "keep-alive")%string then
      modify (with_close_connection false)
    else ret tt
  else ret tt.

Definition end_headers : M unit :=
  v <- gets request_version ;;
  if negb (v =? "HTTP/0.9")%string then
    modify (fun h => with_headers_buffer (headers_buffer h ++ [BlankLine]) h) ;;
    flush_headers
  else ret tt.

Definition send_response_only (code : nat) (message : option string)
  : M unit :=
  v <- gets request_version ;;
  if negb (v =? "HTTP/0.9")%string then
    let message :=
      match message with
      | Some m => m
      | None =>
          match responses code with
          | Some r => fst r
          | None => EmptyString
          end
      end in
    modify (fun h =>
      with_headers_buffer
        (headers_buffer h ++ [StatusLine protocol_version code message]) h)
  else ret tt.

Section Methods.
Context {self : RequestHandler}.

Definition log_request (code : nat) : M unit :=
  rl <- gets requestline ;;
  self_log_message (dquote ++ "%s" ++ dquote ++ " %s %s")
    [VStr rl; VStr (str_of_nat code); VStr "-"].

Definition log_error (format : string) (args : list pyval) : M unit :=
  self_log_message format args.

Definition send_response (code : nat) (message : option string)
  : M unit :=
  log_request code ;;
  send_response_only code message ;;
  w <- gets env ;;
  send_header "Server" (version_string w) ;;
  d <- date_time_string ;;
  send_header "Date" d.

Definition send_error (code : nat) (message explain : option string)
  : M unit :=
  let (shortmsg, longmsg) :=
    match responses code with
    | Some r => r
    | None => ("???", "???")
    end in
  let message := match message with Some m => m | None => shortmsg end in
  let explain := match explain with Some e => e | None => longmsg end in
  log_error "code %d, message %s" [VInt (Z.of_nat code); VStr message] ;;
  send_response code (Some message) ;;
  send_header "Connection" "close" ;;
  w <- gets env ;;
  let body :=
    if (200 <=? code)%nat
       && negb (existsb (Nat.eqb code)
                  [value NO_CONTENT; value RESET_CONTENT;
                   value NOT_MODIFIED])
    then Some (error_page w code message explain)
    else None in
  match body with
  | Some content =>
      send_header "Content-Type" error_content_type ;;
      send_header "Content-Length" (str_of_nat (String.length content))
  | None => ret tt
  end ;;
  self_end_headers ;;
  cmd <- gets command ;;
  match body with
  | Some content =>
      if negb (match cmd with
               | Some c => (c =? "HEAD")%string
               | None => false
               end)
         && negb (content =? "")%string
      then write (Body content)
      else ret tt
  | None => ret tt
  end.

Definition handle_expect_100 : M bool :=
  send_response_only (value CONTINUE) None ;;
  self_end_headers ;;
  ret true.

(** The version word of a request line: [HTTP/<major>.<minor>];
    [None] is the [ValueError] or [IndexError] of the [try] block. *)
Definition version_number (w : world) (version : string)
  : option (string * (Z * Z)) :=
  if negb (startswith version "HTTP/") then None
  else
    match snd (split_once "/"%char version) with
    | None => None
    | Some base_version_number =>
        match split_on "."%char base_version_number with
        | [major; minor] =>
            match py_int w major with
            | None => None
            | Some a =>
                match py_int w minor with
                | None => None
                | Some b => Some (base_version_number, (a, b))
                end
            end
        | _ => None
        end
    end.

Definition parse_request (c : connection) : M bool :=
  modify (with_command None) ;;
  modify (with_request_version default_request_version) ;;
  modify (with_close_connection true) ;;
  let requestline := rstrip is_crlf (raw_requestline c) in
  modify (with_requestline requestline) ;;
  let words := split requestline in
  w <- gets env ;;
  if (List.length words =? 0)%nat then ret false
  else
    version_ok <-
      (if (3 <=? List.length words)%nat then
         let version := last words EmptyString in
         match version_number w version with
         | None =>
             send_error (value BAD_REQUEST)
               (Some ("Bad request version (" ++ py_repr w version ++ ")"))
               None ;;
             ret false
         | Some (base_version_number, number) =>
             (if pair_ge number (1, 1)%Z
                 && str_ge protocol_version "HTTP/1.1"
              then modify (with_close_connection false)
              else ret tt) ;;
             if pair_ge number (2, 0)%Z then
               send_error (value HTTP_VERSION_NOT_SUPPORTED)
                 (Some ("Invalid HTTP version (" ++ base_version_number
                        ++ ")"))
                 None ;;
               ret false
             else
               modify (with_request_version version) ;;
               ret true
         end
       else ret true) ;;
    if negb version_ok then ret false
    else if negb ((2 <=? List.length words)%nat
                  && (List.length words <=? 3)%nat) then
      send_error (value BAD_REQUEST)
        (Some ("Bad request syntax (" ++ py_repr w requestline ++ ")"))
        None ;;
      ret false
    else
      let command := nth 0 words EmptyString in
      let path := nth 1 words EmptyString in
      type_ok <-
        (if (List.length words =? 2)%nat then
           modify (with_close_connection true) ;;
           if negb (command =? "GET")%string then
             send_error (value BAD_REQUEST)
               (Some ("Bad HTTP/0.9 request type (" ++ py_repr w command
                      ++ ")"))
               None ;;
             ret false
           else ret true
         else ret true) ;;
      if negb type_ok then ret false
      else
        modify (with_command (Some command)) ;;
        modify (with_path
                  (if startswith path "//"
                   then "/" ++ lstrip is_slash path
                   else path)) ;;
        match header_block c with
        | LineTooLong err =>
            send_error (value REQUEST_HEADER_FIELDS_TOO_LARGE)
              (Some "Line too long") (Some err) ;;
            ret false
        | HTTPException err =>
            send_error (value REQUEST_HEADER_FIELDS_TOO_LARGE)
              (Some "Too many headers") (Some err) ;;
            ret false
        | Headers hs =>
            modify (with_headers hs) ;;
            let conntype :=
              match get_header "Connection" hs with
              | Some v => v
              | None => EmptyString
              end in
            (if (lower conntype =? "close")%string then
               modify (with_close_connection true)
             else if (lower conntype =? "keep-alive")%string
                     && str_ge protocol_version "HTTP/1.1" then
               modify (with_close_connection false)
             else ret tt) ;;
            let expect :=
              match get_header "Expect" hs with
              | Some v => v
              | None => EmptyString
              end in
            request_version <- gets request_version ;;
            if (lower expect =? "100-continue")%string
               && str_ge protocol_version "HTTP/1.1"
               && str_ge request_version "HTTP/1.1"
            then handle_expect_100
            else ret true
        end.

(** [handle_one_request], with the class's [do_*] attributes as
    [methods]: [methods mname] is [getattr(self, mname)], [None] when
    [hasattr] is false.  An exception raised by the method leaves
    [handle_one_request] with it: the only handler there is for
    [TimeoutError], and reads in the model do not time out. *)
Definition handle_one_request
    (methods : string -> option (M (result unit))) (c : connection)
  : M (result unit) :=
  if (65536 <? Z.of_nat (String.length (raw_requestline c)))%Z then
    modify (with_requestline EmptyString) ;;
    modify (with_request_version EmptyString) ;;
    modify (with_command (Some EmptyString)) ;;
    send_error (value REQUEST_URI_TOO_LONG) None None ;;
    ret (Return tt)
  else if (raw_requestline c =? "")%string then
    modify (with_close_connection true) ;;
    ret (Return tt)
  else
    ok <- parse_request c ;;
    if negb ok then ret (Return tt)
    else
      cmd <- gets command ;;
      let cmd := match cmd with Some s => s | None => EmptyString end in
      let mname := "do_" ++ cmd in
      match methods mname with
      | None =>
          w <- gets env ;;
          send_error (value NOT_IMPLEMENTED)
            (Some ("Unsupported method (" ++ py_repr w cmd ++ ")")) None ;;
          ret (Return tt)
      | Some method => method
      end.

End Methods.

End BaseHTTPRequestHandler.

(* ------------------------------------------------------------------ *)
(** ** Inherited methods: [http.server.SimpleHTTPRequestHandler] *)

Module SimpleHTTPRequestHandler.
Import PyStr Http BaseHTTPRequestHandler.
Open Scope handler_scope.

(** [os.path.join(path, word)] (posixpath) *)
Definition os_path_join (path word : string) : string :=
  if startswith word "/" then word
  else if (path =? "")%string || endswith_slash path then path ++ word
  else path ++ "/" ++ word.

(** [os.path.dirname(word)] is non-empty exactly when [word] holds a
    slash. *)
Definition has_dirname (word : string) : bool := contains "/" word.

Definition translate_path (w : world) (directory path : string) : string :=
  let path := fst (split_once "?"%char path) in
  let path := fst (split_once "#"%char path) in
  let trailing_slash := endswith_slash (rstrip isspace path) in
  let path := unquote w path in
  let path := normpath w path in
  let words := split_on "/"%char path in
  let words := filter (fun word => negb (word =? "")%string) words in
  let path :=
    fold_left
      (fun path word =>
         if has_dirname word || (word =? ".")%string || (word =? "..")%string
         then path
         else os_path_join path word)
      words directory in
  if trailing_slash then path ++ "/" else path.

(** The [If-Modified-Since] test of [send_head]: the request asks for the
    file only if it changed after a date, and it did not. *)
Definition not_modified_since (w : world) (hs : list (string * string))
    (f : file) : bool :=
  if has_header "If-Modified-Since" hs
     && negb (has_header "If-None-Match" hs) then
    match get_header "If-Modified-Since" hs with
    | None => false
    | Some v =>
        match parsedate_to_datetime w v with
        | None => false
        | Some ims =>
            let zone :=
              match tzinfo ims with TzNaive => TzUTC | z => z end in
            match zone with
            | TzUTC => (st_mtime f <=? seconds ims)%Z
            | _ => false
            end
        end
    end
  else false.

Section Methods.
Context {self : RequestHandler}.

(** [list_directory], [send_head]: they return the bytes of the file
    object the caller copies, [None] when the response is already
    complete; they raise what the library calls in them raise and the
    code does not catch. *)
Definition list_directory (path : string) : M (result (option string)) :=
  w <- gets env ;;
  match listdir w path with
  | None =>
      send_error (value NOT_FOUND)
        (Some "No permission to list directory") None ;;
      ret (Return None)
  | Some list =>
      self_path <- gets Http.path ;;
      let enc := getfilesystemencoding w in
      match listing_page w path self_path list with
      | Raise exn => ret (Raise exn)
      | Return encoded =>
          send_response (value OK) None ;;
          send_header "Content-type" ("text/html; charset=" ++ enc) ;;
          send_header "Content-Length"
            (str_of_nat (String.length encoded)) ;;
          self_end_headers ;;
          ret (Return (Some encoded))
      end
  end.

(** The tail of [send_head] once [path] names what to open.  Only
    [OSError] is caught around [open]. *)
Definition send_file_head (path : string) : M (result (option string)) :=
  w <- gets env ;;
  let ctype := guess_type w path in
  if endswith_slash path then
    send_error (value NOT_FOUND) (Some "File not found") None ;;
    ret (Return None)
  else
    match open_rb w path with
    | OSError =>
        send_error (value NOT_FOUND) (Some "File not found") None ;;
        ret (Return None)
    | OpenFails exn => ret (Raise exn)
    | Opened f =>
        hs <- gets headers ;;
        if not_modified_since w hs f then
          send_response (value NOT_MODIFIED) None ;;
          self_end_headers ;;
          ret (Return None)
        else
          send_response (value OK) None ;;
          send_header "Content-type" ctype ;;
          send_header "Content-Length" (str_of_nat (st_size f)) ;;
          send_header "Last-Modified" (date_of_timestamp w (st_mtime f)) ;;
          self_end_headers ;;
          ret (Return (Some (contents f)))
    end.

Definition send_head : M (result (option string)) :=
  w <- gets env ;;
  dir <- gets directory ;;
  self_path <- gets Http.path ;;
  let path := translate_path w dir self_path in
  if isdir w path then
    match urlsplit_path w self_path with
    | Raise exn => ret (Raise exn)
    | Return parts_path =>
        if negb (endswith_slash parts_path) then
          send_response (value MOVED_PERMANENTLY) None ;;
          send_header "Location" (redirect_url w self_path) ;;
          send_header "Content-Length" "0" ;;
          self_end_headers ;;
          ret (Return None)
        else if isfile w (os_path_join path "index.html") then
          send_file_head (os_path_join path "index.html")
        else if isfile w (os_path_join path "index.htm") then
          send_file_head (os_path_join path "index.htm")
        else list_directory path
    end
  else send_file_head path.

(** [shutil.copyfileobj]: the bytes read are written; nothing is
    written for an empty source. *)
Definition copyfile (source : string) : M unit :=
  if (source =? "")%string then ret tt else write (Body source).

Definition do_GET : M (result unit) :=
  f <- send_head ;;
  match f with
  | Raise exn => ret (Raise exn)
  | Return (Some source) => copyfile source ;; ret (Return tt)
  | Return None => ret (Return tt)
  end.

Definition do_HEAD : M (result unit) :=
  f <- send_head ;;
  match f with
  | Raise exn => ret (Raise exn)
  | Return _ => ret (Return tt)
  end.

(** The [do_*] attributes of the class. *)
Definition methods (mname : string) : option (M (result unit)) :=
  if (mname =? "do_GET")%string then Some do_GET
  else if (mname =? "do_HEAD")%string then Some do_HEAD
  else None.

End Methods.

End SimpleHTTPRequestHandler.

(* ------------------------------------------------------------------ *)
(** ** [socketserver.TCPServer] and the process around it *)

Module SocketServer.
Import Http.

(** [BaseServer]'s two private flags and the listening socket. *)
Record server := mkServer {
  server_address : string * Z;
  shutdown_request : bool;    (* __shutdown_request *)
  is_shut_down : bool;        (* __is_shut_down, a threading.Event *)
  listening : bool;
  socket_closed : bool
}.

(** What the process asks of the operating system, in order.  [handled]
    records one served connection: the peer, the directory the handler
    resolved paths against and the frames it wrote. *)
Inductive call :=
| chdir (dir : string)
| bind (host : string) (port : Z)
| listen
| handled (client : string) (root : string) (reply : list frame)
| close.

Record process := mkProcess {
  cwd : string;
  sys_stdout : list string;
  sys_stderr : list string;
  ticks : nat;
  calls : list call
}.

(** What the script does not decide: the interpreter and file system, the
    directory holding the script, and whether binding a port raises (the
    exception's text) or succeeds. *)
Record runtime := {
  os : world;
  script_directory : string;
  bind_error : Z -> option string
}.

(** What happens while [serve_forever] runs: the connections accepted, and
    whether an interrupt signal follows them. *)
Record scenario := {
  arrivals : list connection;
  interrupt : bool
}.

Inductive outcome :=
| Exit (status : Z)    (* the process ended with this status *)
| Serving              (* serve_forever() never returns *)
| Deadlock.            (* shutdown() waits on an event nobody sets *)

Inductive completion :=
| Returned
| KeyboardInterrupt
| Forever.

Definition print (line : string) (p : process) : process :=
  mkProcess (cwd p) (sys_stdout p ++ [line]) (sys_stderr p) (ticks p)
    (calls p).

Definition record (c : call) (p : process) : process :=
  mkProcess (cwd p) (sys_stdout p) (sys_stderr p) (ticks p)
    (calls p ++ [c]).

Definition os_chdir (dir : string) (p : process) : process :=
  mkProcess dir (sys_stdout p) (sys_stderr p) (ticks p)
    (calls p ++ [chdir dir]).

(** An exception nobody catches: the interpreter prints the traceback,
    ending with the exception, on [sys.stderr] and exits with status 1. *)
Definition uncaught (exn : string) (p : process) : outcome * process :=
  (Exit 1,
   mkProcess (cwd p) (sys_stdout p)
     (sys_stderr p ++ ["Traceback (most recent call last):"; exn])
     (ticks p) (calls p)).

Definition server_close (s : server) (p : process) : server * process :=
  (mkServer (server_address s) (shutdown_request s) (is_shut_down s)
     false true,
   record close p).

(** [TCPServer(server_address, RequestHandlerClass)]: the flags start
    unset, the socket is bound and listens; if that raises, the socket is
    closed and the exception raised again. *)
Definition TCPServer (rt : runtime) (server_address : string * Z)
    (p : process) : (string + server) * process :=
  let s := mkServer server_address false false false false in
  let p := record (bind (fst server_address) (snd server_address)) p in
  match bind_error rt (snd server_address) with
  | Some exn =>
      let (_, p) := server_close s p in (inl exn, p)
  | None =>
      let p := record listen p in
      (inr (mkServer server_address false false true false), p)
  end.

(** [shutdown()]: set the request flag, then wait for the event;
    [None] when the wait cannot end. *)
Definition shutdown (s : server) : option server :=
  let s := mkServer (server_address s) true (is_shut_down s)
             (listening s) (socket_closed s) in
  if is_shut_down s then Some s else None.

(** A new handler on an accepted connection:
    [SimpleHTTPRequestHandler.__init__] takes [os.getcwd()] as its
    directory. *)
Definition new_handler (w : world) (c : connection) (p : process)
  : handler :=
  mkHandler w (peer c) (cwd p) EmptyString EmptyString None EmptyString []
    true [] [] (sys_stdout p) (sys_stderr p) (ticks p).

(** [str(client_address)], the pair of host and port. *)
Definition address (w : world) (c : connection) : string :=
  "(" ++ py_repr w (peer c) ++ ", " ++ PyStr.str_of_Z (peer_port c) ++ ")".

(** ["-" * 40] *)
Definition dashes : string :=
  String.concat EmptyString (repeat "-" 40).

(** What [handle_error] prints for an exception: a line of dashes, the
    peer, the traceback [print_exc()] prints and a line of dashes. *)
Definition error_report (w : world) (c : connection) (exn : string)
  : list string :=
  [dashes;
   "Exception occurred during processing of request from " ++ address w c]
  ++ ["Traceback (most recent call last):"] ++ format_tb w c exn ++ [exn]
  ++ [dashes].

Definition handle_error (w : world) (c : connection) (exn : string)
    (p : process) : process :=
  mkProcess (cwd p) (sys_stdout p) (sys_stderr p ++ error_report w c exn)
    (ticks p) (calls p).

Section Serving.
(** [RequestHandlerClass.handle], run on a connection. *)
Variable handle : connection -> M (result unit).

(** [process_request], that is [finish_request]: the handler is made on
    the connection and runs [handle]; what it printed is printed, what it
    wrote is sent, also when an exception leaves it. *)
Definition process_request (rt : runtime) (c : connection) (p : process)
  : result unit * process :=
  let (r, h) := handle c (new_handler (os rt) c p) in
  (r, mkProcess (cwd p) (stdout h) (stderr h) (clock h)
        (calls p ++ [handled (peer c) (directory h) (wfile h)])).

(** [_handle_request_noblock()], the connection accepted: an exception
    that leaves [process_request] is reported by [handle_error], and the
    server goes on. *)
Definition _handle_request_noblock (rt : runtime) (c : connection)
    (p : process) : process :=
  match process_request rt c p with
  | (Return _, p) => p
  | (Raise exn, p) => handle_error (os rt) c exn p
  end.

(** [serve_forever()]: clear the event, serve while no shutdown is
    requested, and in the [finally] clause reset the request flag and set
    the event, also when an interrupt ends the loop.  The interrupt is taken
    between two connections; one that arrives while a connection is handled
    leaves through the same [finally] clause. *)
Definition serve_forever (rt : runtime) (sc : scenario) (s : server)
    (p : process) : completion * server * process :=
  let s := mkServer (server_address s) (shutdown_request s) false
             (listening s) (socket_closed s) in
  let finally (s : server) :=
    mkServer (server_address s) false true (listening s)
      (socket_closed s) in
  if shutdown_request s then (Returned, finally s, p)
  else
    let p := fold_left (fun p c => _handle_request_noblock rt c p)
               (arrivals sc) p in
    if interrupt sc then (KeyboardInterrupt, finally s, p)
    else (Forever, s, p).
End Serving.

End SocketServer.

(* ------------------------------------------------------------------ *)
(** ** The script: [serve.py] *)

Module Serve.
Import PyStr Http.

(** *** [class CORSHTTPRequestHandler(SimpleHTTPRequestHandler)] *)

Section Handler.
Open Scope handler_scope.

Definition end_headers : M unit :=
  BaseHTTPRequestHandler.send_header "Access-Control-Allow-Origin" "*" ;;
  BaseHTTPRequestHandler.send_header
    "Access-Control-Allow-Methods" "GET, POST, OPTIONS" ;;
  BaseHTTPRequestHandler.send_header
    "Access-Control-Allow-Headers" "Content-Type" ;;
  BaseHTTPRequestHandler.end_headers.

Definition log_message (format : string) (args : list pyval) : M unit :=
  t <- BaseHTTPRequestHandler.log_date_time_string ;;
  Http.print ("[" ++ t ++ "] " ++ percent format args).

#[export] Instance CORSHTTPRequestHandler : RequestHandler := {|
  self_end_headers := end_headers;
  self_log_message := log_message
|}.

Definition do_OPTIONS : M unit :=
  BaseHTTPRequestHandler.send_response 200 None ;;
  self_end_headers.

(** The [do_*] attributes of the class: its own, then the inherited. *)
Definition methods (mname : string) : option (M (result unit)) :=
  if (mname =? "do_OPTIONS")%string then Some (returns do_OPTIONS)
  else SimpleHTTPRequestHandler.methods mname.

(** [handle()] as a [CORSHTTPRequestHandler] runs it.  Its loop
    [while not self.close_connection] does not iterate: see
    [handle_closes_connection] below. *)
Definition handle (c : connection) : M (result unit) :=
  modify (with_close_connection true) ;;
  BaseHTTPRequestHandler.handle_one_request methods c.
End Handler.

(** *** [main()] *)

Import SocketServer.

Definition warning : string :=
  "Invalid port number. Using default port 8080.".

Definition stopped : string :=
  String LF "🛑 Server stopped by user".

(** ["-" * 50] *)
Definition rule : string :=
  String.concat EmptyString (repeat "-" 50).

Definition banner (port : Z) (getcwd : string) : list string :=
  [ "🚀 POATC Dashboard Server starting...";
    "📡 Serving at: http://localhost:" ++ str_of_Z port;
    "📡 Network access: http://127.0.0.1:" ++ str_of_Z port;
    "📁 Serving directory: " ++ getcwd;
    "🔗 Dashboard URL: http://localhost:" ++ str_of_Z port ++ "/index.html";
    "⚡ Press Ctrl+C to stop the server";
    rule ].

(** Lines 30-35 of [main]: the port, and the process after the warning
    if one is printed. *)
Definition port_argument (rt : runtime) (argv : list string) (p : process)
  : Z * process :=
  let port := 8080%Z in
  if (1 <? List.length argv)%nat then
    match py_int (os rt) (nth 1 argv EmptyString) with
    | Some n => (n, p)
    | None => (port, SocketServer.print warning p)
    end
  else (port, p).

(** Lines 37-53 of [main]: everything after [port] is known. *)
Definition serve (rt : runtime) (sc : scenario) (port : Z) (p : process)
  : outcome * process :=
  (* Change to the directory containing this script *)
  let p := os_chdir (script_directory rt) p in
  match TCPServer rt (EmptyString, port) p with
  | (inl exn, p) => uncaught exn p
  | (inr httpd, p) =>
      let p := fold_left (fun p line => SocketServer.print line p)
                 (banner port (cwd p)) p in
      match serve_forever handle rt sc httpd p with
      | (Forever, httpd, p) => (Serving, p)
      | (KeyboardInterrupt, httpd, p) =>
          let p := SocketServer.print stopped p in
          match shutdown httpd with
          | None => (Deadlock, p)
          | Some httpd =>
              let (httpd, p) := server_close httpd p in (Exit 0, p)
          end
      | (Returned, httpd, p) =>
          let (httpd, p) := server_close httpd p in (Exit 0, p)
      end
  end.

Definition main (rt : runtime) (sc : scenario) (argv : list string)
    (p : process) : outcome * process :=
  let (port, p) := port_argument rt argv p in
  serve rt sc port p.

(** The process as the interpreter starts the script in directory
    [launch]. *)
Definition start (launch : string) : process :=
  mkProcess launch [] [] 0 [].

End Serve.

(* ------------------------------------------------------------------ *)
(** ** A concrete installation, for running the model *)

Module Sample.
Import PyStr Http SocketServer.

(** *** [int] *)

Definition digit (c : ascii) : option Z :=
  let n := nat_of_ascii c in
  if ((48 <=? n) && (n <=? 57))%nat then Some (Z.of_nat (n - 48)) else None.

(** Digits with single underscores between them, most significant
    first. *)
Fixpoint digits (acc : Z) (after_digit : bool) (s : string) : option Z :=
  match s with
  | EmptyString => if after_digit then Some acc else None
  | String c rest =>
      match digit c with
      | Some d => digits (10 * acc + d) true rest
      | None =>
          if Ascii.eqb c "_"%char && after_digit then
            match rest with
            | EmptyString => None
            | _ => digits acc false rest
            end
          else None
      end
  end.

(** The blanks [int] skips around a number: tab to carriage return, and
    the space. *)
Definition int_blank (c : ascii) : bool :=
  let n := nat_of_ascii c in
  (((9 <=? n) && (n <=? 13)) || (n =? 32))%nat.

Fixpoint count_digits (s : string) : nat :=
  match s with
  | EmptyString => 0
  | String c rest =>
      match digit c with
      | Some _ => S (count_digits rest)
      | None => count_digits rest
      end
  end.

(** [sys.get_int_max_str_digits()] *)
Definition int_max_str_digits : nat := 4300.

(** [int(s)] on ASCII text: blanks around, an optional sign, decimal
    digits with single underscores between them, at most 4300 digits. *)
Definition int (s : string) : option Z :=
  let body := lstrip int_blank (rstrip int_blank s) in
  if (int_max_str_digits <? count_digits body)%nat then None
  else
    match body with
    | EmptyString => None
    | String c rest =>
        if Ascii.eqb c "-"%char then option_map Z.opp (digits 0 false rest)
        else if Ascii.eqb c "+"%char then digits 0 false rest
        else digits 0 false (String c rest)
    end.

(** *** Text helpers *)

Definition hex_digit (c : ascii) : option nat :=
  let n := nat_of_ascii c in
  if ((48 <=? n) && (n <=? 57))%nat then Some (n - 48)
  else if ((65 <=? n) && (n <=? 70))%nat then Some (n - 55)
  else if ((97 <=? n) && (n <=? 102))%nat then Some (n - 87)
  else None.

Definition hex_char (upper : bool) (n : nat) : ascii :=
  if (n <? 10)%nat then ascii_of_nat (48 + n)
  else ascii_of_nat ((if upper then 55 else 87) + n).

(** Two hexadecimal digits of a byte. *)
Definition hex2 (upper : bool) (n : nat) : string :=
  String (hex_char upper (n / 16)) (String (hex_char upper (n mod 16)) "").

(** [html.escape(s, quote=False)] *)
Fixpoint html_escape (s : string) : string :=
  match s with
  | EmptyString => EmptyString
  | String c rest =>
      (if Ascii.eqb c "&"%char then "&amp;"
       else if Ascii.eqb c "<"%char then "&lt;"
       else if Ascii.eqb c ">"%char then "&gt;"
       else String c "") ++ html_escape rest
  end.

(** [repr(s)] for ASCII text. *)
Fixpoint repr_body (quote : ascii) (s : string) : string :=
  match s with
  | EmptyString => EmptyString
  | String c rest =>
      let n := nat_of_ascii c in
      (if Ascii.eqb c quote || Ascii.eqb c "\"%char then String "\" (String c "")
       else if (n =? 9)%nat then "\t"
       else if (n =? 10)%nat then "\n"
       else if (n =? 13)%nat then "\r"
       else if ((n <? 32) || (n =? 127))%nat then "\x" ++ hex2 false n
       else String c "") ++ repr_body quote rest
  end.

Definition repr (s : string) : string :=
  if contains "'" s && negb (contains dquote s)
  then dquote ++ repr_body "034" s ++ dquote
  else "'" ++ repr_body "'" s ++ "'".

(** The first lone surrogate of a text, other than the ones that stand
    for an undecodable byte (U+DC80 to U+DCFF): its position and its
    escape.  A text is held here by its UTF-8 bytes, a surrogate by the
    three bytes the [surrogatepass] handler gives it; for ASCII text the
    bytes are the text. *)
Fixpoint lone_surrogate_from (pos : nat) (s : string)
  : option (nat * string) :=
  match s with
  | EmptyString => None
  | String c rest =>
      let n := nat_of_ascii c in
      let next :=
        lone_surrogate_from
          (if ((128 <=? n) && (n <? 192))%nat then pos else S pos) rest in
      if (n =? 237)%nat then
        match rest with
        | String c1 (String c2 _) =>
            let n1 := nat_of_ascii c1 in
            let n2 := nat_of_ascii c2 in
            let high := (208 + n1 mod 64 / 4)%nat in
            let low := (n1 mod 4 * 64 + n2 mod 64)%nat in
            if ((160 <=? n1) && (n1 <? 192))%nat
               && negb ((high =? 220) && (128 <=? low))%nat
            then Some (pos, "\u" ++ hex2 false high ++ hex2 false low)
            else next
        | _ => next
        end
      else next
  end.

Definition lone_surrogate (s : string) : option (nat * string) :=
  lone_surrogate_from 0 s.

(** The [UnicodeEncodeError] of encoding such a text as UTF-8. *)
Definition encode_error (found : nat * string) : string :=
  "UnicodeEncodeError: 'utf-8' codec can't encode character '"
  ++ snd found ++ "' in position " ++ str_of_nat (fst found)
  ++ ": surrogates not allowed".

(** *** [email.utils.formatdate(timestamp, usegmt=True)] *)

Definition pad (width : nat) (n : Z) : string :=
  let digits := str_of_Z n in
  String.concat "" (repeat "0" (width - String.length digits)) ++ digits.

Definition day_name (n : Z) : string :=
  nth (Z.to_nat n) ["Mon"; "Tue"; "Wed"; "Thu"; "Fri"; "Sat"; "Sun"] "".

Definition month_name (n : Z) : string :=
  nth (Z.to_nat (n - 1))
    ["Jan"; "Feb"; "Mar"; "Apr"; "May"; "Jun";
     "Jul"; "Aug"; "Sep"; "Oct"; "Nov"; "Dec"] "".

(** Year, month and day of the day [days] after 1 January 1970. *)
Definition civil (days : Z) : Z * Z * Z :=
  let z := (days + 719468)%Z in
  let era := (z / 146097)%Z in
  let doe := (z - era * 146097)%Z in
  let yoe := ((doe - doe / 1460 + doe / 36524 - doe / 146096) / 365)%Z in
  let doy := (doe - (365 * yoe + yoe / 4 - yoe / 100))%Z in
  let mp := ((5 * doy + 2) / 153)%Z in
  let d := (doy - (153 * mp + 2) / 5 + 1)%Z in
  let m := (if mp <? 10 then mp + 3 else mp - 9)%Z in
  let y := (yoe + era * 400 + (if m <=? 2 then 1 else 0))%Z in
  (y, m, d).

Definition formatdate (timestamp : Z) : string :=
  let days := (timestamp / 86400)%Z in
  let secs := (timestamp mod 86400)%Z in
  let '(y, m, d) := civil days in
  day_name ((days + 3) mod 7) ++ ", " ++ pad 2 d ++ " " ++ month_name m
  ++ " " ++ pad 4 y ++ " " ++ pad 2 (secs / 3600) ++ ":"
  ++ pad 2 (secs mod 3600 / 60) ++ ":" ++ pad 2 (secs mod 60) ++ " GMT".

(** *** URLs and paths *)

(** [urllib.parse.unquote]: [%XX] becomes the byte [XX]; anything else
    stays. *)
Fixpoint unquote (s : string) : string :=
  match s with
  | EmptyString => EmptyString
  | String c rest =>
      if Ascii.eqb c "%"%char then
        match rest with
        | String a (String b rest') =>
            match hex_digit a, hex_digit b with
            | Some x, Some y =>
                String (ascii_of_nat (16 * x + y)) (unquote rest')
            | _, _ => String c (unquote rest)
            end
        | _ => String c (unquote rest)
        end
      else String c (unquote rest)
  end.

(** [urllib.parse.quote(s)]: every byte but letters, digits and [_.-~/]
    becomes [%XX]. *)
Definition always_safe (c : ascii) : bool :=
  let n := nat_of_ascii c in
  (((48 <=? n) && (n <=? 57)) || ((65 <=? n) && (n <=? 90))
   || ((97 <=? n) && (n <=? 122)))%nat
  || existsb (Ascii.eqb c) ["_"; "."; "-"; "~"; "/"]%char.

Fixpoint quote (s : string) : string :=
  match s with
  | EmptyString => EmptyString
  | String c rest =>
      (if always_safe c then String c ""
       else "%" ++ hex2 true (nat_of_ascii c)) ++ quote rest
  end.

Definition join (sep : string) (words : list string) : string :=
  String.concat sep words.

(** [posixpath.normpath] *)
Definition normpath (path : string) : string :=
  if (path =? "")%string then "."
  else
    let initial_slashes :=
      if startswith path "//" && negb (startswith path "///") then 2
      else if startswith path "/" then 1 else 0 in
    let new_comps :=
      fold_left
        (fun new_comps comp =>
           if (comp =? "")%string || (comp =? ".")%string then new_comps
           else if negb (comp =? "..")%string
                   || ((initial_slashes =? 0)%nat
                       && match new_comps with [] => true | _ => false end)
                   || match new_comps with
                      | last :: _ => (last =? "..")%string
                      | [] => false
                      end
           then comp :: new_comps
           else match new_comps with
                | _ :: popped => popped
                | [] => new_comps
                end)
        (split_on "/" path) [] in
    let path :=
      String.concat "" (repeat "/" initial_slashes)
      ++ join "/" (rev new_comps) in
    if (path =? "")%string then "." else path.

Definition is_scheme_char (c : ascii) : bool :=
  let n := nat_of_ascii c in
  (((48 <=? n) && (n <=? 57)) || ((65 <=? n) && (n <=? 90))
   || ((97 <=? n) && (n <=? 122)))%nat
  || existsb (Ascii.eqb c) ["+"; "-"; "."]%char.

Definition is_alpha (c : ascii) : bool :=
  let n := nat_of_ascii c in
  (((65 <=? n) && (n <=? 90)) || ((97 <=? n) && (n <=? 122)))%nat.

Fixpoint all_chars (p : ascii -> bool) (s : string) : bool :=
  match s with
  | EmptyString => true
  | String c rest => p c && all_chars p rest
  end.

Fixpoint remove_chars (p : ascii -> bool) (s : string) : string :=
  match s with
  | EmptyString => EmptyString
  | String c rest =>
      if p c then remove_chars p rest else String c (remove_chars p rest)
  end.

(** The part of [s] before the first character that satisfies [p], and
    the rest from that character on. *)
Fixpoint break (p : ascii -> bool) (s : string) : string * string :=
  match s with
  | EmptyString => (EmptyString, EmptyString)
  | String c rest =>
      if p c then (EmptyString, s)
      else let (a, b) := break p rest in (String c a, b)
  end.

Record parts := {
  scheme : string; netloc : string; url_path : string;
  query : string; fragment : string
}.

Definition uses_netloc : list string :=
  [""; "ftp"; "http"; "gopher"; "nntp"; "telnet"; "imap"; "wais"; "file";
   "mms"; "https"; "shttp"; "snews"; "prospero"; "rtsp"; "rtspu"; "rsync";
   "svn"; "svn+ssh"; "sftp"; "nfs"; "git"; "git+ssh"; "ws"; "wss"].

(** [urllib.parse.urlsplit].  A host part with a square bracket that has
    no partner is refused, as the library does; the library goes on to
    check the address between a pair of brackets, which no example here
    sends: such a host is refused here too. *)
Definition urlsplit (url : string) : result parts :=
  let url := lstrip (fun c => (nat_of_ascii c <=? 32)%nat) url in
  let url :=
    remove_chars
      (fun c => existsb (Nat.eqb (nat_of_ascii c)) [9; 10; 13]) url in
  let (scheme, url) :=
    match split_once ":" url with
    | (String c pre, Some rest) =>
        if is_alpha c && all_chars is_scheme_char pre
        then (lower (String c pre), rest)
        else (EmptyString, url)
    | _ => (EmptyString, url)
    end in
  let delimiter c := existsb (Ascii.eqb c) ["/"; "?"; "#"]%char in
  let (netloc, url) :=
    match url with
    | String "/" (String "/" rest) => break delimiter rest
    | _ => (EmptyString, url)
    end in
  if contains "[" netloc || contains "]" netloc then
    Raise "ValueError: Invalid IPv6 URL"
  else
    let (url, fragment) := split_once "#" url in
    let (url, query) := split_once "?" url in
    Return {| scheme := scheme; netloc := netloc; url_path := url;
              query := match query with Some q => q | None => "" end;
              fragment := match fragment with Some f => f | None => "" end |}.

(** [urllib.parse.urlunsplit] *)
Definition urlunsplit (p : parts) : string :=
  let url := url_path p in
  let url :=
    if negb (netloc p =? "")%string
       || (negb (scheme p =? "")%string
           && existsb (String.eqb (scheme p)) uses_netloc
           && negb (startswith url "//"))
    then "//" ++ netloc p
         ++ (if negb (url =? "")%string && negb (startswith url "/")
             then "/" ++ url else url)
    else url in
  let url :=
    if negb (scheme p =? "")%string then scheme p ++ ":" ++ url else url in
  let url :=
    if negb (query p =? "")%string then url ++ "?" ++ query p else url in
  if negb (fragment p =? "")%string then url ++ "#" ++ fragment p else url.

(** *** The files *)

Inductive node :=
| RegularFile (f : file)
| Directory (entries : list string).

(** A file system: absolute names, without final slash, and what they
    name. *)
Definition tree : Type := list (string * node).

Definition lookup (t : tree) (name : string) : option node :=
  match find (fun entry => (fst entry =? name)%string) t with
  | Some entry => Some (snd entry)
  | None => None
  end.

Definition has_nul (name : string) : bool :=
  contains (String "000" "") name.

(** A name the system calls refuse before they look. *)
Definition unusable (name : string) : bool :=
  has_nul name
  || match lone_surrogate name with Some _ => true | None => false end.

Definition isdir (t : tree) (name : string) : bool :=
  negb (unusable name)
  && match lookup t (rstrip is_slash name) with
     | Some (Directory _) => true
     | _ => false
     end.

Definition isfile (t : tree) (name : string) : bool :=
  negb (unusable name)
  && match lookup t name with
     | Some (RegularFile _) => true
     | _ => false
     end.

Definition open_rb (t : tree) (name : string) : opened :=
  if has_nul name then OpenFails "ValueError: embedded null byte"
  else
    match lone_surrogate name with
    | Some found => OpenFails (encode_error found)
    | None =>
        match lookup t name with
        | Some (RegularFile f) => Opened f
        | _ => OSError
        end
    end.

Definition listdir (t : tree) (name : string) : option (list string) :=
  if unusable name then None
  else
    match lookup t (rstrip is_slash name) with
    | Some (Directory entries) => Some entries
    | _ => None
    end.

(** [posixpath.splitext(path)[1]]: from the last dot of the last
    component, unless only dots come before it there. *)
Definition splitext (path : string) : string :=
  match rev (split_on "." (last (split_on "/" path) "")) with
  | ext :: before :: more =>
      if all_chars (Ascii.eqb ".") (join "." (rev (before :: more)))
      then "" else "." ++ ext
  | _ => ""
  end.

(** [guess_type], for the kinds of file a dashboard is made of; any
    other extension is taken as unknown to the system's tables. *)
Definition guess_type (path : string) : string :=
  let ext := lower (splitext path) in
  match find (fun kv => (fst kv =? ext)%string)
          [(".html", "text/html"); (".htm", "text/html");
           (".css", "text/css"); (".js", "text/javascript");
           (".json", "application/json"); (".svg", "image/svg+xml");
           (".png", "image/png"); (".gz", "application/gzip")] with
  | Some kv => snd kv
  | None => "application/octet-stream"
  end.

(** *** The installation *)

Definition root : string := "/srv/POATC/Testnet/explorer".

Definition index_html : file :=
  {| contents := "<!DOCTYPE html><title>POATC Dashboard</title>";
     st_size := 45;
     st_mtime := 1790000000 |}.

Definition logo_svg : file :=
  {| contents := "<svg></svg>"; st_size := 11; st_mtime := 1790000000 |}.

(** The script's directory: [index.html] alone, or with a directory
    [assets] beside it. *)
Definition dashboard : tree :=
  [(root, Directory ["index.html"]);
   (root ++ "/index.html", RegularFile index_html)].

Definition dashboard_with_assets : tree :=
  [(root, Directory ["index.html"; "assets"]);
   (root ++ "/index.html", RegularFile index_html);
   (root ++ "/assets", Directory ["logo.svg"]);
   (root ++ "/assets/logo.svg", RegularFile logo_svg)].

(** *** The pages the handler builds *)

(** [DEFAULT_ERROR_MESSAGE % {...}], encoded. *)
Definition error_page (code : nat) (message explain : string) : string :=
  join (String LF "")
    ["<!DOCTYPE HTML>";
     "<html lang=" ++ dquote ++ "en" ++ dquote ++ ">";
     "    <head>";
     "        <meta charset=" ++ dquote ++ "utf-8" ++ dquote ++ ">";
     "        <title>Error response</title>";
     "    </head>";
     "    <body>";
     "        <h1>Error response</h1>";
     "        <p>Error code: " ++ str_of_nat code ++ "</p>";
     "        <p>Message: " ++ html_escape message ++ ".</p>";
     "        <p>Error code explanation: " ++ str_of_nat code ++ " - "
     ++ html_escape explain ++ ".</p>";
     "    </body>";
     "</html>";
     ""].

(** [list.sort(key=lambda a: a.lower())] *)
Fixpoint insert_sorted (name : string) (sorted : list string)
  : list string :=
  match sorted with
  | [] => [name]
  | first :: others =>
      if String.ltb (lower name) (lower first) then name :: sorted
      else first :: insert_sorted name others
  end.

Definition sort (names : list string) : list string :=
  fold_left (fun sorted name => insert_sorted name sorted) names [].

(** The page of [list_directory], encoded; the sample has no symbolic
    links. *)
Definition listing_page (t : tree) (path self_path : string)
    (entries : list string) : result string :=
  let displaypath := html_escape (unquote self_path) in
  let title := "Directory listing for " ++ displaypath in
  let item name :=
    let shown :=
      if isdir t (SimpleHTTPRequestHandler.os_path_join path name)
      then name ++ "/" else name in
    "<li><a href=" ++ dquote ++ quote shown ++ dquote ++ ">"
    ++ html_escape shown ++ "</a></li>" in
  let page :=
    join (String LF "")
      (["<!DOCTYPE HTML>";
        "<html lang=" ++ dquote ++ "en" ++ dquote ++ ">";
        "<head>";
        "<meta charset=" ++ dquote ++ "utf-8" ++ dquote ++ ">";
        "<title>" ++ title ++ "</title>";
        "</head>";
        "<body>";
        "<h1>" ++ title ++ "</h1>";
        "<hr>";
        "<ul>"]
       ++ map item (sort entries)
       ++ ["</ul>"; "<hr>"; "</body>"; "</html>"; ""]) in
  match lone_surrogate page with
  | Some found => Raise (encode_error found)
  | None => Return page
  end.

(** *** The traceback of an exception that leaves a handler *)

Definition tb_frame (file line function code : string)
  : list string :=
  ["  File " ++ dquote ++ "/usr/lib/python3.11/" ++ file ++ dquote
   ++ ", line " ++ line ++ ", in " ++ function;
   "    " ++ code].

(** The expression a frame is in, underlined. *)
Definition underlined (indent width : nat) : list string :=
  [String.concat "" (repeat " " indent)
   ++ String.concat "" (repeat "^" width)].

Definition frames_to_method : list string :=
  tb_frame "socketserver.py" "317" "_handle_request_noblock"
    "self.process_request(request, client_address)"
  ++ tb_frame "socketserver.py" "348" "process_request"
       "self.finish_request(request, client_address)"
  ++ tb_frame "socketserver.py" "361" "finish_request"
       "self.RequestHandlerClass(request, client_address, self)"
  ++ tb_frame "http/server.py" "667" "__init__"
       "super().__init__(*args, **kwargs)"
  ++ tb_frame "socketserver.py" "755" "__init__" "self.handle()"
  ++ tb_frame "http/server.py" "432" "handle" "self.handle_one_request()"
  ++ tb_frame "http/server.py" "420" "handle_one_request" "method()".

Definition frames_in_send_head (exn : string) (listing : bool)
  : list string :=
  if startswith exn "ValueError: Invalid IPv6 URL" then
    tb_frame "http/server.py" "698" "send_head"
      "parts = urllib.parse.urlsplit(self.path)"
    ++ underlined 12 32
    ++ tb_frame "urllib/parse.py" "514" "urlsplit"
         ("raise ValueError(" ++ dquote ++ "Invalid IPv6 URL" ++ dquote
          ++ ")")
  else if listing then
    tb_frame "http/server.py" "715" "send_head"
      "return self.list_directory(path)"
    ++ underlined 11 25
    ++ tb_frame "http/server.py" "819" "list_directory"
         "encoded = '\n'.join(r).encode(enc, 'surrogateescape')"
    ++ underlined 14 43
  else
    tb_frame "http/server.py" "726" "send_head" "f = open(path, 'rb')"
    ++ underlined 8 16.

(** CPython 3.11.2 over a file system, on 4 November 2026 at 10:03,
    tracebacks apart.  The functions are the library's on ASCII request
    lines and command lines whose escapes give ASCII bytes or one lone
    surrogate; [parsedate_to_datetime] knows the dates the examples
    send. *)
Definition library (t : tree) : Http.world := {|
  log_time := fun _ => "04/Nov/2026 10:03:00";
  http_date := fun _ => "Wed, 04 Nov 2026 10:03:00 GMT";
  date_of_timestamp := formatdate;
  version_string := "SimpleHTTP/0.6 Python/3.11.2";
  py_int := int;
  py_repr := repr;
  Http.error_page := error_page;
  Http.unquote := unquote;
  Http.normpath := normpath;
  urlsplit_path := fun url =>
    match urlsplit url with
    | Return p => Return (url_path p)
    | Raise exn => Raise exn
    end;
  redirect_url := fun url =>
    match urlsplit url with
    | Return p =>
        urlunsplit {| scheme := scheme p; netloc := netloc p;
                      url_path := url_path p ++ "/"; query := query p;
                      fragment := fragment p |}
    | Raise _ => url
    end;
  Http.isdir := isdir t;
  Http.isfile := isfile t;
  Http.open_rb := open_rb t;
  Http.listdir := listdir t;
  Http.listing_page := listing_page t;
  getfilesystemencoding := "utf-8";
  Http.guess_type := guess_type;
  parsedate_to_datetime := fun s =>
    if (s =? "Wed, 04 Nov 2026 10:00:00 GMT")%string
    then Some {| seconds := 1793786400; tzinfo := TzUTC |}
    else if (s =? "Wed, 04 Nov 2026 11:00:00 +0100")%string
    then Some {| seconds := 1793786400; tzinfo := TzOther |}
    else if (s =? "Wed, 04 Nov 2026 10:00:00")%string
    then Some {| seconds := 1793786400; tzinfo := TzNaive |}
    else None;
  format_tb := fun _ _ => []
|}.

(** The frames of the traceback: down to the method the request line
    names, then to the call in [send_head] that raised. *)
Definition traceback (t : tree) (c : connection) (exn : string)
  : list string :=
  let words := split (rstrip is_crlf (raw_requestline c)) in
  let head := (nth 0 words "" =? "HEAD")%string in
  let target := nth 1 words "" in
  let target :=
    if startswith target "//" then "/" ++ lstrip is_slash target
    else target in
  let listing :=
    isdir t (SimpleHTTPRequestHandler.translate_path (library t) root target)
  in
  frames_to_method
  ++ tb_frame "http/server.py" (if head then "680" else "671")
       (if head then "do_HEAD" else "do_GET") "f = self.send_head()"
  ++ underlined 8 16
  ++ frames_in_send_head exn listing.

Definition installation (t : tree) : Http.world :=
  let w := library t in {|
  log_time := log_time w;
  http_date := http_date w;
  date_of_timestamp := date_of_timestamp w;
  version_string := version_string w;
  py_int := py_int w;
  py_repr := py_repr w;
  Http.error_page := Http.error_page w;
  Http.unquote := Http.unquote w;
  Http.normpath := Http.normpath w;
  urlsplit_path := urlsplit_path w;
  redirect_url := redirect_url w;
  Http.isdir := Http.isdir w;
  Http.isfile := Http.isfile w;
  Http.open_rb := Http.open_rb w;
  Http.listdir := Http.listdir w;
  Http.listing_page := Http.listing_page w;
  getfilesystemencoding := getfilesystemencoding w;
  Http.guess_type := Http.guess_type w;
  parsedate_to_datetime := parsedate_to_datetime w;
  format_tb := traceback t
|}.

Definition world : Http.world := installation dashboard.

(** The same with the directory [assets]. *)
Definition site : Http.world := installation dashboard_with_assets.

(** [socket.bind] refuses a port outside 0-65535. *)
Definition out_of_range (port : Z) : bool :=
  ((port <? 0) || (65535 <? port))%Z.

(** Every port in range is free. *)
Definition runtime : SocketServer.runtime := {|
  os := world;
  script_directory := root;
  bind_error := fun port =>
    if out_of_range port
    then Some "OverflowError: bind(): port must be 0-65535."
    else None
|}.

(** Port 8080 is taken. *)
Definition busy : SocketServer.runtime := {|
  os := world;
  script_directory := root;
  bind_error := fun port =>
    if out_of_range port
    then Some "OverflowError: bind(): port must be 0-65535."
    else if (port =? 8080)%Z
    then Some "OSError: [Errno 98] Address already in use"
    else None
|}.

Definition client : string := "10.0.0.7".

Definition request (client line : string) (hs : list (string * string))
  : connection :=
  {| peer := client; peer_port := 51234; raw_requestline := line ++ CRLF;
     header_block := Headers hs |}.

Definition launch : process := Serve.start "/home/operator".

(** The process once [main] has changed directory. *)
Definition serving : process :=
  mkProcess root [] [] 0 [].

Definition get_index : connection :=
  request client "GET /index.html HTTP/1.1" [].

Definition get_missing : connection :=
  request client "GET /does-not-exist.xyz HTTP/1.1" [].



(** A request line without version word, as HTTP/0.9 clients send. *)
Definition get_index_bare : connection :=
  request client "GET /index.html" [].

Definition garbage : connection :=
  request client "garbage" [].

Definition options_anything : connection :=
  request client "OPTIONS /anything HTTP/1.1" [].


Definition post_index : connection :=
  request client "POST /index.html HTTP/1.1" [].

Definition interrupted : scenario :=
  {| arrivals := [get_index; options_anything]; interrupt := true |}.

Definition head_index : connection :=
  request client "HEAD /index.html HTTP/1.1" [].

(** The dashboard's address without a file name. *)
Definition get_root : connection :=
  request client "GET / HTTP/1.1" [].

Definition options_bare : connection :=
  request client "OPTIONS /anything" [].

Definition post_bare : connection :=
  request client "POST /index.html" [].

Definition post_http2 : connection :=
  request client "POST /index.html HTTP/2.0" [].

(** A request line of 65537 bytes or more: [readline(65537)] returns its
    first 65537 bytes. *)
Definition get_long : connection :=
  {| peer := client; peer_port := 51234;
     raw_requestline :=
       "GET /" ++ String.concat EmptyString (repeat "a" (Z.to_nat 65532));
     header_block := Headers [] |}.

(** The peer connects and closes. *)
Definition silent : connection :=
  {| peer := client; peer_port := 51234; raw_requestline := EmptyString;
     header_block := Headers [] |}.

(** The peer sends an empty line. *)
Definition blank : connection :=
  request client "" [].

Definition get_assets : connection :=
  request client "GET /assets HTTP/1.1" [].

Definition get_assets_listing : connection :=
  request client "GET /assets/ HTTP/1.1" [].

(** Three requests the code has no answer for: a NUL byte in the name to
    open, a host part that opens a bracket in a path that names the root,
    and a lone surrogate in the query of a directory's address. *)
Definition get_nul : connection :=
  request client "GET /%00 HTTP/1.1" [].

Definition head_nul : connection :=
  request client "HEAD /%00 HTTP/1.1" [].

Definition get_bracket : connection :=
  request client "GET http://[/../.. HTTP/1.1" [].

Definition get_assets_surrogate : connection :=
  request client "GET /assets/?x=%ED%A0%80 HTTP/1.1" [].

(** A path that climbs out of the root, if it is followed. *)
Definition get_passwd : connection :=
  request client "GET /../../etc/passwd HTTP/1.1" [].

Definition another_client : connection :=
  request "10.0.0.8" "GET /index.html HTTP/1.1" [].

Definition busy_morning : scenario :=
  {| arrivals := [get_index; another_client; options_anything];
     interrupt := false |}.

Definition with_a_fault : scenario :=
  {| arrivals := [get_index; get_nul; options_anything];
     interrupt := true |}.

End Sample.

(* ------------------------------------------------------------------ *)
(** * Vocabulary of the statements *)

Module Spec.
Import PyStr Http SocketServer.
Local Open Scope list_scope.

(** The three headers of [CORSHTTPRequestHandler.end_headers], in the order
    it sends them. *)
Definition cors_headers : list frame :=
  [ HeaderLine "Access-Control-Allow-Origin" "*";
    HeaderLine "Access-Control-Allow-Methods" "GET, POST, OPTIONS";
    HeaderLine "Access-Control-Allow-Headers" "Content-Type" ].

Definition is_header (f : frame) : Prop :=
  match f with HeaderLine _ _ => True | _ => False end.

Definition is_body (f : frame) : Prop :=
  match f with Body _ => True | _ => False end.

(** What a handler knows of the request it is answering. *)
Record request := mkRequest {
  rq_line : string;
  rq_version : string;
  rq_command : option string;
  rq_path : string;
  rq_headers : list (string * string)
}.

Definition request_of (h : handler) : request :=
  mkRequest (requestline h) (request_version h) (command h) (path h)
    (headers h).

(** The request is answered in the style of HTTP/0.9: no status line and no
    headers are sent. *)
Definition bare (rq : request) : bool :=
  (rq_version rq =? "HTTP/0.9")%string.

(** A header other than [Connection], or [Connection: close]. *)
Definition plain_header (keyword value : string) : bool :=
  negb (lower keyword =? "connection")%string
  || (lower value =? "close")%string.

(** A complete reply with a header block: status line, headers, the three
    CORS headers last, the blank line, then the body. *)
Definition full_reply (code : nat) (body out : list frame) : Prop :=
  exists message hdrs,
    out = StatusLine BaseHTTPRequestHandler.protocol_version code message
            :: hdrs ++ cors_headers ++ BlankLine :: body
    /\ Forall is_header hdrs.

(** The two lines the handler prints. *)
Definition access_line (w : world) (k : nat) (rl : string) (code : nat)
  : string :=
  ("[" ++ log_time w k ++ "] " ++ dquote ++ rl ++ dquote ++ " "
   ++ str_of_nat code ++ " -")%string.

Definition error_line (w : world) (k : nat) (code : nat) (message : string)
  : string :=
  ("[" ++ log_time w k ++ "] code " ++ str_of_Z (Z.of_nat code)
   ++ ", message " ++ message)%string.

(** What one response prints: its access line, after an error line when the
    status is an error status. *)
Definition logged (w : world) (rl : string) (code : nat)
    (lines : list string) : Prop :=
  if (400 <=? code)%nat then
    exists k k' message,
      lines = [error_line w k code message; access_line w k' rl code]
  else exists k, lines = [access_line w k rl code].

Definition is_handled (e : call) : Prop :=
  match e with handled _ _ _ => True | _ => False end.

(** A call that can follow start-up when the serving root is [d]: a
    connection handled against [d], or the final close. *)
Definition after_startup (d : string) (e : call) : Prop :=
  match e with
  | handled _ root _ => root = d
  | listen | close => True
  | chdir _ | bind _ _ => False
  end.

(** Hoare triples and weakest preconditions over the handler monad. *)
Definition triple {A} (P : handler -> Prop) (c : M A)
    (Q : A -> handler -> Prop) : Prop :=
  forall h, P h -> Q (fst (c h)) (snd (c h)).

Definition wp {A} (c : M A) (Q : A -> handler -> Prop) (h : handler) : Prop :=
  Q (fst (c h)) (snd (c h)).

Section Phases.
(** The handler of one connection: its world, serving root and peer, and
    the two process streams as it found them. *)
Variables (w : world) (d a : string) (out0 err0 : list string).

(** What handling a request never changes. *)
Definition framed (h : handler) : Prop :=
  env h = w /\ directory h = d /\ client_address h = a
  /\ stderr h = err0 /\ close_connection h = true.

(** Nothing sent, nothing printed. *)
Definition idle (h : handler) : Prop :=
  framed h /\ wfile h = [] /\ headers_buffer h = [] /\ stdout h = out0.

(** The request [rq] is read and nothing is sent yet. *)
Definition ready (rq : request) (h : handler) : Prop :=
  idle h /\ request_of h = rq.

(** [send_error] has printed its line and sent nothing yet. *)
Definition error_logged (rq : request) (code : nat) (h : handler) : Prop :=
  framed h /\ request_of h = rq /\ wfile h = [] /\ headers_buffer h = []
  /\ exists k message, stdout h = out0 ++ [error_line w k code message].

Definition logs (rq : request) (code : nat) (h : handler) : Prop :=
  exists lines,
    stdout h = out0 ++ lines /\ logged w (rq_line rq) code lines.

(** The response is logged and nothing is buffered yet. *)
Definition begun (rq : request) (code : nat) (h : handler) : Prop :=
  framed h /\ request_of h = rq /\ wfile h = [] /\ headers_buffer h = []
  /\ logs rq code h.

(** The response is begun: status line and headers are in the buffer. *)
Definition head (rq : request) (code : nat) (h : handler) : Prop :=
  framed h /\ request_of h = rq /\ wfile h = [] /\ logs rq code h
  /\ if bare rq then headers_buffer h = []
     else exists message hdrs,
         headers_buffer h
         = StatusLine BaseHTTPRequestHandler.protocol_version code message
             :: hdrs
         /\ Forall is_header hdrs.

(** The headers are ended and flushed; [body] follows them. *)
Definition done (rq : request) (code : nat) (body : list frame)
    (h : handler) : Prop :=
  framed h /\ request_of h = rq /\ headers_buffer h = [] /\ logs rq code h
  /\ Forall is_body body
  /\ if bare rq then wfile h = body else full_reply code body (wfile h).

(** Where [handle_one_request] can leave the handler. *)
Definition answered (h : handler) : Prop :=
  idle h \/ exists rq code body, done rq code body h.

(** What [send_head] and its helpers leave: a finished head when they return
    a source to copy, a finished reply when they return nothing, and
    nothing sent or printed when they raise. *)
Definition head_sent (rq : request) (f : result (option string))
    (h : handler) : Prop :=
  match f with
  | Return (Some _) => exists code, done rq code [] h
  | Return None => exists code body, done rq code body h
  | Raise _ => ready rq h
  end.

Definition replied (rq : request) (h : handler) : Prop :=
  exists code body, done rq code body h.

(** What a method leaves: a reply when it returns, nothing sent or
    printed when it raises. *)
Definition method_left (rq : request) (r : result unit) (h : handler)
  : Prop :=
  match r with
  | Return _ => replied rq h
  | Raise _ => ready rq h
  end.

(** The connection carries a request line of three words, [method target
    version], that is not over-long, whose version word the parser accepts
    (below 2.0) and is not the literal [HTTP/0.9], followed by a header
    block that parses to [hs].  [rq] is the request the handler records. *)
Definition well_formed (c : connection) (method target : string)
    (hs : list (string * string)) (rq : request) : Prop :=
  (Z.of_nat (String.length (raw_requestline c)) <= 65536)%Z
  /\ exists version base number,
       split (rstrip is_crlf (raw_requestline c)) = [method; target; version]
       /\ BaseHTTPRequestHandler.version_number w version
          = Some (base, number)
       /\ BaseHTTPRequestHandler.pair_ge number (2, 0)%Z = false
       /\ (version =? "HTTP/0.9")%string = false
       /\ header_block c = Headers hs
       /\ rq = mkRequest (rstrip is_crlf (raw_requestline c)) version
                 (Some method)
                 (if startswith target "//"
                  then ("/" ++ lstrip is_slash target)%string else target)
                 hs.

End Phases.

(** The handler after it served connection [c] in process [p]. *)
Definition reply_to (w : world) (c : connection) (p : process) : handler :=
  exec (Serve.handle c) (new_handler w c p).

(** How [handle] ended there: it returned, or an exception left it. *)
Definition ending (w : world) (c : connection) (p : process)
  : result unit :=
  fst (Serve.handle c (new_handler w c p)).

(** *** The same, read off the connection *)

(** The line [parse_request] takes as the request line. *)
Definition line_of (c : connection) : string :=
  rstrip is_crlf (raw_requestline c).

Definition over_long (c : connection) : bool :=
  (65536 <? Z.of_nat (String.length (raw_requestline c)))%Z.

(** The connection sends no word: it closes, or sends blanks only. *)
Definition wordless (c : connection) : bool :=
  negb (over_long c)
  && match split (line_of c) with [] => true | _ => false end.

(** [self.path] for the second word of a request line. *)
Definition path_of (target : string) : string :=
  if startswith target "//" then ("/" ++ lstrip is_slash target)%string
  else target.

(** The request [parse_request] accepts and records: two words of which
    the first is [GET], or three words of which the last is a version
    below 2.0, and in both cases a header block that parses.  [None] is
    every other connection. *)
Definition accepted (w : world) (c : connection) : option request :=
  let with_headers (rq : list (string * string) -> request) :=
    match header_block c with
    | Headers hs => Some (rq hs)
    | _ => None
    end in
  match split (line_of c) with
  | [command; target] =>
      if (command =? "GET")%string
      then with_headers
             (mkRequest (line_of c)
                BaseHTTPRequestHandler.default_request_version
                (Some command) (path_of target))
      else None
  | [command; target; version] =>
      match BaseHTTPRequestHandler.version_number w version with
      | Some (_, number) =>
          if BaseHTTPRequestHandler.pair_ge number (2, 0)%Z then None
          else with_headers
                 (mkRequest (line_of c) version (Some command)
                    (path_of target))
      | None => None
      end
  | _ => None
  end.

(** The exception that leaves [open], if one does: a name with a final
    slash is refused before it is opened. *)
Definition open_fault (w : world) (name : string) : option string :=
  if endswith_slash name then None
  else match open_rb w name with
       | OpenFails exn => Some exn
       | _ => None
       end.

(** The exception that leaves [send_head] for a request path, if one
    does: from [urlsplit] when the path names a directory, from encoding
    the listing of a directory without index page, from [open]
    otherwise. *)
Definition send_head_fault (w : world) (d target : string)
  : option string :=
  let name := SimpleHTTPRequestHandler.translate_path w d target in
  if isdir w name then
    match urlsplit_path w target with
    | Raise exn => Some exn
    | Return parts_path =>
        if negb (endswith_slash parts_path) then None
        else if isfile w (SimpleHTTPRequestHandler.os_path_join name
                            "index.html")
        then open_fault w
               (SimpleHTTPRequestHandler.os_path_join name "index.html")
        else if isfile w (SimpleHTTPRequestHandler.os_path_join name
                            "index.htm")
        then open_fault w
               (SimpleHTTPRequestHandler.os_path_join name "index.htm")
        else match listdir w name with
             | None => None
             | Some entries =>
                 match listing_page w name target entries with
                 | Raise exn => Some exn
                 | Return _ => None
                 end
             end
    end
  else open_fault w name.

(** The exception that leaves the handler of a connection served from
    directory [d], if one does: only [GET] and [HEAD] can raise. *)
Definition fault (w : world) (d : string) (c : connection) : option string :=
  if over_long c then None
  else
    match accepted w c with
    | Some rq =>
        match rq_command rq with
        | Some command =>
            if (command =? "GET")%string || (command =? "HEAD")%string
            then send_head_fault w d (rq_path rq)
            else None
        | None => None
        end
    | None => None
    end.

(** What a connection leaves behind in its handler: nothing when the
    handler raises or the line holds no word, and otherwise one reply,
    logged under the request line. *)
Definition left_behind (w : world) (d a : string) (out0 err0 : list string)
    (c : connection) (h : handler) : Prop :=
  match fault w d c with
  | Some _ => idle w d a out0 err0 h
  | None =>
      if wordless c then idle w d a out0 err0 h
      else exists rq code body,
          done w d a out0 err0 rq code body h
          /\ rq_line rq = (if over_long c then EmptyString else line_of c)
  end.

(** [r] is how a call with that fault ends. *)
Definition ends_with {A} (r : result A) (f : option string) : Prop :=
  match f with
  | Some exn => r = Raise exn
  | None => exists a, r = Return a
  end.


(** *** Path resolution *)

(** A word that names one thing in a directory. *)
Definition simple (word : string) : Prop :=
  word <> EmptyString /\ word <> "."%string /\ word <> ".."%string
  /\ contains "/" word = false.

(** The components of a request path that [translate_path] follows: the
    words between the slashes of the path without query and fragment,
    unquoted and normalised, except empty words, [.] and [..]. *)
Definition components (w : world) (target : string) : list string :=
  let path := fst (split_once "#" (fst (split_once "?" target))) in
  filter
    (fun word =>
       negb (word =? "")%string && negb (word =? ".")%string
       && negb (word =? "..")%string)
    (split_on "/" (normpath w (unquote w path))).

Definition ends_with_slash (target : string) : bool :=
  endswith_slash
    (rstrip isspace (fst (split_once "#" (fst (split_once "?" target))))).

(** [root/word/.../word], with a final slash or not. *)
Definition below (root : string) (words : list string) (slash : bool)
  : string :=
  (root
   ++ fold_right (fun word rest => "/" ++ word ++ rest)
        (if slash then "/" else "") words)%string.

End Spec.

(* ------------------------------------------------------------------ *)
(** * Further vocabulary: exact replies and what a run shows *)

Module Observe.
Import PyStr Http SocketServer Spec.
Local Open Scope list_scope.

(** A line printed by the override [log_message]. *)
Definition log_line (l : string) : Prop :=
  exists t message, l = ("[" ++ t ++ "] " ++ message)%string.

(** The peers of the connections a trace shows handled, in order. *)
Definition clients (cs : list call) : list string :=
  flat_map (fun e => match e with
                     | handled client _ _ => [client]
                     | _ => []
                     end) cs.

(** The reason phrase [send_response_only] puts on the status line. *)
Definition status_message (code : nat) (message : option string) : string :=
  match message with
  | Some m => m
  | None => match responses code with
            | Some r => fst r
            | None => EmptyString
            end
  end.

(** The frames every reply with headers starts with, as [send_response]
    buffers them; [k] is the reading of the clock the date comes from. *)
Definition preamble (w : world) (code : nat) (message : string) (k : nat)
  : list frame :=
  [ StatusLine BaseHTTPRequestHandler.protocol_version code message;
    HeaderLine "Server" (version_string w);
    HeaderLine "Date" (http_date w k) ].

Section Exact.
Variables (w : world) (d a : string) (out0 err0 : list string).

(** The reply to [rq] has headers and exactly [frames] are buffered. *)
Definition buffered (rq : request) (code : nat) (frames : list frame)
    (h : handler) : Prop :=
  head w d a out0 err0 rq code h
  /\ bare rq = false /\ headers_buffer h = frames.

(** The reply to [rq] has headers and exactly [frames] were written. *)
Definition sent (rq : request) (code : nat) (frames : list frame)
    (h : handler) : Prop :=
  done w d a out0 err0 rq code [] h
  /\ bare rq = false /\ wfile h = frames.

End Exact.

(** The names of the three headers of [end_headers]. *)
Definition cors_names : list string :=
  [ "Access-Control-Allow-Origin"; "Access-Control-Allow-Methods";
    "Access-Control-Allow-Headers" ].

(** [f] is a header line named [keyword]; header names compare without
    case. *)
Definition names (keyword : string) (f : frame) : bool :=
  match f with
  | HeaderLine k _ => (lower k =? lower keyword)%string
  | _ => false
  end.

Definition header_count (keyword : string) (fs : list frame) : nat :=
  List.length (filter (names keyword) fs).

Definition is_blank (f : frame) : bool :=
  match f with BlankLine => true | _ => false end.

Definition blank_count (fs : list frame) : nat :=
  List.length (filter is_blank fs).

(** A keyword that is none of the three names. *)
Definition other_name (keyword : string) : bool :=
  forallb (fun n => negb (lower keyword =? lower n)%string) cors_names.

(** Written and buffered frames together hold as many headers named
    [keyword] as blank lines. *)
Definition balanced (keyword : string) (h : handler) : Prop :=
  header_count keyword (wfile h) + header_count keyword (headers_buffer h)
  = blank_count (wfile h) + blank_count (headers_buffer h).

(** The headers of a file's reply, after the preamble. *)
Definition file_headers (w : world) (name : string) (f : file)
  : list frame :=
  [ HeaderLine "Content-type" (guess_type w name);
    HeaderLine "Content-Length" (str_of_nat (st_size f));
    HeaderLine "Last-Modified" (date_of_timestamp w (st_mtime f)) ].

(** The headers of a directory listing, after the preamble. *)
Definition listing_headers (w : world) (page : string) : list frame :=
  [HeaderLine "Content-type"
     ("text/html; charset=" ++ getfilesystemencoding w);
   HeaderLine "Content-Length" (str_of_nat (String.length page))].

(** The headers of an error reply, after the preamble. *)
Definition error_headers (page : string) : list frame :=
  [ HeaderLine "Connection" "close";
    HeaderLine "Content-Type" BaseHTTPRequestHandler.error_content_type;
    HeaderLine "Content-Length" (str_of_nat (String.length page)) ].

(** The frame a non-empty byte string is written as. *)
Definition body_frames (data : string) : list frame :=
  if (data =? "")%string then [] else [Body data].

(** What [handle_error] printed for the connections of [cs] whose
    handler raised, in order. *)
Definition reports (w : world) (d : string) (cs : list connection)
  : list string :=
  flat_map (fun c => match fault w d c with
                     | Some exn => error_report w c exn
                     | None => []
                     end) cs.

(** A request line of two words, as HTTP/0.9 clients send, that is not
    over-long. *)
Definition versionless (c : connection) (method target : string) : Prop :=
  (Z.of_nat (String.length (raw_requestline c)) <= 65536)%Z
  /\ split (rstrip is_crlf (raw_requestline c)) = [method; target].

End Observe.

(* ------------------------------------------------------------------ *)
(** * A program logic for handler methods *)

Section HandlerLogic.
Import PyStr Http Spec BaseHTTPRequestHandler Serve.
Local Open Scope list_scope.

Lemma wp_ret {A} (x : A) Q h : Q x h -> wp (ret x) Q h.
Proof. exact (fun H => H). Qed.

Lemma wp_bind {A B} (c : M A) (k : A -> M B) Q h :
  wp c (fun x h' => wp (k x) Q h') h -> wp (bind c k) Q h.
Proof.
  unfold wp, bind. destruct (c h) as [x h1]. exact (fun H => H).
Qed.

Lemma wp_gets {A} (f : handler -> A) Q h : Q (f h) h -> wp (gets f) Q h.
Proof. exact (fun H => H). Qed.

Lemma wp_modify (f : handler -> handler) Q h :
  Q tt (f h) -> wp (modify f) Q h.
Proof. exact (fun H => H). Qed.

Lemma wp_triple {A} (P : handler -> Prop) (c : M A) R Q h :
  triple P c R -> P h -> (forall x h', R x h' -> Q x h') -> wp c Q h.
Proof. intros T HP HQ. apply HQ, T, HP. Qed.

Lemma triple_wp {A} (P : handler -> Prop) (c : M A) Q :
  (forall h, P h -> wp c Q h) -> triple P c Q.
Proof. exact (fun H => H). Qed.

Lemma append_empty_r (s : string) : (s ++ "")%string = s.
Proof. induction s as [|c s IH]; simpl; [reflexivity | now rewrite IH]. Qed.

Variables (w : world) (d a : string) (out0 err0 : list string).
Local Notation "'Idle'" := (idle w d a out0 err0).
Local Notation "'Ready'" := (ready w d a out0 err0).
Local Notation "'ErrorLogged'" := (error_logged w d a out0 err0).
Local Notation "'Begun'" := (begun w d a out0 err0).
Local Notation "'Head'" := (head w d a out0 err0).
Local Notation "'Done'" := (done w d a out0 err0).
Local Notation "'Answered'" := (answered w d a out0 err0).
Local Notation "'head_sent'" := (Spec.head_sent w d a out0 err0).
Local Notation "'replied'" := (Spec.replied w d a out0 err0).
Local Notation "'method_left'" := (Spec.method_left w d a out0 err0).
Local Notation "'left_behind'" := (Spec.left_behind w d a out0 err0).
Local Notation "'well_formed'" := (Spec.well_formed w).

Ltac hsimpl :=
  cbn [env client_address directory requestline request_version command path
       headers close_connection headers_buffer wfile stdout stderr clock
       with_requestline with_request_version with_command with_path
       with_headers with_close_connection with_headers_buffer with_wfile
       with_stdout with_stderr with_clock fst snd
       request_of rq_line rq_version rq_command rq_path rq_headers] in *.

Ltac phases :=
  unfold answered, done, head, begun, error_logged, ready, idle, logs, framed,
    bare, full_reply in *;
  hsimpl.

Ltac wp_call T :=
  eapply wp_triple; [ T | try eassumption | cbv beta; intros ? ? ? ].

(** *** The override [log_message] *)

Lemma log_message_line (format : string) (args : list pyval) (h : handler) :
  self_log_message format args h
  = (tt, with_stdout
           (stdout h ++ [("[" ++ log_time (env h) (clock h) ++ "] "
                          ++ percent format args)%string])
           (with_clock (S (clock h)) h)).
Proof. reflexivity. Qed.

Lemma log_request_line (code : nat) (h : handler) :
  log_request code h
  = (tt, with_stdout
           (stdout h ++ [access_line (env h) (clock h) (requestline h) code])
           (with_clock (S (clock h)) h)).
Proof.
  unfold log_request, bind, gets. hsimpl. rewrite log_message_line.
  reflexivity.
Qed.

Lemma log_error_spec (rq : request) (code : nat) (message : string) :
  triple (Ready rq)
    (log_error "code %d, message %s" [VInt (Z.of_nat code); VStr message])
    (fun _ => ErrorLogged rq code).
Proof.
  intros h ((F & Hw & Hb & Ho) & Hr). pose proof F as (E1 & _).
  unfold log_error. rewrite log_message_line. phases.
  split; [exact F|]; split; [exact Hr|]; split; [exact Hw|];
    split; [exact Hb|].
  exists (clock h), message. rewrite Ho, E1. unfold error_line. simpl.
  now rewrite append_empty_r.
Qed.

Lemma log_request_plain (rq : request) (code : nat) :
  (400 <=? code)%nat = false ->
  triple (Ready rq) (log_request code) (fun _ => Begun rq code).
Proof.
  intros Hc h ((F & Hw & Hb & Ho) & Hr). pose proof F as (E1 & _).
  rewrite log_request_line. phases. unfold logged. rewrite Hc.
  split; [exact F|]; split; [exact Hr|]; split; [exact Hw|];
    split; [exact Hb|].
  exists [access_line w (clock h) (requestline h) code].
  subst rq. split; [rewrite Ho, E1; reflexivity | now exists (clock h)].
Qed.

Lemma log_request_error (rq : request) (code : nat) :
  (400 <=? code)%nat = true ->
  triple (ErrorLogged rq code) (log_request code) (fun _ => Begun rq code).
Proof.
  intros Hc h (F & Hr & Hw & Hb & k & m & Ho). pose proof F as (E1 & _).
  rewrite log_request_line. phases. unfold logged. rewrite Hc.
  split; [exact F|]; split; [exact Hr|]; split; [exact Hw|];
    split; [exact Hb|].
  eexists; split; [rewrite Ho, <- app_assoc; reflexivity|].
  subst rq. exists k, (clock h), m; rewrite E1; reflexivity.
Qed.

(** *** Status line and headers *)

Lemma send_response_only_spec (rq : request) (code : nat)
    (message : option string) :
  triple (Begun rq code) (send_response_only code message)
    (fun _ => Head rq code).
Proof.
  intros h (F & Hr & Hw & Hb & Hl). phases.
  unfold send_response_only, bind, gets, modify, ret. hsimpl.
  subst rq; hsimpl.
  destruct (request_version h =? "HTTP/0.9")%string eqn:V; cbn [negb]; hsimpl.
  all: split; [exact F|]; split; [reflexivity|]; split; [exact Hw|];
    split; [exact Hl|].
  - exact Hb.
  - rewrite Hb. do 2 eexists. split; [reflexivity|constructor].
Qed.

Lemma date_time_string_head (rq : request) (code : nat) :
  triple (Head rq code) date_time_string (fun _ => Head rq code).
Proof.
  intros h H. phases. unfold date_time_string, time, bind, gets, ret. hsimpl.
  exact H.
Qed.

Lemma send_header_spec (rq : request) (code : nat) (keyword value : string) :
  plain_header keyword value = true ->
  triple (Head rq code) (send_header keyword value) (fun _ => Head rq code).
Proof.
  intros Hk h (F & Hr & Hw & Hl & Hb).
  phases. unfold plain_header in Hk.
  unfold send_header, bind, gets, modify, ret. hsimpl.
  subst rq; hsimpl.
  destruct (request_version h =? "HTTP/0.9")%string eqn:V; cbn [negb]; hsimpl;
    destruct (lower keyword =? "connection")%string; simpl in Hk;
    rewrite ?Hk; hsimpl.
  all: split; [tauto|]; split; [reflexivity|]; split; [exact Hw|];
    split; [exact Hl|].
  all: try exact Hb.
  all: destruct Hb as (m & hdrs & Hb & Fh); rewrite Hb;
    exists m, (hdrs ++ [HeaderLine keyword value]);
    (split; [reflexivity|]); apply Forall_app; split;
    [assumption | repeat constructor].
Qed.

(** The bytes of the three headers. *)
Lemma cors_headers_on_the_wire :
  map encode cors_headers
  = [ ("Access-Control-Allow-Origin: *" ++ CRLF)%string;
      ("Access-Control-Allow-Methods: GET, POST, OPTIONS" ++ CRLF)%string;
      ("Access-Control-Allow-Headers: Content-Type" ++ CRLF)%string ].
Proof. reflexivity. Qed.

Lemma send_header_plain (keyword value : string) (h : handler) :
  (lower keyword =? "connection")%string = false ->
  send_header keyword value h
  = (tt, if bare (request_of h) then h
         else with_headers_buffer
                (headers_buffer h ++ [HeaderLine keyword value]) h).
Proof.
  intros Hk. unfold send_header, bind, gets, modify, ret, bare. hsimpl.
  rewrite Hk. destruct (request_version h =? "HTTP/0.9")%string; reflexivity.
Qed.

(** The override [end_headers], as one step: in a reply with headers, the
    buffer, the three CORS headers and the blank line reach the client
    together. *)
Lemma end_headers_eq (h : handler) :
  Serve.end_headers h
  = (tt, if bare (request_of h) then h
         else with_headers_buffer []
                (with_wfile
                   (wfile h ++ headers_buffer h ++ cors_headers ++ [BlankLine])
                   h)).
Proof.
  unfold Serve.end_headers, bind.
  rewrite send_header_plain by (vm_compute; reflexivity).
  destruct (bare (request_of h)) eqn:V.
  - rewrite send_header_plain by (vm_compute; reflexivity). rewrite V.
    rewrite send_header_plain by (vm_compute; reflexivity). rewrite V.
    unfold BaseHTTPRequestHandler.end_headers, bind, gets, ret.
    unfold bare in V. hsimpl. now rewrite V.
  - rewrite send_header_plain by (vm_compute; reflexivity).
    unfold bare in *. hsimpl. rewrite V.
    rewrite send_header_plain by (vm_compute; reflexivity).
    unfold bare in *. hsimpl. rewrite V.
    unfold BaseHTTPRequestHandler.end_headers, flush_headers, bind, gets,
      modify, ret.
    hsimpl. rewrite V. cbn [negb]. hsimpl. unfold cors_headers.
    rewrite <- !app_assoc. reflexivity.
Qed.

Lemma end_headers_spec (rq : request) (code : nat) :
  triple (Head rq code) self_end_headers (fun _ => Done rq code []).
Proof.
  intros h (F & Hr & Hw & Hl & Hb).
  change (@self_end_headers CORSHTTPRequestHandler) with Serve.end_headers.
  rewrite end_headers_eq. rewrite Hr. phases.
  destruct (rq_version rq =? "HTTP/0.9")%string eqn:V; hsimpl.
  all: split; [exact F|]; split; [exact Hr|];
    split; [try exact Hb; reflexivity|];
    split; [exact Hl|]; split; [constructor|].
  - exact Hw.
  - destruct Hb as (m & hdrs & Hb & Fh). rewrite Hb, Hw. simpl.
    exists m, hdrs. split; [|assumption]. reflexivity.
Qed.

Lemma write_body_spec (rq : request) (code : nat) (data : string) :
  triple (Done rq code []) (write (Body data))
    (fun _ => Done rq code [Body data]).
Proof.
  intros h (F & Hr & Hb & Hl & _ & Hw).
  phases. unfold write, modify. hsimpl.
  split; [exact F|]; split; [exact Hr|]; split; [exact Hb|];
    split; [exact Hl|].
  split; [repeat constructor|].
  destruct (rq_version rq =? "HTTP/0.9")%string eqn:V.
  - now rewrite Hw.
  - destruct Hw as (m & hdrs & Hw & Fh). exists m, hdrs. split; [|assumption].
    rewrite Hw. simpl. rewrite <- !app_assoc. reflexivity.
Qed.

(** *** [send_response] and [send_error] *)

Lemma send_response_plain (rq : request) (code : nat)
    (message : option string) :
  (400 <=? code)%nat = false ->
  triple (Ready rq) (send_response code message) (fun _ => Head rq code).
Proof.
  intros Hc. apply triple_wp; intros h Hh. unfold send_response.
  apply wp_bind. wp_call ltac:(apply log_request_plain; exact Hc).
  apply wp_bind. wp_call ltac:(apply send_response_only_spec).
  apply wp_bind, wp_gets.
  apply wp_bind. wp_call ltac:(apply send_header_spec; vm_compute; reflexivity).
  apply wp_bind. wp_call ltac:(apply date_time_string_head).
  wp_call ltac:(apply send_header_spec; vm_compute; reflexivity).
  assumption.
Qed.

Lemma send_response_error (rq : request) (code : nat)
    (message : option string) :
  (400 <=? code)%nat = true ->
  triple (ErrorLogged rq code) (send_response code message)
    (fun _ => Head rq code).
Proof.
  intros Hc. apply triple_wp; intros h Hh. unfold send_response.
  apply wp_bind. wp_call ltac:(apply log_request_error; exact Hc).
  apply wp_bind. wp_call ltac:(apply send_response_only_spec).
  apply wp_bind, wp_gets.
  apply wp_bind. wp_call ltac:(apply send_header_spec; vm_compute; reflexivity).
  apply wp_bind. wp_call ltac:(apply date_time_string_head).
  wp_call ltac:(apply send_header_spec; vm_compute; reflexivity).
  assumption.
Qed.

Lemma send_error_spec (rq : request) (code : nat)
    (message explain : option string) :
  (400 <=? code)%nat = true ->
  triple (Ready rq) (send_error code message explain)
    (fun _ h => exists body, Done rq code body h).
Proof.
  intros Hc. apply triple_wp; intros h Hh. unfold send_error.
  destruct (responses code) as [[shortmsg longmsg]|].
  all: apply wp_bind; wp_call ltac:(apply log_error_spec).
  all: apply wp_bind; wp_call ltac:(apply send_response_error; exact Hc).
  all: apply wp_bind;
    wp_call ltac:(apply send_header_spec; vm_compute; reflexivity).
  all: apply wp_bind, wp_gets.
  all: match goal with
       | |- context [if ?b then Some _ else None] => destruct b
       end.
  all: apply wp_bind.
  all: try (apply wp_bind;
            wp_call ltac:(apply send_header_spec; vm_compute; reflexivity);
            wp_call ltac:(apply send_header_spec; vm_compute; reflexivity)).
  all: try apply wp_ret.
  all: apply wp_bind; wp_call ltac:(apply end_headers_spec).
  all: apply wp_bind, wp_gets.
  all: try (apply wp_ret; eexists; eassumption).
  all: match goal with
       | |- wp (if ?b then _ else _) _ _ => destruct b
       end.
  all: try (apply wp_ret; eexists; eassumption).
  all: wp_call ltac:(apply write_body_spec); eexists; eassumption.
Qed.

(** *** Entering a phase *)

Lemma ready_now (h : handler) : Idle h -> Ready (request_of h) h.
Proof. intros H; split; [exact H | reflexivity]. Qed.

Lemma not_http_1_1 : str_ge protocol_version "HTTP/1.1" = false.
Proof. reflexivity. Qed.

Ltac hsimpl_goal :=
  cbn [env client_address directory requestline request_version command path
       headers close_connection headers_buffer wfile stdout stderr clock
       with_requestline with_request_version with_command with_path
       with_headers with_close_connection with_headers_buffer with_wfile
       with_stdout with_stderr with_clock fst snd
       request_of rq_line rq_version rq_command rq_path rq_headers].

Ltac idle_now :=
  match goal with
  | H : idle _ _ _ _ _ _ |- _ =>
      let H' := fresh in
      pose proof H as H'; unfold idle, framed in H';
      destruct H' as ((? & ? & ? & ? & ?) & ? & ? & ?);
      unfold idle, framed; hsimpl_goal;
      solve [repeat apply conj; first [assumption | reflexivity]]
  end.

Ltac dead_branch :=
  match goal with
  | H : context [str_ge protocol_version "HTTP/1.1"] |- _ =>
      rewrite not_http_1_1 in H; rewrite ?andb_false_r in H;
      cbn [andb] in H; discriminate H
  end.

Ltac enter :=
  first [ eassumption | apply ready_now; idle_now ].

Ltac wp_step :=
  lazymatch goal with
  | |- wp (bind _ _) _ _ => apply wp_bind
  | |- wp (ret _) _ _ => apply wp_ret
  | |- wp (gets _) _ _ => apply wp_gets
  | |- wp (modify _) _ _ => apply wp_modify
  | |- wp (send_error _ _ _) _ _ =>
      eapply wp_triple;
      [apply send_error_spec; reflexivity | enter | cbv beta; intros ? ? ?]
  | |- wp (send_response _ _) _ _ =>
      eapply wp_triple;
      [apply send_response_plain; reflexivity | enter | cbv beta; intros ? ? ?]
  | |- wp (send_header _ _) _ _ =>
      eapply wp_triple;
      [apply send_header_spec; vm_compute; reflexivity
      | eassumption | cbv beta; intros ? ? ?]
  | |- wp self_end_headers _ _ =>
      eapply wp_triple;
      [apply end_headers_spec | eassumption | cbv beta; intros ? ? ?]
  | |- wp (write (Body _)) _ _ =>
      eapply wp_triple;
      [apply write_body_spec | eassumption | cbv beta; intros ? ? ?]
  | |- wp (match (if ?b then _ else _) with _ => _ end) _ _ =>
      destruct b eqn:?; try dead_branch
  | |- wp (if ?b then ?t else ?e) ?Q ?h =>
      lazymatch b with
      | negb true => change (wp e Q h)
      | negb false => change (wp t Q h)
      | _ => destruct b eqn:?; try dead_branch
      end
  | |- wp (match ?x with _ => _ end) _ _ => destruct x eqn:?
  | |- wp (let (_, _) := ?x in _) _ _ => destruct x eqn:?
  end.

Ltac wp_run := repeat wp_step.

Ltac finish :=
  first [ eassumption
        | eexists; eassumption
        | do 2 eexists; eassumption
        | do 3 eexists; eassumption ].

(** *** [SimpleHTTPRequestHandler] *)

Lemma list_directory_spec (rq : request) (p : string) :
  triple (Ready rq) (SimpleHTTPRequestHandler.list_directory p)
    (head_sent rq).
Proof.
  apply triple_wp; intros h Hh.
  unfold SimpleHTTPRequestHandler.list_directory, head_sent.
  wp_run; finish.
Qed.

Lemma send_file_head_spec (rq : request) (p : string) :
  triple (Ready rq) (SimpleHTTPRequestHandler.send_file_head p)
    (head_sent rq).
Proof.
  apply triple_wp; intros h Hh.
  unfold SimpleHTTPRequestHandler.send_file_head, head_sent.
  wp_run; finish.
Qed.

Lemma send_head_spec (rq : request) :
  triple (Ready rq) SimpleHTTPRequestHandler.send_head (head_sent rq).
Proof.
  apply triple_wp; intros h Hh. unfold SimpleHTTPRequestHandler.send_head.
  wp_run.
  all: try (unfold head_sent; finish).
  all: first [ wp_call ltac:(apply send_file_head_spec)
             | wp_call ltac:(apply list_directory_spec) ]; assumption.
Qed.

Lemma do_GET_spec (rq : request) :
  triple (Ready rq) SimpleHTTPRequestHandler.do_GET (method_left rq).
Proof.
  apply triple_wp; intros h Hh. unfold SimpleHTTPRequestHandler.do_GET.
  wp_step. wp_call ltac:(apply send_head_spec).
  unfold SimpleHTTPRequestHandler.copyfile, method_left, replied.
  match goal with
  | H : head_sent _ ?f _ |- _ => destruct f as [[source|]|exn]; cbn in H
  end.
  - match goal with H : exists _, _ |- _ => destruct H as (code & H) end.
    wp_run; finish.
  - wp_step. assumption.
  - wp_step. assumption.
Qed.

Lemma do_HEAD_spec (rq : request) :
  triple (Ready rq) SimpleHTTPRequestHandler.do_HEAD (method_left rq).
Proof.
  apply triple_wp; intros h Hh. unfold SimpleHTTPRequestHandler.do_HEAD.
  wp_step. wp_call ltac:(apply send_head_spec).
  unfold method_left, replied.
  match goal with
  | H : head_sent _ ?f _ |- _ => destruct f as [[source|]|exn]; cbn in H
  end.
  - match goal with H : exists _, _ |- _ => destruct H as (code & H) end.
    wp_step. finish.
  - wp_step. assumption.
  - wp_step. assumption.
Qed.

Lemma do_OPTIONS_spec (rq : request) :
  triple (Ready rq) do_OPTIONS (fun _ => Done rq 200 []).
Proof.
  apply triple_wp; intros h Hh. unfold do_OPTIONS.
  wp_run. assumption.
Qed.

(** A method that returns, as one that could raise. *)
Lemma returns_spec {A} (P : handler -> Prop) (c : M A)
    (Q : A -> handler -> Prop) :
  triple P c Q ->
  triple P (returns c)
    (fun r h => match r with Return x => Q x h | Raise _ => False end).
Proof.
  intros T. apply triple_wp; intros h Hh. unfold returns.
  apply wp_bind. eapply wp_triple; [exact T | exact Hh |].
  cbv beta; intros x h1 H1. apply wp_ret. exact H1.
Qed.

Lemma returns_unit (P : handler -> Prop) (c : M unit)
    (Q : handler -> Prop) :
  triple P c (fun _ => Q) -> triple P (returns c) (fun _ => Q).
Proof.
  intros T h Hh. unfold returns, bind, ret.
  specialize (T h Hh). destruct (c h). exact T.
Qed.

(** *** Reading and dispatching a request *)

Lemma answered_replied (rq : request) (h : handler) :
  replied rq h -> Answered h.
Proof. intros (code & body & H). right. now exists rq, code, body. Qed.

Lemma answered_method_left (rq : request) (r : result unit) (h : handler) :
  method_left rq r h -> Answered h.
Proof.
  destruct r; cbn.
  - apply answered_replied.
  - intros (H & _). now left.
Qed.

Lemma parse_request_spec (c : connection) :
  triple Idle (parse_request c)
    (fun ok h => if ok then Idle h else Answered h).
Proof.
  apply triple_wp; intros h Hh. unfold parse_request.
  wp_run.
  all: solve [idle_now | left; idle_now | right; finish].
Qed.

Lemma method_spec (mname : string) (method : M (result unit))
    (rq : request) :
  methods mname = Some method ->
  triple (Ready rq) method (method_left rq).
Proof.
  unfold methods, SimpleHTTPRequestHandler.methods.
  destruct (mname =? "do_OPTIONS")%string;
    [|destruct (mname =? "do_GET")%string;
      [|destruct (mname =? "do_HEAD")%string]];
    intros E; inversion E; subst method.
  - intros h Hh.
    pose proof (returns_spec _ _ _ (do_OPTIONS_spec rq) h Hh) as H.
    cbv beta in H. destruct (fst (returns do_OPTIONS h)); [|contradiction].
    now exists 200, [].
  - apply do_GET_spec.
  - apply do_HEAD_spec.
Qed.

Lemma handle_one_request_spec (c : connection) :
  triple Idle (handle_one_request methods c) (fun _ => Answered).
Proof.
  apply triple_wp; intros h Hh. unfold handle_one_request.
  wp_step; [|wp_step].
  - wp_run. right; finish.
  - wp_run. left; idle_now.
  - wp_step. wp_call ltac:(apply parse_request_spec).
    match goal with x : bool |- _ => destruct x end; cbn [negb].
    + wp_run.
      * eapply wp_triple;
          [eapply method_spec; eassumption | apply ready_now; eassumption|].
        cbv beta; intros r h1 H1. eapply answered_method_left; eassumption.
      * right; finish.
    + wp_step. assumption.
Qed.

(** Whatever the connection sends, [handle] leaves the handler either
    untouched or with one complete reply, and with [close_connection] set:
    the loop of [handle()] makes no second pass. *)
Lemma handle_spec (c : connection) (h : handler) :
  Idle h -> Answered (exec (handle c) h).
Proof.
  intros Hh. unfold exec, handle.
  change (wp (bind (modify (with_close_connection true))
                (fun _ => handle_one_request methods c))
            (fun _ => Answered) h).
  wp_run. wp_call ltac:(apply handle_one_request_spec).
  - idle_now.
  - assumption.
Qed.

(** *** A well-formed request line *)

Lemma parse_request_well_formed (c : connection) (method target : string)
    (hs : list (string * string)) (rq : request) :
  well_formed c method target hs rq ->
  triple Idle (parse_request c) (fun ok h => ok = true /\ Ready rq h).
Proof.
  intros (_ & version & base & number & Hwords & Hv & Hn & _ & Hh & Hrq).
  apply triple_wp; intros h Hi. unfold parse_request.
  pose proof Hi as ((Ew & _) & _).
  wp_run.
  all: hsimpl;
    rewrite ?Hwords, ?Ew in *; cbn [List.length Nat.leb Nat.eqb last nth] in *.
  all: try discriminate.
  all: try congruence.
  all: try (rewrite Hv in *;
            match goal with
            | H : Some _ = Some _ |- _ => inversion H; subst
            end).
  all: try congruence.
  all: split; [reflexivity|]; split; [idle_now|].
  all: try subst rq; unfold request_of; hsimpl_goal; f_equal; congruence.
Qed.

Lemma ready_facts (rq : request) (h : handler) :
  Ready rq h ->
  env h = w /\ directory h = d /\ command h = rq_command rq
  /\ path h = rq_path rq /\ headers h = rq_headers rq.
Proof.
  intros (((Ew & Ed & _) & _) & Hr). subst rq. repeat split; assumption.
Qed.

(** A well-formed request reaches the method its first word names, with the
    request recorded; a word that names no method is answered 501. *)
Lemma dispatch_well_formed (c : connection) (method target : string)
    (hs : list (string * string)) (rq : request) Q :
  well_formed c method target hs rq ->
  match methods ("do_" ++ method) with
  | Some m => triple (Ready rq) m Q
  | None => forall x h, (exists body, Done rq 501 body h) -> Q x h
  end ->
  triple Idle (handle_one_request methods c) Q.
Proof.
  intros Hwf Hm. pose proof Hwf as (Hlen & version & ? & ? & Hwords & _).
  apply triple_wp; intros h Hi. unfold handle_one_request.
  apply Z.ltb_ge in Hlen. rewrite Hlen.
  destruct (raw_requestline c) as [|ch raw] eqn:Eraw; [discriminate Hwords|].
  rewrite <- Eraw in *. clear Eraw ch raw.
  replace (raw_requestline c =? "")%string with false
    by (destruct (raw_requestline c); [discriminate Hwords | reflexivity]).
  wp_step.
  wp_call ltac:(eapply parse_request_well_formed; eassumption).
  match goal with H : _ = true /\ _ |- _ => destruct H as (-> & Hr) end.
  cbn [negb]. wp_step. wp_step.
  destruct (ready_facts _ _ Hr) as (Ew & _ & Ec & _). rewrite Ec.
  destruct Hwf as (_ & ? & ? & ? & _ & _ & _ & _ & _ & ->).
  cbn [rq_command] in *.
  destruct (methods ("do_" ++ method)) as [m|].
  - apply Hm; assumption.
  - wp_run. apply Hm. assumption.
Qed.

(** *** [GET] of a path that is not a directory *)

Ltac with_facts Hh :=
  let Ew := fresh "Ew" in
  let Ed := fresh "Ed" in
  let Ep := fresh "Ep" in
  let Eh := fresh "Eh" in
  destruct (ready_facts _ _ Hh) as (Ew & Ed & _ & Ep & Eh);
  wp_run; rewrite ?Ew, ?Ed, ?Ep, ?Eh in *; try congruence.

Lemma send_file_head_found (rq : request) (p : string) (f : file) :
  endswith_slash p = false ->
  open_rb w p = Opened f ->
  triple (Ready rq) (SimpleHTTPRequestHandler.send_file_head p)
    (fun r h =>
       if SimpleHTTPRequestHandler.not_modified_since w (rq_headers rq) f
       then r = Return None /\ Done rq 304 [] h
       else r = Return (Some (contents f)) /\ Done rq 200 [] h).
Proof.
  intros Hs Ho. apply triple_wp; intros h Hh.
  unfold SimpleHTTPRequestHandler.send_file_head.
  with_facts Hh.
  all: rewrite Ho in *; try discriminate;
    match goal with
    | H : Opened _ = Opened _ |- _ => inversion H; clear H; subst
    end.
  all: match goal with
       | H : SimpleHTTPRequestHandler.not_modified_since _ _ _ = _ |- _ =>
           rewrite H
       end.
  all: split; [reflexivity | assumption].
Qed.



(** The bytes [copyfile] writes are the bytes of the source. *)
Lemma copyfile_spec (rq : request) (code : nat) (source : string) :
  triple (Done rq code []) (SimpleHTTPRequestHandler.copyfile source)
    (fun _ h => exists body, Done rq code body h /\ wire body = source).
Proof.
  apply triple_wp; intros h Hh. unfold SimpleHTTPRequestHandler.copyfile.
  wp_run.
  - exists []. split; [assumption|].
    symmetry. now apply String.eqb_eq.
  - eexists. split; [eassumption | reflexivity].
Qed.



(** *** [HEAD]: nothing follows the headers *)

Lemma done_command (rq : request) (code : nat) (body : list frame)
    (h : handler) :
  Done rq code body h -> command h = rq_command rq.
Proof. intros (_ & Hr & _). now subst rq. Qed.

Lemma send_error_head_spec (rq : request) (code : nat)
    (message explain : option string) :
  rq_command rq = Some "HEAD" ->
  (400 <=? code)%nat = true ->
  triple (Ready rq) (send_error code message explain)
    (fun _ => Done rq code []).
Proof.
  intros Hhead Hc. apply triple_wp; intros h Hh. unfold send_error.
  destruct (responses code) as [[shortmsg longmsg]|].
  all: apply wp_bind; wp_call ltac:(apply log_error_spec).
  all: apply wp_bind; wp_call ltac:(apply send_response_error; exact Hc).
  all: apply wp_bind;
    wp_call ltac:(apply send_header_spec; vm_compute; reflexivity).
  all: apply wp_bind, wp_gets.
  all: match goal with
       | |- context [if ?b then Some _ else None] => destruct b
       end.
  all: apply wp_bind.
  all: try (apply wp_bind;
            wp_call ltac:(apply send_header_spec; vm_compute; reflexivity);
            wp_call ltac:(apply send_header_spec; vm_compute; reflexivity)).
  all: try apply wp_ret.
  all: apply wp_bind; wp_call ltac:(apply end_headers_spec).
  all: apply wp_bind, wp_gets.
  all: try (apply wp_ret; eassumption).
  all: match goal with
       | H : Done _ _ _ ?h1 |- _ =>
           rewrite (done_command _ _ _ _ H), Hhead
       end.
  all: cbn [String.eqb Ascii.eqb Bool.eqb negb andb]; apply wp_ret; assumption.
Qed.

Ltac wp_head_step Hhead :=
  lazymatch goal with
  | |- wp (send_error _ _ _) _ _ =>
      eapply wp_triple;
      [apply send_error_head_spec; [exact Hhead | reflexivity]
      | enter | cbv beta; intros ? ? ?]
  | _ => wp_step
  end.

(** Two properties of one run hold together. *)
Lemma triple_conj {A} (P : handler -> Prop) (c : M A)
    (Q R : A -> handler -> Prop) :
  triple P c Q -> triple P c R -> triple P c (fun x h => Q x h /\ R x h).
Proof. intros TQ TR h Hh. split; [now apply TQ | now apply TR]. Qed.

Lemma send_head_of_head_spec (rq : request) :
  rq_command rq = Some "HEAD" ->
  triple (Ready rq) SimpleHTTPRequestHandler.send_head
    (fun f h =>
       match f with
       | Return _ => exists code, Done rq code [] h
       | Raise _ => Ready rq h
       end).
Proof.
  intros Hhead. apply triple_wp; intros h Hh.
  unfold SimpleHTTPRequestHandler.send_head,
    SimpleHTTPRequestHandler.send_file_head,
    SimpleHTTPRequestHandler.list_directory.
  repeat wp_head_step Hhead.
  all: cbv beta iota; finish.
Qed.

Lemma do_HEAD_of_head_spec (rq : request) :
  rq_command rq = Some "HEAD" ->
  triple (Ready rq) SimpleHTTPRequestHandler.do_HEAD
    (fun r h =>
       match r with
       | Return _ => exists code, Done rq code [] h
       | Raise _ => Ready rq h
       end).
Proof.
  intros Hhead. apply triple_wp; intros h Hh.
  unfold SimpleHTTPRequestHandler.do_HEAD.
  wp_step. wp_call ltac:(apply send_head_of_head_spec; exact Hhead).
  match goal with
  | H : match ?f with _ => _ end |- _ => destruct f
  end; wp_step; assumption.
Qed.

(** *** Exact headers *)

Import Observe.
Local Notation "'Buffered'" := (buffered w d a out0 err0).
Local Notation "'Sent'" := (sent w d a out0 err0).

Lemma send_response_buffer (code : nat) (message : option string)
    (h : handler) :
  bare (request_of h) = false ->
  headers_buffer (exec (send_response code message) h)
  = headers_buffer h
    ++ preamble (env h) code (status_message code message) (S (clock h)).
Proof.
  intros V. unfold bare in V. hsimpl.
  unfold exec, send_response, bind. rewrite log_request_line.
  unfold send_response_only, bind, gets, modify, ret. hsimpl.
  rewrite V. cbn [negb]. hsimpl.
  rewrite send_header_plain by (vm_compute; reflexivity).
  unfold bare at 1. hsimpl. rewrite V.
  unfold date_time_string, time, bind, gets, ret. hsimpl.
  rewrite send_header_plain by (vm_compute; reflexivity).
  unfold bare. hsimpl. rewrite V. hsimpl.
  rewrite <- !app_assoc. reflexivity.
Qed.

Lemma send_response_frames (rq : request) (code : nat)
    (message : option string) :
  (400 <=? code)%nat = false ->
  bare rq = false ->
  triple (Ready rq) (send_response code message)
    (fun _ h =>
       exists k,
         Buffered rq code (preamble w code (status_message code message) k) h).
Proof.
  intros Hc V h Hh. exists (S (clock h)).
  split; [now apply send_response_plain|]. split; [exact V|].
  destruct Hh as (((Ew & _) & _ & Hb & _) & Hr).
  change (snd (send_response code message h))
    with (exec (send_response code message) h).
  rewrite send_response_buffer by (now rewrite Hr).
  now rewrite Hb, Ew.
Qed.

Lemma send_header_frames (rq : request) (code : nat) (frames : list frame)
    (keyword value : string) :
  (lower keyword =? "connection")%string = false ->
  triple (Buffered rq code frames) (send_header keyword value)
    (fun _ => Buffered rq code (frames ++ [HeaderLine keyword value])).
Proof.
  intros Hk h (Hh & V & Hb).
  split; [apply send_header_spec;
          [unfold plain_header; now rewrite Hk | exact Hh]|].
  split; [exact V|].
  rewrite send_header_plain by exact Hk.
  destruct Hh as (_ & Hr & _). rewrite Hr, V. hsimpl. now rewrite Hb.
Qed.

Lemma end_headers_frames (rq : request) (code : nat) (frames : list frame) :
  triple (Buffered rq code frames) self_end_headers
    (fun _ => Sent rq code (frames ++ cors_headers ++ [BlankLine])).
Proof.
  intros h (Hh & V & Hb).
  split; [now apply end_headers_spec|]. split; [exact V|].
  change (@self_end_headers CORSHTTPRequestHandler) with Serve.end_headers.
  rewrite end_headers_eq.
  destruct Hh as (_ & Hr & Hw & _). rewrite Hr, V. hsimpl.
  now rewrite Hw, Hb.
Qed.

Lemma do_OPTIONS_frames (rq : request) :
  bare rq = false ->
  triple (Ready rq) do_OPTIONS
    (fun _ h =>
       exists k,
         Sent rq 200 (preamble w 200 "OK" k ++ cors_headers ++ [BlankLine]) h).
Proof.
  intros V. apply triple_wp; intros h Hh. unfold do_OPTIONS.
  wp_step.
  wp_call ltac:(apply (send_response_frames rq 200 None); [reflexivity | exact V]).
  match goal with H : exists _, _ |- _ => destruct H as (k & H) end.
  wp_call ltac:(apply end_headers_frames).
  exists k. assumption.
Qed.

(** [GET] of a directory named without its final slash. *)
Lemma do_GET_redirect (rq : request) (parts_path : string) :
  bare rq = false ->
  let name := SimpleHTTPRequestHandler.translate_path w d (rq_path rq) in
  isdir w name = true ->
  urlsplit_path w (rq_path rq) = Return parts_path ->
  endswith_slash parts_path = false ->
  triple (Ready rq) SimpleHTTPRequestHandler.do_GET
    (fun _ h =>
       exists k,
         Sent rq 301
           (preamble w 301 "Moved Permanently" k
            ++ [HeaderLine "Location" (redirect_url w (rq_path rq));
                HeaderLine "Content-Length" "0"]
            ++ cors_headers ++ [BlankLine]) h).
Proof.
  intros V name Hd Hu Hs. apply triple_wp; intros h Hh.
  unfold SimpleHTTPRequestHandler.do_GET, SimpleHTTPRequestHandler.send_head.
  destruct (ready_facts _ _ Hh) as (Ew & Ed & _ & Ep & _).
  do 7 wp_step. rewrite Ew, Ed, Ep. fold name. rewrite Hd, Hu. cbv iota.
  rewrite Hs. cbn [negb].
  wp_step.
  wp_call ltac:(apply (send_response_frames rq 301 None);
                [reflexivity | exact V]).
  match goal with H : exists _, _ |- _ => destruct H as (k & H) end.
  wp_step.
  wp_call ltac:(apply send_header_frames; vm_compute; reflexivity).
  wp_step.
  wp_call ltac:(apply send_header_frames; vm_compute; reflexivity).
  wp_step. wp_call ltac:(apply end_headers_frames).
  do 2 wp_step. exists k.
  match goal with H : Sent _ _ _ _ |- _ => revert H end.
  rewrite <- !app_assoc. exact (fun H => H).
Qed.

(** *** Request lines the parser refuses *)

Lemma handle_over_long (c : connection) :
  (65536 < Z.of_nat (String.length (raw_requestline c)))%Z ->
  triple Idle (handle_one_request methods c)
    (fun _ h =>
       request_version h = EmptyString
       /\ exists rq body, Done rq 414 body h /\ bare rq = false).
Proof.
  intros Hlen. apply triple_wp; intros h Hh. unfold handle_one_request.
  apply Z.ltb_lt in Hlen. rewrite Hlen.
  wp_run.
  match goal with
  | H : exists body, Done ?rq _ body _ |- _ =>
      destruct H as (body & H); pose proof H as (_ & Hr & _);
      split; [exact (f_equal rq_version Hr)|];
      exists rq, body; split; [exact H | reflexivity]
  end.
Qed.

Lemma handle_versionless (c : connection) (method target : string) :
  versionless c method target ->
  (method =? "GET")%string = false ->
  triple Idle (handle_one_request methods c)
    (fun _ h =>
       exists rq body,
         Done rq 400 body h
         /\ rq_version rq = "HTTP/0.9"%string
         /\ rq_line rq = rstrip is_crlf (raw_requestline c)).
Proof.
  intros (Hlen & Hwords) Hm. apply triple_wp; intros h Hh.
  unfold handle_one_request.
  apply Z.ltb_ge in Hlen. rewrite Hlen.
  replace (raw_requestline c =? "")%string with false
    by (destruct (raw_requestline c); [discriminate Hwords | reflexivity]).
  wp_step. unfold parse_request.
  wp_run.
  all: hsimpl; rewrite ?Hwords in *;
    cbn [List.length Nat.eqb Nat.leb nth negb andb] in *;
    rewrite ?Hm in *; cbn [negb] in *.
  all: try discriminate.
  all: try congruence.
  all: match goal with
       | H : exists body, Done ?rq _ body _ |- _ =>
           destruct H as (body & H); exists rq, body;
           split; [exact H | split; reflexivity]
       end.
Qed.

(** *** [GET] of a directory that holds [index.html] *)

Lemma last_char_append (s t : string) :
  t <> EmptyString -> last_char (s ++ t) = last_char t.
Proof.
  intros Ht. induction s as [|ch s IH]; [reflexivity|].
  simpl. rewrite IH.
  destruct (s ++ t)%string eqn:E; [|reflexivity].
  destruct s; simpl in E; [now elim Ht | discriminate E].
Qed.

Lemma index_has_no_trailing_slash (name : string) :
  endswith_slash (SimpleHTTPRequestHandler.os_path_join name "index.html")
  = false.
Proof.
  unfold SimpleHTTPRequestHandler.os_path_join.
  change (startswith "index.html" "/") with false. cbv iota.
  destruct ((name =? "")%string || endswith_slash name);
    unfold endswith_slash; now rewrite last_char_append by discriminate.
Qed.

Lemma do_GET_index (rq : request) (parts_path : string) (f : file) :
  let name := SimpleHTTPRequestHandler.translate_path w d (rq_path rq) in
  let index := SimpleHTTPRequestHandler.os_path_join name "index.html" in
  isdir w name = true ->
  urlsplit_path w (rq_path rq) = Return parts_path ->
  endswith_slash parts_path = true ->
  isfile w index = true ->
  open_rb w index = Opened f ->
  triple (Ready rq) SimpleHTTPRequestHandler.do_GET
    (fun _ h =>
       if SimpleHTTPRequestHandler.not_modified_since w (rq_headers rq) f
       then Done rq 304 [] h
       else exists body, Done rq 200 body h /\ wire body = contents f).
Proof.
  intros name index Hd Hu Hs Hf Ho. apply triple_wp; intros h Hh.
  unfold SimpleHTTPRequestHandler.do_GET, SimpleHTTPRequestHandler.send_head.
  destruct (ready_facts _ _ Hh) as (Ew & Ed & _ & Ep & _).
  do 7 wp_step. rewrite Ew, Ed, Ep. fold name. rewrite Hd, Hu. cbv iota.
  rewrite Hs. cbn [negb].
  fold index. rewrite Hf.
  wp_call ltac:(apply send_file_head_found;
                [apply index_has_no_trailing_slash | exact Ho]).
  destruct (SimpleHTTPRequestHandler.not_modified_since w (rq_headers rq) f).
  - match goal with H : _ /\ _ |- _ => destruct H as (-> & H) end.
    wp_step. assumption.
  - match goal with H : _ /\ _ |- _ => destruct H as (-> & H) end.
    wp_step. wp_call ltac:(apply copyfile_spec). wp_step. assumption.
Qed.

(** *** Exact replies with a body *)

Lemma send_response_error_frames (rq : request) (code : nat)
    (message : option string) :
  (400 <=? code)%nat = true ->
  bare rq = false ->
  triple (ErrorLogged rq code) (send_response code message)
    (fun _ h =>
       exists k,
         Buffered rq code (preamble w code (status_message code message) k) h).
Proof.
  intros Hc V h Hh. exists (S (clock h)).
  split; [now apply send_response_error|]. split; [exact V|].
  destruct Hh as ((Ew & _) & Hr & _ & Hb & _).
  change (snd (send_response code message h))
    with (exec (send_response code message) h).
  rewrite send_response_buffer by (now rewrite Hr).
  now rewrite Hb, Ew.
Qed.

Lemma send_header_close_frames (rq : request) (code : nat)
    (frames : list frame) :
  triple (Buffered rq code frames) (send_header "Connection" "close")
    (fun _ => Buffered rq code (frames ++ [HeaderLine "Connection" "close"])).
Proof.
  intros h (Hh & V & Hb).
  split; [apply send_header_spec; [reflexivity | exact Hh]|].
  split; [exact V|].
  destruct Hh as (_ & Hr & _). apply (f_equal rq_version) in Hr.
  unfold bare in V. rewrite <- Hr in V. hsimpl.
  unfold send_header, bind, gets, modify, ret. hsimpl. rewrite V.
  cbn [negb]. hsimpl. change (lower "Connection" =? "connection")%string
    with true. change (lower "close" =? "close")%string with true.
  hsimpl. now rewrite Hb.
Qed.

Lemma write_frames (rq : request) (code : nat) (frames : list frame)
    (data : string) :
  triple (Sent rq code frames) (write (Body data))
    (fun _ h => Done rq code [Body data] h
                /\ wfile h = frames ++ [Body data]).
Proof.
  intros h (Hd & V & Hw).
  split; [now apply write_body_spec|].
  unfold write, modify. hsimpl. now rewrite Hw.
Qed.

(** An error reply with headers, to a request that is not a HEAD. *)
Lemma send_error_frames (rq : request) (code : nat) (message : string)
    (explain : option string) :
  (400 <=? code)%nat = true ->
  bare rq = false ->
  rq_command rq <> Some "HEAD"%string ->
  let page :=
    error_page w code message
      (match explain with
       | Some e => e
       | None => match responses code with
                 | Some r => snd r
                 | None => "???"%string
                 end
       end) in
  triple (Ready rq) (send_error code (Some message) explain)
    (fun _ h =>
       exists k,
         wfile h = preamble w code message k ++ error_headers page
                   ++ cors_headers ++ [BlankLine] ++ body_frames page).
Proof.
  intros Hc V Hcmd page. apply triple_wp; intros h Hh. unfold send_error.
  pose proof Hh as (((Ew & _) & _) & _).
  assert (E200 : ((200 <=? code)%nat
                  && negb (existsb (Nat.eqb code)
                             [value NO_CONTENT; value RESET_CONTENT;
                              value NOT_MODIFIED])) = true).
  { apply Nat.leb_le in Hc. apply andb_true_intro. split.
    - apply Nat.leb_le. lia.
    - cbn. destruct (Nat.eqb_spec code 204); [lia|].
      destruct (Nat.eqb_spec code 205); [lia|].
      destruct (Nat.eqb_spec code 304); [lia | reflexivity]. }
  assert (Epage :
            forall h', env h' = w ->
              error_page (env h') code message
                (match explain with
                 | Some e => e
                 | None => let (_, longmsg) :=
                             match responses code with
                             | Some r => r
                             | None => ("???"%string, "???"%string)
                             end in longmsg
                 end) = page).
  { intros h' ->. unfold page. destruct explain; [reflexivity|].
    destruct (responses code) as [[? ?]|]; reflexivity. }
  destruct (responses code) as [[shortmsg longmsg]|] eqn:R.
  all: apply wp_bind; wp_call ltac:(apply log_error_spec).
  all: apply wp_bind;
    wp_call ltac:(apply (send_response_error_frames rq code (Some message));
                  [exact Hc | exact V]).
  all: match goal with H : exists _, _ |- _ => destruct H as (k & H) end.
  all: apply wp_bind; wp_call ltac:(apply send_header_close_frames).
  all: apply wp_bind, wp_gets.
  all: rewrite E200.
  all: match goal with
       | H : Buffered _ _ _ ?h1 |- _ =>
           let E := fresh "E" in
           assert (E : env h1 = w) by (destruct H as (((? & _) & _) & _);
                                        assumption);
           rewrite (Epage h1 E)
       end.
  all: apply wp_bind; apply wp_bind.
  all: wp_call ltac:(apply send_header_frames; vm_compute; reflexivity).
  all: wp_call ltac:(apply send_header_frames; vm_compute; reflexivity).
  all: apply wp_bind; wp_call ltac:(apply end_headers_frames).
  all: apply wp_bind, wp_gets.
  all: match goal with
       | H : Sent _ _ _ ?h1 |- _ =>
           let Hd := fresh "Hd" in
           pose proof H as (Hd & _);
           rewrite (done_command _ _ _ _ Hd)
       end.
  all: assert (Hn : match rq_command rq with
                    | Some c0 => (c0 =? "HEAD")%string
                    | None => false
                    end = false)
    by (destruct (rq_command rq) as [c0|]; [|reflexivity];
        apply String.eqb_neq; congruence).
  all: rewrite Hn; cbn [negb andb]; unfold body_frames.
  all: destruct (page =? "")%string; cbn [negb].
  all: try (apply wp_ret; exists k;
            match goal with H : Sent _ _ _ _ |- _ =>
              destruct H as (_ & _ & ->) end;
            unfold error_headers; rewrite <- !app_assoc; reflexivity).
  all: wp_call ltac:(apply write_frames).
  all: exists k;
    match goal with H : _ /\ wfile _ = _ |- _ => destruct H as (_ & ->) end;
    unfold error_headers; rewrite <- !app_assoc; reflexivity.
Qed.

Ltac wp_pure :=
  repeat lazymatch goal with
         | |- wp (bind _ _) _ _ => apply wp_bind
         | |- wp (ret _) _ _ => apply wp_ret
         | |- wp (gets _) _ _ => apply wp_gets
         | |- wp (modify _) _ _ => apply wp_modify
         end.

Lemma do_GET_file_frames (rq : request) (f : file) :
  bare rq = false ->
  let name := SimpleHTTPRequestHandler.translate_path w d (rq_path rq) in
  isdir w name = false ->
  endswith_slash name = false ->
  open_rb w name = Opened f ->
  SimpleHTTPRequestHandler.not_modified_since w (rq_headers rq) f = false ->
  triple (Ready rq) SimpleHTTPRequestHandler.do_GET
    (fun _ h =>
       exists k,
         wfile h = preamble w 200 "OK" k ++ file_headers w name f
                   ++ cors_headers ++ [BlankLine]
                   ++ body_frames (contents f)).
Proof.
  intros V name Hd Hs Ho Hn. apply triple_wp; intros h Hh.
  unfold SimpleHTTPRequestHandler.do_GET, SimpleHTTPRequestHandler.send_head,
    SimpleHTTPRequestHandler.send_file_head.
  destruct (ready_facts _ _ Hh) as (Ew & Ed & _ & Ep & Eh).
  wp_pure. rewrite Ew, Ed, Ep. fold name. rewrite Hd.
  wp_pure. rewrite ?Ew, Hs. wp_pure. rewrite ?Ew, Ho.
  wp_pure. rewrite ?Eh, ?Ew, Hn. wp_pure.
  wp_call ltac:(apply (send_response_frames rq 200 None);
                [reflexivity | exact V]).
  match goal with H : exists _, _ |- _ => destruct H as (k & H) end.
  wp_step.
  wp_call ltac:(apply send_header_frames; vm_compute; reflexivity).
  wp_step.
  wp_call ltac:(apply send_header_frames; vm_compute; reflexivity).
  wp_step.
  wp_call ltac:(apply send_header_frames; vm_compute; reflexivity).
  wp_step. wp_call ltac:(apply end_headers_frames).
  wp_step. wp_step. unfold SimpleHTTPRequestHandler.copyfile, body_frames.
  destruct (contents f =? "")%string.
  - wp_pure. exists k.
    match goal with H : Sent _ _ _ _ |- _ => destruct H as (_ & _ & ->) end.
    unfold file_headers. rewrite <- !app_assoc. reflexivity.
  - wp_call ltac:(apply write_frames). wp_pure. exists k.
    match goal with H : _ /\ wfile _ = _ |- _ => destruct H as (_ & ->) end.
    unfold file_headers. rewrite <- !app_assoc. reflexivity.
Qed.

Lemma do_GET_missing_frames (rq : request) :
  bare rq = false ->
  rq_command rq <> Some "HEAD"%string ->
  let name := SimpleHTTPRequestHandler.translate_path w d (rq_path rq) in
  let page :=
    error_page w 404 "File not found" "Nothing matches the given URI" in
  isdir w name = false ->
  endswith_slash name = true \/ open_rb w name = OSError ->
  triple (Ready rq) SimpleHTTPRequestHandler.do_GET
    (fun _ h =>
       exists k,
         wfile h = preamble w 404 "File not found" k ++ error_headers page
                   ++ cors_headers ++ [BlankLine] ++ body_frames page).
Proof.
  intros V Hcmd name page Hd Ho. apply triple_wp; intros h Hh.
  unfold SimpleHTTPRequestHandler.do_GET, SimpleHTTPRequestHandler.send_head,
    SimpleHTTPRequestHandler.send_file_head.
  destruct (ready_facts _ _ Hh) as (Ew & Ed & _ & Ep & Eh).
  wp_pure. rewrite Ew, Ed, Ep. fold name. rewrite Hd.
  wp_pure. rewrite ?Ew.
  destruct (endswith_slash name) eqn:Hs;
    [|destruct Ho as [Ho|Ho]; [discriminate Ho | rewrite Ho]].
  all: wp_pure.
  all: wp_call ltac:(apply (send_error_frames rq 404 "File not found" None);
                     [reflexivity | exact V | exact Hcmd]).
  all: wp_pure; assumption.
Qed.

Lemma do_GET_listing_frames (rq : request) (parts_path page : string)
    (entries : list string) :
  bare rq = false ->
  let name := SimpleHTTPRequestHandler.translate_path w d (rq_path rq) in
  isdir w name = true ->
  urlsplit_path w (rq_path rq) = Return parts_path ->
  endswith_slash parts_path = true ->
  isfile w (SimpleHTTPRequestHandler.os_path_join name "index.html") = false ->
  isfile w (SimpleHTTPRequestHandler.os_path_join name "index.htm") = false ->
  listdir w name = Some entries ->
  listing_page w name (rq_path rq) entries = Return page ->
  triple (Ready rq) SimpleHTTPRequestHandler.do_GET
    (fun _ h =>
       exists k,
         wfile h = preamble w 200 "OK" k ++ listing_headers w page
                   ++ cors_headers ++ [BlankLine] ++ body_frames page).
Proof.
  intros V name Hd Hu Hs Hi Hj Hl Hp. apply triple_wp; intros h Hh.
  unfold SimpleHTTPRequestHandler.do_GET, SimpleHTTPRequestHandler.send_head,
    SimpleHTTPRequestHandler.list_directory.
  destruct (ready_facts _ _ Hh) as (Ew & Ed & _ & Ep & Eh).
  wp_pure. rewrite Ew, Ed, Ep. fold name. rewrite Hd, Hu. cbv iota.
  rewrite Hs. cbn [negb]. rewrite Hi, Hj.
  wp_pure. rewrite ?Ew, Hl. wp_pure. rewrite ?Ep, ?Ew, Hp. wp_pure.
  wp_call ltac:(apply (send_response_frames rq 200 None);
                [reflexivity | exact V]).
  match goal with H : exists _, _ |- _ => destruct H as (k & H) end.
  wp_step.
  wp_call ltac:(apply send_header_frames; vm_compute; reflexivity).
  wp_step.
  wp_call ltac:(apply send_header_frames; vm_compute; reflexivity).
  wp_step. wp_call ltac:(apply end_headers_frames).
  wp_step. wp_step. unfold SimpleHTTPRequestHandler.copyfile, body_frames.
  destruct (page =? "")%string.
  - wp_pure. exists k.
    match goal with H : Sent _ _ _ _ |- _ => destruct H as (_ & _ & ->) end.
    unfold listing_headers. rewrite <- !app_assoc. reflexivity.
  - wp_call ltac:(apply write_frames). wp_pure. exists k.
    match goal with H : _ /\ wfile _ = _ |- _ => destruct H as (_ & ->) end.
    unfold listing_headers. rewrite <- !app_assoc. reflexivity.
Qed.

(** *** What a connection gets, read off the connection *)

Ltac use_eqns :=
  repeat match goal with
         | H : negb _ = true |- _ => apply negb_true_iff in H
         | H : negb _ = false |- _ => apply negb_false_iff in H
         | H : ?x = _ |- context [match ?x with _ => _ end] => rewrite H
         | H : ?x = _ |- context [if ?x then _ else _] => rewrite H
         | H : ?x = _ |- context [negb ?x] => rewrite H; cbn [negb]
         end.

(** [parse_request] returns true exactly on the connections [accepted]
    describes, with the request recorded; on every other one it has sent
    an error reply, unless the line holds no word. *)
Lemma parse_request_exact (c : connection) :
  triple Idle (parse_request c)
    (fun ok h =>
       match accepted w c with
       | Some rq => ok = true /\ Ready rq h
       | None =>
           ok = false
           /\ match split (line_of c) with
              | [] => Idle h
              | _ => exists rq code body,
                       Done rq code body h /\ rq_line rq = line_of c
              end
       end).
Proof.
  apply triple_wp; intros h Hi. unfold parse_request, accepted, line_of.
  pose proof Hi as ((Ew & _) & _).
  destruct (split (rstrip is_crlf (raw_requestline c)))
    as [|w1 [|w2 [|w3 [|w4 ws]]]] eqn:Hwords.
  all: cbn [List.length Nat.eqb Nat.leb negb andb last nth].
  all: wp_run.
  all: hsimpl; rewrite ?Ew in *.
  all: try discriminate.
  all: cbn [last] in *; unfold path_of, default_request_version in *.
  all: use_eqns.
  all: try match goal with
           | H : Some _ = Some _ |- _ => inversion H; clear H; subst
           end.
  all: use_eqns.
  all: try (split; [reflexivity|]).
  all: try solve [idle_now].
  all: try solve [split; [idle_now | reflexivity]].
  all: try match goal with
           | H : exists body, Done ?rq ?code body _ |- _ =>
               destruct H as (body & H); exists rq, code, body;
               split; [exact H | reflexivity]
           end.
Qed.

Lemma accepted_facts (c : connection) (rq : request) :
  accepted w c = Some rq ->
  rq_line rq = line_of c
  /\ split (line_of c) <> []
  /\ exists command, rq_command rq = Some command.
Proof.
  unfold accepted.
  destruct (split (line_of c)) as [|w1 [|w2 [|w3 [|w4 ws]]]];
    try discriminate.
  - destruct (w1 =? "GET")%string; [|discriminate].
    destruct (header_block c); try discriminate.
    intros E; inversion E; subst. cbn.
    split; [reflexivity|]. split; [discriminate | now exists w1].
  - destruct (version_number w w3) as [[base number]|]; [|discriminate].
    destruct (pair_ge number (2, 0)%Z); [discriminate|].
    destruct (header_block c); try discriminate.
    intros E; inversion E; subst. cbn.
    split; [reflexivity|]. split; [discriminate | now exists w1].
Qed.

Lemma well_formed_accepted (c : connection) (method target : string)
    (hs : list (string * string)) (rq : request) :
  well_formed c method target hs rq -> accepted w c = Some rq.
Proof.
  intros (_ & version & base & number & Hwords & Hv & Hn & _ & Hh & ->).
  unfold accepted, line_of, path_of. now rewrite Hwords, Hv, Hn, Hh.
Qed.

(** [send_head] raises exactly the exception [send_head_fault] names,
    before it has sent or printed anything. *)
Lemma send_head_exact (rq : request) :
  triple (Ready rq) SimpleHTTPRequestHandler.send_head
    (fun f h =>
       ends_with f (send_head_fault w d (rq_path rq)) /\ head_sent rq f h).
Proof.
  apply triple_conj; [|apply send_head_spec].
  apply triple_wp; intros h Hh.
  unfold SimpleHTTPRequestHandler.send_head,
    SimpleHTTPRequestHandler.send_file_head,
    SimpleHTTPRequestHandler.list_directory, send_head_fault, open_fault.
  destruct (ready_facts _ _ Hh) as (Ew & Ed & _ & Ep & _).
  wp_run.
  all: rewrite ?Ew, ?Ed, ?Ep in *.
  all: use_eqns.
  all: unfold ends_with; try reflexivity; try (eexists; reflexivity).
Qed.

Lemma do_GET_exact (rq : request) :
  triple (Ready rq) SimpleHTTPRequestHandler.do_GET
    (fun r h =>
       ends_with r (send_head_fault w d (rq_path rq)) /\ method_left rq r h).
Proof.
  apply triple_conj; [|apply do_GET_spec].
  apply triple_wp; intros h Hh. unfold SimpleHTTPRequestHandler.do_GET.
  wp_step. wp_call ltac:(apply send_head_exact).
  match goal with H : _ /\ _ |- _ => destruct H as (H & _) end.
  destruct (send_head_fault w d (rq_path rq)); unfold ends_with in *.
  - subst. wp_step. reflexivity.
  - match goal with H : exists _, _ |- _ => destruct H as (v & ->) end.
    unfold SimpleHTTPRequestHandler.copyfile.
    destruct v; wp_run; now exists tt.
Qed.

Lemma do_HEAD_exact (rq : request) :
  triple (Ready rq) SimpleHTTPRequestHandler.do_HEAD
    (fun r h =>
       ends_with r (send_head_fault w d (rq_path rq)) /\ method_left rq r h).
Proof.
  apply triple_conj; [|apply do_HEAD_spec].
  apply triple_wp; intros h Hh. unfold SimpleHTTPRequestHandler.do_HEAD.
  wp_step. wp_call ltac:(apply send_head_exact).
  match goal with H : _ /\ _ |- _ => destruct H as (H & _) end.
  destruct (send_head_fault w d (rq_path rq)); unfold ends_with in *.
  - subst. wp_step. reflexivity.
  - match goal with H : exists _, _ |- _ => destruct H as (v & ->) end.
    wp_step. now exists tt.
Qed.

Lemma handle_one_request_exact (c : connection) :
  triple Idle (handle_one_request methods c)
    (fun r h => ends_with r (fault w d c) /\ left_behind c h).
Proof.
  apply triple_wp; intros h Hh.
  unfold handle_one_request, left_behind, fault, wordless.
  fold (over_long c). destruct (over_long c) eqn:Hlong; cbn [negb andb].
  { wp_run. split; [now exists tt|].
    match goal with
    | H : exists body, Done ?rq ?code body _ |- _ =>
        destruct H as (body & H); exists rq, code, body;
        split; [exact H | reflexivity]
    end. }
  destruct (raw_requestline c =? "")%string eqn:Hraw.
  { apply String.eqb_eq in Hraw. unfold accepted, line_of.
    rewrite Hraw. cbn.
    wp_run. split; [now exists tt | idle_now]. }
  wp_step. wp_call ltac:(apply parse_request_exact).
  destruct (accepted w c) as [rq|] eqn:Ea.
  - match goal with H : _ = true /\ _ |- _ => destruct H as (-> & Hr) end.
    destruct (accepted_facts c rq Ea) as (Hline & Hwords & command & Hc).
    destruct (split (line_of c)) as [|w1 ws]; [now elim Hwords|].
    destruct (ready_facts _ _ Hr) as (Ew & _ & Ec & _).
    cbn [negb]. wp_step. wp_step. rewrite Ec, Hc.
    unfold methods, SimpleHTTPRequestHandler.methods.
    cbn [append String.eqb Ascii.eqb Bool.eqb].
    destruct (command =? "OPTIONS")%string eqn:Ho.
    { apply String.eqb_eq in Ho. subst command. cbn [String.eqb Ascii.eqb
        Bool.eqb orb].
      eapply wp_triple;
        [apply (returns_spec _ _ _ (do_OPTIONS_spec rq)) | exact Hr |].
      cbv beta; intros r h1 H1. destruct r as [[]|]; [|contradiction].
      split; [now exists tt|]. exists rq, 200, []. now split. }
    destruct (command =? "GET")%string eqn:Hg.
    { cbn [orb]. wp_call ltac:(apply do_GET_exact).
      match goal with H : _ /\ _ |- _ => destruct H as (He & Hl) end.
      split; [exact He|].
      destruct (send_head_fault w d (rq_path rq)); cbn in He.
      - subst. apply Hl.
      - destruct He as ([] & ->). destruct Hl as (code & body & Hl).
        exists rq, code, body. now split. }
    destruct (command =? "HEAD")%string eqn:Hh'.
    { cbn [orb]. wp_call ltac:(apply do_HEAD_exact).
      match goal with H : _ /\ _ |- _ => destruct H as (He & Hl) end.
      split; [exact He|].
      destruct (send_head_fault w d (rq_path rq)); cbn in He.
      - subst. apply Hl.
      - destruct He as ([] & ->). destruct Hl as (code & body & Hl).
        exists rq, code, body. now split. }
    cbn [orb]. wp_run. split; [now exists tt|].
    match goal with
    | H : exists body, Done _ _ body _ |- _ => destruct H as (body & H)
    end.
    exists rq, 501, body. now split.
  - match goal with H : _ = false /\ _ |- _ => destruct H as (-> & Hr) end.
    cbn [negb]. wp_step. split; [now exists tt|].
    destruct (split (line_of c)); exact Hr.
Qed.

Lemma handle_exact (c : connection) (h : handler) :
  Idle h ->
  ends_with (fst (handle c h)) (fault w d c)
  /\ left_behind c (snd (handle c h)).
Proof.
  intros Hh. unfold handle.
  change (wp (bind (modify (with_close_connection true))
                (fun _ => handle_one_request methods c))
            (fun r h => ends_with r (fault w d c) /\ left_behind c h) h).
  wp_run. wp_call ltac:(apply handle_one_request_exact).
  - idle_now.
  - assumption.
Qed.

(** *** The inherited code sends no header with a CORS name *)

Section Balance.
Variable kw : string.
Hypothesis Hkw : In kw cors_names.

Lemma header_count_app (fs gs : list frame) :
  header_count kw (fs ++ gs) = header_count kw fs + header_count kw gs.
Proof. unfold header_count. now rewrite filter_app, length_app. Qed.

Lemma blank_count_app (fs gs : list frame) :
  blank_count (fs ++ gs) = blank_count fs + blank_count gs.
Proof. unfold blank_count. now rewrite filter_app, length_app. Qed.

Lemma cors_headers_counted :
  header_count kw cors_headers = 1 /\ blank_count cors_headers = 0.
Proof.
  destruct Hkw as [<-|[<-|[<-|[]]]]; split; vm_compute; reflexivity.
Qed.

Ltac bal_enter :=
  first [ eassumption
        | unfold balanced in *; hsimpl; assumption ].

Ltac bal_call L :=
  eapply wp_triple; [ L | bal_enter | cbv beta; intros ? ? ? ].

Lemma log_message_balanced (format : string) (args : list pyval) :
  triple (balanced kw) (self_log_message format args)
    (fun _ => balanced kw).
Proof. intros h Hh. rewrite log_message_line. exact Hh. Qed.

Lemma send_response_only_balanced (code : nat) (message : option string) :
  triple (balanced kw) (send_response_only code message)
    (fun _ => balanced kw).
Proof.
  intros h Hh. unfold send_response_only, bind, gets, modify, ret. hsimpl.
  destruct (request_version h =? "HTTP/0.9")%string; cbn [negb]; hsimpl;
    [exact Hh|].
  unfold balanced in *. hsimpl.
  rewrite header_count_app, blank_count_app. cbn. lia.
Qed.

Lemma date_time_string_balanced :
  triple (balanced kw) date_time_string (fun _ => balanced kw).
Proof. intros h Hh. exact Hh. Qed.

Lemma send_header_balanced (keyword value : string) :
  other_name keyword = true ->
  triple (balanced kw) (send_header keyword value) (fun _ => balanced kw).
Proof.
  intros Hk h Hh.
  assert (E : (lower keyword =? lower kw)%string = false).
  { unfold other_name in Hk. rewrite forallb_forall in Hk.
    now apply negb_true_iff, Hk. }
  unfold send_header, bind, gets, modify, ret. hsimpl.
  assert (H1 : balanced kw
                 (with_headers_buffer
                    (headers_buffer h ++ [HeaderLine keyword value]) h)).
  { unfold balanced in *. hsimpl.
    rewrite header_count_app, blank_count_app.
    unfold header_count at 3. cbn. rewrite E. cbn. lia. }
  destruct (request_version h =? "HTTP/0.9")%string; cbn [negb]; hsimpl;
    destruct (lower keyword =? "connection")%string;
    try destruct (lower value =? "close")%string;
    try destruct (lower value =? "keep-alive")%string;
    hsimpl; first [exact Hh | exact H1].
Qed.

Lemma end_headers_balanced :
  triple (balanced kw) self_end_headers (fun _ => balanced kw).
Proof.
  intros h Hh.
  change (@self_end_headers CORSHTTPRequestHandler) with Serve.end_headers.
  rewrite end_headers_eq. destruct (bare (request_of h)); [exact Hh|].
  unfold balanced in *. hsimpl.
  destruct cors_headers_counted as (Ec & Eb).
  rewrite !header_count_app, !blank_count_app, Ec, Eb. cbn. lia.
Qed.

Lemma write_balanced (data : string) :
  triple (balanced kw) (write (Body data)) (fun _ => balanced kw).
Proof.
  intros h Hh. unfold write, modify. unfold balanced in *. hsimpl.
  rewrite header_count_app, blank_count_app. cbn. lia.
Qed.

Ltac bal_step :=
  lazymatch goal with
  | |- wp (bind _ _) _ _ => apply wp_bind
  | |- wp (ret _) _ _ => apply wp_ret
  | |- wp (gets _) _ _ => apply wp_gets
  | |- wp (modify _) _ _ => apply wp_modify
  | |- wp (self_log_message _ _) _ _ => bal_call ltac:(apply log_message_balanced)
  | |- wp (send_response_only _ _) _ _ =>
      bal_call ltac:(apply send_response_only_balanced)
  | |- wp date_time_string _ _ => bal_call ltac:(apply date_time_string_balanced)
  | |- wp (send_header _ _) _ _ =>
      bal_call ltac:(apply send_header_balanced; vm_compute; reflexivity)
  | |- wp self_end_headers _ _ => bal_call ltac:(apply end_headers_balanced)
  | |- wp (write (Body _)) _ _ => bal_call ltac:(apply write_balanced)
  | |- wp (match (if ?b then _ else _) with _ => _ end) _ _ =>
      destruct b eqn:?; try dead_branch
  | |- wp (if ?b then ?t else ?e) ?Q ?h =>
      lazymatch b with
      | negb true => change (wp e Q h)
      | negb false => change (wp t Q h)
      | _ => destruct b eqn:?; try dead_branch
      end
  | |- wp (match ?x with _ => _ end) _ _ => destruct x eqn:?
  | |- wp (let (_, _) := ?x in _) _ _ => destruct x eqn:?
  end.

Lemma send_response_balanced (code : nat) (message : option string) :
  triple (balanced kw) (send_response code message) (fun _ => balanced kw).
Proof.
  apply triple_wp; intros h Hh. unfold send_response, log_request.
  repeat bal_step. assumption.
Qed.

Lemma send_error_balanced (code : nat) (message explain : option string) :
  triple (balanced kw) (send_error code message explain)
    (fun _ => balanced kw).
Proof.
  apply triple_wp; intros h Hh. unfold send_error, log_error.
  destruct (responses code) as [[shortmsg longmsg]|].
  all: apply wp_bind; bal_call ltac:(apply log_message_balanced).
  all: apply wp_bind; bal_call ltac:(apply send_response_balanced).
  all: repeat bal_step; assumption.
Qed.

Ltac bal_run :=
  repeat first
    [ lazymatch goal with
      | |- wp (send_error _ _ _) _ _ =>
          bal_call ltac:(apply send_error_balanced)
      | |- wp (send_response _ _) _ _ =>
          bal_call ltac:(apply send_response_balanced)
      end
    | bal_step ].

Lemma do_OPTIONS_balanced :
  triple (balanced kw) do_OPTIONS (fun _ => balanced kw).
Proof.
  apply triple_wp; intros h Hh. unfold do_OPTIONS. bal_run. assumption.
Qed.

Lemma send_head_balanced :
  triple (balanced kw) SimpleHTTPRequestHandler.send_head
    (fun _ => balanced kw).
Proof.
  apply triple_wp; intros h Hh.
  unfold SimpleHTTPRequestHandler.send_head,
    SimpleHTTPRequestHandler.send_file_head,
    SimpleHTTPRequestHandler.list_directory.
  bal_run. all: assumption.
Qed.

Lemma method_balanced (mname : string) (method : M (result unit)) :
  methods mname = Some method ->
  triple (balanced kw) method (fun _ => balanced kw).
Proof.
  unfold methods, SimpleHTTPRequestHandler.methods.
  destruct (mname =? "do_OPTIONS")%string;
    [|destruct (mname =? "do_GET")%string;
      [|destruct (mname =? "do_HEAD")%string]];
    intros E; inversion E; subst method.
  - apply triple_wp; intros h Hh. unfold returns.
    apply wp_bind. bal_call ltac:(apply do_OPTIONS_balanced).
    bal_run. assumption.
  - apply triple_wp; intros h Hh.
    unfold SimpleHTTPRequestHandler.do_GET, SimpleHTTPRequestHandler.copyfile.
    apply wp_bind. bal_call ltac:(apply send_head_balanced).
    bal_run. all: assumption.
  - apply triple_wp; intros h Hh. unfold SimpleHTTPRequestHandler.do_HEAD.
    apply wp_bind. bal_call ltac:(apply send_head_balanced).
    bal_run. all: assumption.
Qed.

Lemma handle_balanced (c : connection) :
  triple (balanced kw) (handle c) (fun _ => balanced kw).
Proof.
  apply triple_wp; intros h Hh.
  unfold handle, handle_one_request, parse_request.
  bal_run.
  all: try (unfold balanced in *; hsimpl; assumption).
  all: eapply wp_triple;
    [eapply method_balanced; eassumption
    | unfold balanced in *; hsimpl; assumption
    | cbv beta; intros ? ? H; exact H].
Qed.

End Balance.

End HandlerLogic.

(* ------------------------------------------------------------------ *)
(** * Properties of a served request *)

Section RequestFacts.
Import PyStr Http Spec SocketServer.
Local Open Scope list_scope.

Variables (w : world) (c : connection) (p : process).

Lemma new_handler_idle :
  idle w (cwd p) (peer c) (sys_stdout p) (sys_stderr p) (new_handler w c p).
Proof. repeat split. Qed.

Lemma reply_answered :
  answered w (cwd p) (peer c) (sys_stdout p) (sys_stderr p) (reply_to w c p).
Proof. apply handle_spec, new_handler_idle. Qed.

Lemma reply_framed :
  framed w (cwd p) (peer c) (sys_stderr p) (reply_to w c p).
Proof.
  destruct reply_answered as [(F & _) | (rq & code & body & F & _)]; exact F.
Qed.

(** [handle()] loops while [close_connection] is false: after the first
    request it is true, so one connection is one request. *)
Lemma handle_closes_connection :
  close_connection (reply_to w c p) = true.
Proof. apply reply_framed. Qed.

(** The handler resolves paths against the directory the process was in
    when the connection was accepted. *)
Lemma reply_directory : directory (reply_to w c p) = cwd p.
Proof. apply reply_framed. Qed.

(** The handler itself writes nothing to standard error. *)
Lemma reply_stderr : stderr (reply_to w c p) = sys_stderr p.
Proof. apply reply_framed. Qed.

(** How the handler ends and what it leaves can be read off the
    connection. *)
Lemma reply_exact :
  ends_with (ending w c p) (fault w (cwd p) c)
  /\ left_behind w (cwd p) (peer c) (sys_stdout p) (sys_stderr p) c
       (reply_to w c p).
Proof. apply handle_exact, new_handler_idle. Qed.

(** C1, as the code has it.  Whatever arrives on a connection, the handler
    writes nothing, or answers in the HTTP/0.9 style (body only, no status
    line and no header at all), or writes a reply whose header block ends
    with exactly the three CORS headers, in the order of [end_headers],
    immediately before the blank line. *)
Theorem cors_headers_close_every_header_block :
  let h := reply_to w c p in
  wfile h = []
  \/ (request_version h = "HTTP/0.9" /\ Forall is_body (wfile h))
  \/ exists code body,
       full_reply code body (wfile h) /\ Forall is_body body.
Proof.
  intros h. subst h.
  destruct reply_answered as
    [(_ & Hw & _) | (rq & code & body & _ & Hr & _ & _ & Fb & Hw)].
  - now left.
  - right. unfold bare in Hw.
    destruct (rq_version rq =? "HTTP/0.9")%string eqn:V.
    + left. apply String.eqb_eq in V. split.
      * now rewrite <- V, <- Hr.
      * now rewrite Hw.
    + right. now exists code, body.
Qed.

Lemma full_reply_of_done (rq : request) (code : nat) (body : list frame)
    (h : handler) :
  bare rq = false ->
  done w (cwd p) (peer c) (sys_stdout p) (sys_stderr p) rq code body h ->
  full_reply code body (wfile h).
Proof. intros V (_ & _ & _ & _ & _ & Hw). now rewrite V in Hw. Qed.

Lemma well_formed_not_bare (method target : string)
    (hs : list (string * string)) (rq : request) :
  well_formed w c method target hs rq -> bare rq = false.
Proof.
  intros (_ & version & base & number & _ & _ & _ & V & _ & ->). exact V.
Qed.

Lemma well_formed_command (method target : string)
    (hs : list (string * string)) (rq : request) :
  well_formed w c method target hs rq -> rq_command rq = Some method.
Proof.
  intros (_ & version & base & number & _ & _ & _ & _ & _ & ->). reflexivity.
Qed.

(** Of the well-formed requests, only [GET] and [HEAD] can make the
    handler raise, and only from [send_head]. *)
Lemma well_formed_fault (method target : string)
    (hs : list (string * string)) (rq : request) (d : string) :
  well_formed w c method target hs rq ->
  fault w d c
  = if (method =? "GET")%string || (method =? "HEAD")%string
    then send_head_fault w d (rq_path rq) else None.
Proof.
  intros Hwf. unfold fault, over_long.
  rewrite (well_formed_accepted w c _ _ _ _ Hwf).
  rewrite (well_formed_command _ _ _ _ Hwf).
  destruct Hwf as (Hlen & _). apply Z.ltb_ge in Hlen. now rewrite Hlen.
Qed.

Lemma reply_dispatch_result (method target : string)
    (hs : list (string * string)) (rq : request)
    (Q : result unit -> handler -> Prop) :
  well_formed w c method target hs rq ->
  match Serve.methods ("do_" ++ method) with
  | Some m =>
      triple (ready w (cwd p) (peer c) (sys_stdout p) (sys_stderr p) rq) m Q
  | None =>
      forall r h,
        (exists body,
           done w (cwd p) (peer c) (sys_stdout p) (sys_stderr p) rq 501 body h)
        -> Q r h
  end ->
  Q (ending w c p) (reply_to w c p).
Proof.
  intros Hwf Hm.
  unfold ending, reply_to, exec, Serve.handle, Http.bind, modify.
  apply (dispatch_well_formed w (cwd p) (peer c) (sys_stdout p) (sys_stderr p)
           c method target hs rq Q Hwf).
  - exact Hm.
  - repeat split.
Qed.

Lemma reply_dispatch (method target : string) (hs : list (string * string))
    (rq : request) Q :
  well_formed w c method target hs rq ->
  match Serve.methods ("do_" ++ method) with
  | Some m =>
      triple (ready w (cwd p) (peer c) (sys_stdout p) (sys_stderr p) rq) m
        (fun _ => Q)
  | None =>
      forall h,
        (exists body,
           done w (cwd p) (peer c) (sys_stdout p) (sys_stderr p) rq 501 body h)
        -> Q h
  end ->
  Q (reply_to w c p).
Proof.
  intros Hwf Hm.
  apply (reply_dispatch_result method target hs rq (fun _ => Q) Hwf).
  destruct (Serve.methods ("do_" ++ method)); [exact Hm | intros _; exact Hm].
Qed.


(** C9, as the code has it.  A request with a well-formed request line
    whose method is none of GET, HEAD and OPTIONS finds no [do_] method in
    the class and is answered by the library's 501 error response, which
    ends its headers with the three CORS headers. *)
Theorem other_methods_get_501_with_cors (method target : string)
    (hs : list (string * string)) (rq : request) :
  well_formed w c method target hs rq ->
  method <> "GET" -> method <> "HEAD" -> method <> "OPTIONS" ->
  Serve.methods ("do_" ++ method) = None
  /\ exists body, full_reply 501 body (wfile (reply_to w c p)).
Proof.
  intros Hwf Hg Hh Ho.
  assert (E : Serve.methods ("do_" ++ method) = None).
  { apply String.eqb_neq in Hg, Hh, Ho.
    unfold Serve.methods, SimpleHTTPRequestHandler.methods. cbn.
    now rewrite Ho, Hg, Hh. }
  split; [exact E|].
  apply (reply_dispatch method target hs rq
           (fun h => exists body, full_reply 501 body (wfile h)) Hwf).
  rewrite E. intros h (body & Hd). exists body.
  eapply full_reply_of_done; [eapply well_formed_not_bare, Hwf | exact Hd].
Qed.



End RequestFacts.

(* ------------------------------------------------------------------ *)
(** * What the server prints for a request *)

Section ServedRequest.
Import PyStr Http Spec Observe SocketServer.
Local Open Scope list_scope.

Variables (rt : runtime) (c : connection) (p : process).

Lemma logged_lines (w : world) (rl : string) (code : nat)
    (lines : list string) :
  logged w rl code lines -> Forall log_line lines.
Proof.
  unfold logged. destruct (400 <=? code)%nat.
  - intros (k & k' & message & ->). repeat constructor.
    + exists (log_time w k),
        ("code " ++ str_of_Z (Z.of_nat code) ++ ", message " ++ message)%string.
      reflexivity.
    + exists (log_time w k'),
        (dquote ++ rl ++ dquote ++ " " ++ str_of_nat code ++ " -")%string.
      reflexivity.
  - intros (k & ->). repeat constructor.
    exists (log_time w k),
      (dquote ++ rl ++ dquote ++ " " ++ str_of_nat code ++ " -")%string.
    reflexivity.
Qed.

Lemma reply_stdout (w : world) :
  exists lines,
    stdout (reply_to w c p) = sys_stdout p ++ lines /\ Forall log_line lines.
Proof.
  destruct (reply_answered w c p) as
    [(_ & _ & _ & Ho) | (rq & code & body & _ & _ & _ & Hl & _)].
  - exists []. rewrite app_nil_r. split; [exact Ho | constructor].
  - destruct Hl as (lines & Ho & Hl). exists lines.
    split; [exact Ho | eapply logged_lines, Hl].
Qed.

(** The process after [_handle_request_noblock]: the directory is the
    same, standard output is the handler's, standard error has gained the
    report of [handle_error] if the handler raised, and the connection is
    recorded with what was written to it. *)
Lemma request_handled :
  let p' := _handle_request_noblock Serve.handle rt c p in
  cwd p' = cwd p
  /\ sys_stdout p' = stdout (reply_to (os rt) c p)
  /\ sys_stderr p' = sys_stderr p ++ reports (os rt) (cwd p) [c]
  /\ calls p'
     = calls p ++ [handled (peer c) (cwd p) (wfile (reply_to (os rt) c p))].
Proof.
  unfold _handle_request_noblock, process_request, reports.
  pose proof (reply_exact (os rt) c p) as (He & _).
  pose proof (reply_stderr (os rt) c p) as Hs.
  pose proof (reply_directory (os rt) c p) as Hd.
  unfold ending, reply_to, exec in *.
  destruct (Serve.handle c (new_handler (os rt) c p)) as [r h].
  cbn [fst snd flat_map] in *. rewrite app_nil_r.
  destruct (fault (os rt) (cwd p) c) as [exn|]; cbn in He.
  - subst r. cbn. rewrite Hs, Hd. repeat split.
  - destruct He as (x & ->). cbn. rewrite Hs, Hd, app_nil_r. repeat split.
Qed.

(** C5, as the code has it.  What the server prints for one connection.
    If an exception leaves the handler, which [fault] tells from the
    connection, nothing is printed on standard output and [handle_error]
    prints its report on standard error.  Otherwise nothing goes to
    standard error, and standard output gets nothing if the connection
    sent no word, and else the access line of the response, which is
    [[time] "request line" status -] and holds no client address, after
    one more line, [[time] code status, message text], when the status is
    400 or above.  The status printed is the status sent. *)
Theorem log_lines_of_a_request :
  let w := os rt in
  let h := reply_to w c p in
  let p' := _handle_request_noblock Serve.handle rt c p in
  sys_stdout p' = stdout h
  /\ match fault w (cwd p) c with
     | Some exn =>
         ending w c p = Raise exn
         /\ stdout h = sys_stdout p
         /\ sys_stderr p' = sys_stderr p ++ error_report w c exn
     | None =>
         sys_stderr p' = sys_stderr p
         /\ if wordless c then stdout h = sys_stdout p
            else exists code lines,
                stdout h = sys_stdout p ++ lines
                /\ logged w (if over_long c then EmptyString else line_of c)
                     code lines
                /\ (request_version h = "HTTP/0.9"
                    \/ exists body, full_reply code body (wfile h))
     end.
Proof.
  intros w h p'. subst w h p'.
  destruct request_handled as (_ & Hout & Herr & _).
  split; [exact Hout|].
  destruct (reply_exact (os rt) c p) as (He & Hl).
  unfold left_behind, reports in *. cbn [flat_map] in Herr.
  rewrite app_nil_r in Herr.
  destruct (fault (os rt) (cwd p) c) as [exn|].
  - split; [exact He|]. split; [|exact Herr].
    now destruct Hl as (_ & _ & _ & Ho).
  - rewrite app_nil_r in Herr. split; [exact Herr|].
    destruct (wordless c).
    + now destruct Hl as (_ & _ & _ & Ho).
    + destruct Hl as (rq & code & body & (_ & Hr & _ & Hlog & _ & Hw) & Hline).
      destruct Hlog as (lines & Ho & Hlog). rewrite Hline in Hlog.
      exists code, lines. split; [exact Ho|]. split; [exact Hlog|].
      unfold bare in Hw.
      destruct (rq_version rq =? "HTTP/0.9")%string eqn:V.
      * left. apply String.eqb_eq in V. now rewrite <- V, <- Hr.
      * right. now exists body.
Qed.

End ServedRequest.

(* ------------------------------------------------------------------ *)
(** * Properties of path resolution *)

Section PathFacts.
Import PyStr Http SimpleHTTPRequestHandler.

Lemma prefix_refl (s : string) : String.prefix s s = true.
Proof.
  induction s as [|ch s IH]; simpl; [reflexivity|].
  destruct (ascii_dec ch ch) as [_|N]; [exact IH | now elim N].
Qed.

Lemma prefix_empty (s : string) : String.prefix "" s = true.
Proof. destruct s; reflexivity. Qed.

Lemma prefix_append (s t u : string) :
  String.prefix s t = true -> String.prefix s (t ++ u) = true.
Proof.
  revert t; induction s as [|ch s IH]; intros t H.
  - apply prefix_empty.
  - destruct t as [|ch' t]; [discriminate H|]. simpl in *.
    destruct (ascii_dec ch ch'); [now apply IH | discriminate H].
Qed.

Lemma os_path_join_prefix (dir path word : string) :
  has_dirname word = false ->
  String.prefix dir path = true ->
  String.prefix dir (os_path_join path word) = true.
Proof.
  intros Hw Hp. unfold os_path_join, startswith.
  assert (E : String.prefix "/" word = false).
  { unfold has_dirname in Hw. destruct word; simpl in *; [reflexivity|].
    now apply orb_false_iff in Hw. }
  rewrite E.
  destruct ((path =? "")%string || endswith_slash path);
    now apply prefix_append.
Qed.

(** Every resolved name lies under the handler's directory: it is the
    directory followed by the path's components. *)
Lemma translate_path_under_directory (w : world) (dir target : string) :
  String.prefix dir (translate_path w dir target) = true.
Proof.
  unfold translate_path.
  set (words := filter _ _). clearbody words.
  assert (H : forall path,
             String.prefix dir path = true ->
             String.prefix dir
               (fold_left
                  (fun path word =>
                     if has_dirname word || (word =? ".")%string
                        || (word =? "..")%string
                     then path else os_path_join path word)
                  words path) = true).
  { induction words as [|word words IH]; intros path Hp; simpl.
    - exact Hp.
    - apply IH.
      destruct (has_dirname word) eqn:Hd; simpl; [exact Hp|].
      destruct ((word =? ".")%string || (word =? "..")%string); [exact Hp|].
      now apply os_path_join_prefix. }
  specialize (H dir (prefix_refl dir)).
  destruct (endswith_slash _); [now apply prefix_append | exact H].
Qed.

Lemma append_assoc (s t u : string) :
  ((s ++ t) ++ u)%string = (s ++ t ++ u)%string.
Proof. induction s as [|ch s IH]; simpl; [reflexivity | now rewrite IH]. Qed.

(** No word between two slashes holds a slash: [os.path.dirname] of a
    word is always empty. *)
Lemma split_on_words (sep : ascii) (s : string) :
  split_on sep s <> []
  /\ Forall (fun word => contains (String sep "") word = false)
       (split_on sep s).
Proof.
  induction s as [|ch s (Hne & IH)]; simpl.
  - split; [discriminate | repeat constructor].
  - destruct (Ascii.eqb ch sep) eqn:E.
    + split; [discriminate | constructor; [reflexivity | exact IH]].
    + destruct (split_on sep s) as [|hd tl]; [now elim Hne|].
      split; [discriminate|].
      inversion IH as [|? ? Hhd Htl]; subst.
      constructor; [|exact Htl]. simpl.
      destruct (ascii_dec sep ch) as [->|_];
        [now rewrite Ascii.eqb_refl in E | exact Hhd].
Qed.

Lemma fold_skipping {A B} (skip : B -> bool) (f : A -> B -> A)
    (words : list B) (start : A) :
  fold_left (fun acc word => if skip word then acc else f acc word)
    words start
  = fold_left f (filter (fun word => negb (skip word)) words) start.
Proof.
  revert start; induction words as [|word words IH]; intro start; simpl.
  - reflexivity.
  - destruct (skip word); simpl; apply IH.
Qed.

Lemma filter_filter {A} (f g : A -> bool) (l : list A) :
  filter f (filter g l) = filter (fun x => g x && f x) l.
Proof.
  induction l as [|x l IH]; simpl; [reflexivity|].
  destruct (g x); simpl; [destruct (f x)|]; now rewrite IH.
Qed.

Lemma filter_agree {A} (f g : A -> bool) (l : list A) :
  Forall (fun x => f x = g x) l -> filter f l = filter g l.
Proof.
  induction 1 as [|x l E _ IH]; simpl; [reflexivity|].
  now rewrite E, IH.
Qed.

(** The words [translate_path] joins to the directory are the
    [components] of the request path, and each names one thing. *)
Lemma components_simple (w : world) (target : string) :
  Forall Spec.simple (Spec.components w target).
Proof.
  unfold Spec.components.
  destruct (split_on_words "/" (normpath w (unquote w
              (fst (split_once "#" (fst (split_once "?" target)))))))
    as (_ & F).
  induction F as [|word words Hw _ IH]; simpl; [constructor|].
  destruct (word =? "")%string eqn:E0; [exact IH|].
  destruct (word =? ".")%string eqn:E1; [exact IH|].
  destruct (word =? "..")%string eqn:E2; [exact IH|].
  constructor; [|exact IH].
  apply String.eqb_neq in E0, E1, E2. repeat split; assumption.
Qed.

Lemma translate_path_components (w : world) (dir target : string) :
  translate_path w dir target
  = (fold_left os_path_join (Spec.components w target) dir
     ++ (if Spec.ends_with_slash target then "/" else ""))%string.
Proof.
  unfold translate_path, Spec.components, Spec.ends_with_slash.
  set (path := fst (split_once "#" (fst (split_once "?" target)))).
  rewrite fold_skipping, filter_filter.
  rewrite (filter_agree _
             (fun word =>
                negb (word =? "")%string && negb (word =? ".")%string
                && negb (word =? "..")%string)).
  - destruct (endswith_slash (rstrip isspace path));
      [reflexivity | now rewrite append_empty_r].
  - destruct (split_on_words "/" (normpath w (unquote w path))) as (_ & F).
    eapply Forall_impl; [|exact F].
    intros word Hw. cbv beta. unfold has_dirname. rewrite Hw.
    destruct (word =? "")%string, (word =? ".")%string,
      (word =? "..")%string; reflexivity.
Qed.

Lemma simple_no_final_slash (word : string) :
  Spec.simple word -> endswith_slash word = false.
Proof.
  intros (Hne & _ & _ & Hc). unfold endswith_slash.
  induction word as [|ch word IH]; [reflexivity|].
  simpl in Hc. apply orb_false_iff in Hc. destruct Hc as (Hp & Hc).
  destruct word as [|ch' word'].
  - simpl. unfold is_slash.
    destruct (Ascii.eqb ch "/") eqn:E; [|reflexivity].
    apply Ascii.eqb_eq in E. subst ch. discriminate Hp.
  - change (last_char (String ch (String ch' word')))
      with (last_char (String ch' word')).
    apply IH; [discriminate | exact Hc].
Qed.

(** Joined to a directory named without final slash, the components give
    [directory/word/.../word]. *)
Lemma join_components (dir tail : string) (words : list string) :
  dir <> EmptyString ->
  endswith_slash dir = false ->
  Forall Spec.simple words ->
  (fold_left os_path_join words dir ++ tail)%string
  = (dir ++ fold_right (fun word rest => "/" ++ word ++ rest) tail words)%string.
Proof.
  intros Hne Hs F. revert dir Hne Hs.
  induction F as [|word words Hw _ IH]; intros dir Hne Hs; simpl.
  - reflexivity.
  - assert (E : os_path_join dir word = (dir ++ "/" ++ word)%string).
    { unfold os_path_join, startswith.
      destruct Hw as (Hwne & _ & _ & Hc).
      destruct word as [|ch word']; [now elim Hwne|].
      simpl in Hc. apply orb_false_iff in Hc. destruct Hc as (Hp & _).
      simpl String.prefix. rewrite Hp, Hs.
      destruct dir; [now elim Hne | reflexivity]. }
    rewrite E, IH.
    + change (String "/" (word ++ ?x)) with ("/" ++ word ++ x)%string.
      now rewrite !append_assoc.
    + destruct dir; [now elim Hne | discriminate].
    + unfold endswith_slash.
      change (dir ++ "/" ++ word)%string
        with (dir ++ (String "/" word))%string.
      rewrite last_char_append by discriminate.
      destruct Hw as (Hwne & Hrest).
      destruct word as [|ch word']; [now elim Hwne|].
      apply (simple_no_final_slash (String ch word')).
      split; [exact Hwne | exact Hrest].
Qed.

(** The name a request path resolves to is the directory followed by the
    path's components. *)
Lemma translate_path_below (w : world) (dir target : string) :
  dir <> EmptyString ->
  endswith_slash dir = false ->
  translate_path w dir target
  = Spec.below dir (Spec.components w target) (Spec.ends_with_slash target).
Proof.
  intros Hne Hs. rewrite translate_path_components.
  apply (join_components dir _ _ Hne Hs (components_simple w target)).
Qed.

End PathFacts.

(* ------------------------------------------------------------------ *)
(** * Properties of [main] *)

Section MainFacts.
Import PyStr Http SocketServer Serve Spec Observe.
Local Open Scope list_scope.

Variable rt : runtime.

Lemma print_lines_calls (lines : list string) (p : process) :
  calls (fold_left (fun p line => SocketServer.print line p) lines p)
  = calls p.
Proof.
  revert p; induction lines as [|l lines IH]; intro p; simpl.
  - reflexivity.
  - now rewrite IH.
Qed.

Lemma print_lines_cwd (lines : list string) (p : process) :
  cwd (fold_left (fun p line => SocketServer.print line p) lines p) = cwd p.
Proof.
  revert p; induction lines as [|l lines IH]; intro p; simpl.
  - reflexivity.
  - now rewrite IH.
Qed.

Lemma print_lines_stderr (lines : list string) (p : process) :
  sys_stderr (fold_left (fun p line => SocketServer.print line p) lines p)
  = sys_stderr p.
Proof.
  revert p; induction lines as [|l lines IH]; intro p; simpl.
  - reflexivity.
  - now rewrite IH.
Qed.

(** Parsing the port touches standard output only. *)
Lemma port_argument_frame (argv : list string) (p : process) :
  let p1 := snd (port_argument rt argv p) in
  cwd p1 = cwd p /\ calls p1 = calls p /\ sys_stderr p1 = sys_stderr p.
Proof.
  unfold port_argument.
  destruct (1 <? List.length argv)%nat;
    [destruct (py_int (os rt) (nth 1 argv EmptyString))|];
    repeat split.
Qed.

(** Serving connections leaves the working directory as it was; standard
    error gains the reports of the handlers that raised; each connection
    adds one [handled] call, whose root is the working directory. *)
Lemma requests_served (cs : list connection) (p : process) :
  let p' := fold_left (fun p c => _handle_request_noblock handle rt c p)
              cs p in
  cwd p' = cwd p
  /\ sys_stderr p' = sys_stderr p ++ reports (os rt) (cwd p) cs
  /\ exists served,
       calls p' = calls p ++ served
       /\ Forall (after_startup (cwd p)) served
       /\ List.length served = List.length cs.
Proof.
  revert p; induction cs as [|c cs IH]; intro p; simpl.
  - rewrite app_nil_r. repeat split. exists []. rewrite app_nil_r.
    repeat split; constructor.
  - destruct (IH (_handle_request_noblock handle rt c p))
      as (Hc & He & served & E & F & L).
    destruct (request_handled rt c p) as (Hd & _ & Hs & Hcalls).
    cbv zeta in Hd, Hs, Hcalls. rewrite Hd in Hc, He, F.
    split; [exact Hc|]. split.
    + rewrite He, Hs. unfold reports. cbn [flat_map].
      now rewrite app_nil_r, <- app_assoc.
    + eexists (_ :: served). rewrite E, Hcalls, <- app_assoc.
      split; [reflexivity|].
      split; [constructor; [reflexivity | exact F] | simpl; now rewrite L].
Qed.

(** Serving connections prints log lines only, and handles the connections
    in the order they arrive. *)
Lemma requests_shown (cs : list connection) (p : process) :
  let p' := fold_left (fun p c => _handle_request_noblock handle rt c p)
              cs p in
  (exists logs,
     sys_stdout p' = sys_stdout p ++ logs /\ Forall log_line logs)
  /\ clients (calls p') = clients (calls p) ++ map peer cs.
Proof.
  revert p; induction cs as [|c cs IH]; intro p; simpl.
  - split; [exists []; rewrite app_nil_r; split; [reflexivity|constructor]|].
    now rewrite app_nil_r.
  - destruct (IH (_handle_request_noblock handle rt c p))
      as ((logs & Ho & Fl) & Hc).
    destruct (request_handled rt c p) as (_ & Hout & _ & Hcalls).
    cbv zeta in Hout, Hcalls. rewrite Hout in Ho. rewrite Hcalls in Hc.
    destruct (reply_stdout c p (os rt)) as (lines & Hl & Fl').
    split.
    + exists (lines ++ logs). rewrite Ho, Hl, <- app_assoc.
      split; [reflexivity | now apply Forall_app].
    + rewrite Hc. unfold clients. rewrite flat_map_app, <- app_assoc.
      reflexivity.
Qed.

Lemma print_lines_stdout_app (lines : list string) (p : process) :
  sys_stdout (fold_left (fun p line => SocketServer.print line p) lines p)
  = sys_stdout p ++ lines.
Proof.
  revert p; induction lines as [|l lines IH]; intro p; simpl.
  - now rewrite app_nil_r.
  - rewrite IH; simpl. now rewrite <- app_assoc.
Qed.

(** [serve] changes directory, then binds the port it is given: these are
    its first two calls.  No later call changes directory or binds again,
    and every connection is handled against the script's directory. *)
Lemma serve_calls (sc : scenario) (port : Z) (p : process) :
  let p' := snd (serve rt sc port p) in
  cwd p' = script_directory rt
  /\ exists more,
       calls p'
       = calls p ++ chdir (script_directory rt)
           :: bind EmptyString port :: more
       /\ Forall (after_startup (script_directory rt)) more.
Proof.
  unfold serve, TCPServer, os_chdir. cbn [fst snd calls cwd record].
  destruct (bind_error rt port) as [exn|].
  - cbn. split; [reflexivity|]. exists [close].
    rewrite <- !app_assoc. split; [reflexivity | repeat constructor].
  - unfold serve_forever. cbn [shutdown_request interrupt].
    match goal with
    | |- context [fold_left _ ?cs ?q] =>
        destruct (requests_served cs q) as (Hc & _ & served & E & F & _);
        set (p2 := fold_left
                     (fun p c => _handle_request_noblock handle rt c p) cs q)
          in *
    end.
    rewrite print_lines_cwd in Hc, F. rewrite print_lines_calls in E.
    cbn [cwd calls record] in Hc, E, F.
    destruct (interrupt sc); cbn.
    + split; [exact Hc|]. exists (listen :: served ++ [close]).
      rewrite E, <- !app_assoc. split; [reflexivity|].
      constructor; [exact I|]. apply Forall_app. split; [exact F|].
      repeat constructor.
    + split; [exact Hc|]. exists (listen :: served).
      rewrite E, <- !app_assoc. split; [reflexivity|].
      constructor; [exact I | exact F].
Qed.

(** [serve] only adds to what standard output holds. *)
Lemma serve_stdout (sc : scenario) (port : Z) (p : process) :
  exists more,
    sys_stdout (snd (serve rt sc port p)) = sys_stdout p ++ more.
Proof.
  unfold serve, TCPServer, os_chdir. cbn [fst snd].
  destruct (bind_error rt port) as [exn|].
  - exists []. cbn. now rewrite app_nil_r.
  - unfold serve_forever. cbn [shutdown_request interrupt].
    match goal with
    | |- context [fold_left _ ?cs ?q] =>
        destruct (requests_shown cs q) as ((logs & Ho & _) & _);
        set (p2 := fold_left
                     (fun p c => _handle_request_noblock handle rt c p) cs q)
          in *
    end.
    rewrite print_lines_stdout_app in Ho. cbn [sys_stdout record] in Ho.
    destruct (interrupt sc); cbn; rewrite Ho, <- !app_assoc;
      eexists; reflexivity.
Qed.

(** C3.  The port comes from the command line.  With no argument it is
    8080 and nothing is printed.  With an argument that [int] accepts it
    is that integer and nothing is printed.  With an argument that [int]
    rejects, the warning is added to standard output, nothing else of the
    process changes, the port is 8080 and [main] goes on with it: the
    warning is the first line of the run.  Whatever the port is, it is the
    one the listener is bound to, after the change of directory. *)
Theorem port_from_command_line (sc : scenario) (p : process) :
  (forall prog, port_argument rt [prog] p = (8080%Z, p))
  /\ (forall prog arg rest n,
        py_int (os rt) arg = Some n ->
        port_argument rt (prog :: arg :: rest) p = (n, p))
  /\ (forall prog arg rest,
        py_int (os rt) arg = None ->
        let p1 := snd (port_argument rt (prog :: arg :: rest) p) in
        fst (port_argument rt (prog :: arg :: rest) p) = 8080%Z
        /\ sys_stdout p1 = sys_stdout p ++ [warning]
        /\ (sys_stderr p1 = sys_stderr p /\ cwd p1 = cwd p
            /\ calls p1 = calls p /\ ticks p1 = ticks p)
        /\ main rt sc (prog :: arg :: rest) p = serve rt sc 8080 p1
        /\ exists more,
             sys_stdout (snd (main rt sc (prog :: arg :: rest) p))
             = sys_stdout p ++ warning :: more)
  /\ (forall argv, exists more,
        calls (snd (main rt sc argv p))
        = calls p ++ chdir (script_directory rt)
            :: bind EmptyString (fst (port_argument rt argv p)) :: more).
Proof.
  split; [reflexivity|].
  split.
  { intros prog arg rest n Hn. unfold port_argument; simpl. now rewrite Hn. }
  split.
  { intros prog arg rest Hn p1. subst p1. unfold main, port_argument; simpl.
    rewrite Hn. cbn [fst snd].
    split; [reflexivity|]. split; [reflexivity|].
    split; [repeat split|]. split; [reflexivity|].
    destruct (serve_stdout sc 8080 (SocketServer.print warning p))
      as (more & E).
    exists more. rewrite E. cbn. now rewrite <- app_assoc. }
  intros argv. unfold main.
  destruct (port_argument_frame argv p) as (_ & Hc & _).
  destruct (port_argument rt argv p) as [port p1].
  destruct (serve_calls sc port p1) as (_ & more & Hmore & _).
  exists more. rewrite Hmore. simpl in *. now rewrite Hc.
Qed.

(** C6.  Only an argument that [int] rejects is refused.  An argument that
    parses to an integer outside 1..65535 prints no warning and causes no
    fallback: the process is left as it was and that integer is the port
    passed to the listener's bind. *)
Theorem out_of_range_port_reaches_bind (sc : scenario) (p : process)
    (prog arg : string) (rest : list string) (n : Z) :
  py_int (os rt) arg = Some n ->
  (n < 1 \/ 65535 < n)%Z ->
  port_argument rt (prog :: arg :: rest) p = (n, p)
  /\ exists more,
       calls (snd (main rt sc (prog :: arg :: rest) p))
       = calls p ++ chdir (script_directory rt)
           :: bind EmptyString n :: more.
Proof.
  intros Hn _.
  assert (E : port_argument rt (prog :: arg :: rest) p = (n, p)).
  { unfold port_argument; simpl. now rewrite Hn. }
  split; [exact E|].
  unfold main. rewrite E.
  destruct (serve_calls sc n p) as (_ & more & Hmore & _). now exists more.
Qed.

(** C7.  When the listener is bound and an interrupt arrives while
    [serve_forever] runs, the [finally] clause has set the event
    [shutdown()] waits for, so the wait ends: the notice is the last line
    printed, closing the socket is the last call and the status is 0.
    Standard error holds what it held and the reports of the requests
    whose handler raised, nothing from the interrupt. *)
Theorem interrupt_exits_cleanly (sc : scenario) (argv : list string)
    (p : process) :
  bind_error rt (fst (port_argument rt argv p)) = None ->
  interrupt sc = true ->
  let p' := snd (main rt sc argv p) in
  fst (main rt sc argv p) = Exit 0
  /\ (exists out, sys_stdout p' = out ++ [stopped])
  /\ (exists before, calls p' = before ++ [close])
  /\ sys_stderr p'
     = sys_stderr p ++ reports (os rt) (script_directory rt) (arrivals sc).
Proof.
  intros Hb Hi p'. subst p'. unfold main.
  destruct (port_argument_frame argv p) as (_ & _ & He).
  destruct (port_argument rt argv p) as [port p1].
  cbn [fst snd] in Hb, He.
  unfold serve, TCPServer. cbn [fst snd]. rewrite Hb.
  unfold serve_forever. cbn [shutdown_request]. rewrite Hi.
  cbn [shutdown is_shut_down server_close fst snd].
  match goal with
  | |- context [fold_left _ ?cs ?q] =>
      destruct (requests_served cs q) as (_ & Hs & _);
      set (p2 := fold_left
                   (fun p c => _handle_request_noblock handle rt c p) cs q)
        in *
  end.
  rewrite print_lines_stderr, print_lines_cwd in Hs. cbn in Hs.
  split; [reflexivity|]. split; [|split].
  - eexists. reflexivity.
  - eexists. reflexivity.
  - cbn. now rewrite Hs, He.
Qed.

(** C8.  A bind that raises is fatal: the socket is closed, nobody catches
    the exception, the traceback goes to standard error and the status is
    1.  The bind was attempted once, and nothing was printed after the
    port was chosen. *)
Theorem bind_failure_is_fatal (sc : scenario) (argv : list string)
    (p : process) (exn : string) :
  bind_error rt (fst (port_argument rt argv p)) = Some exn ->
  let port := fst (port_argument rt argv p) in
  let p1 := snd (port_argument rt argv p) in
  let p' := snd (main rt sc argv p) in
  fst (main rt sc argv p) = Exit 1
  /\ calls p' = calls p ++ [chdir (script_directory rt);
                            bind EmptyString port; close]
  /\ sys_stderr p'
     = sys_stderr p ++ ["Traceback (most recent call last):"; exn]
  /\ sys_stdout p' = sys_stdout p1.
Proof.
  intros Hb port p1 p'. subst port p1 p'. unfold main.
  destruct (port_argument_frame argv p) as (_ & Hc & He).
  destruct (port_argument rt argv p) as [port p1].
  simpl in Hb, Hc, He |- *.
  unfold serve, TCPServer; simpl. rewrite Hb; simpl.
  rewrite Hc, He, <- !app_assoc. repeat split; reflexivity.
Qed.

(** C10.  Parsing the port neither changes directory nor calls the
    system.  After it, the first call of [main] changes directory to the
    script's own and the second binds the listener; no later call changes
    directory again, every connection is handled with that directory as
    root, and it is still the working directory at the end.  A handler
    resolves a request path to the root joined with the path's components,
    in their order: the words between the slashes of the unquoted,
    normalised path without query and fragment, of which none is empty,
    [.] or [..] or holds a slash; a final slash is kept.  Written out, for
    a root that is not the file system's: [root/word/.../word]. *)
Theorem serving_root_is_the_script_directory (sc : scenario)
    (argv : list string) (p : process) :
  let root := script_directory rt in
  let p1 := snd (port_argument rt argv p) in
  let p' := snd (main rt sc argv p) in
  (cwd p1 = cwd p /\ calls p1 = calls p)
  /\ (exists more,
        calls p'
        = calls p ++ chdir root
            :: bind EmptyString (fst (port_argument rt argv p)) :: more
        /\ Forall (after_startup root) more)
  /\ cwd p' = root
  /\ (forall w target,
        let name := SimpleHTTPRequestHandler.translate_path w root target in
        Forall simple (components w target)
        /\ name
           = (fold_left SimpleHTTPRequestHandler.os_path_join
                (components w target) root
              ++ (if ends_with_slash target then "/" else ""))%string
        /\ (root <> EmptyString -> endswith_slash root = false ->
            name = below root (components w target) (ends_with_slash target))
        /\ String.prefix root name = true).
Proof.
  intros root p1 p'. subst root p1 p'. unfold main.
  destruct (port_argument_frame argv p) as (Hd & Hc & _).
  destruct (port_argument rt argv p) as [port p1]. cbn [fst snd] in *.
  destruct (serve_calls sc port p1) as (Hcwd & more & Hmore & F).
  split; [split; assumption|]. split; [|split].
  - exists more. rewrite Hmore, Hc. split; [reflexivity | exact F].
  - exact Hcwd.
  - intros w target.
    split; [apply components_simple|].
    split; [apply translate_path_components|].
    split; [apply translate_path_below|].
    apply translate_path_under_directory.
Qed.

End MainFacts.

(* ------------------------------------------------------------------ *)
(** * The sample installation: instances and counterexamples *)

Section Instances.
Import PyStr Http Spec Observe SocketServer.
Local Open Scope list_scope.





Lemma other_methods_get_501_with_cors_witness :
  Serve.methods "do_POST" = None
  /\ exists body,
       full_reply 501 body
         (wfile (reply_to Sample.world Sample.post_index Sample.serving)).
Proof.
  apply (other_methods_get_501_with_cors Sample.world Sample.post_index
           Sample.serving "POST" "/index.html" []
           (mkRequest "POST /index.html HTTP/1.1" "HTTP/1.1"
              (Some "POST") "/index.html" [])).
  - split; [vm_compute; discriminate|].
    exists "HTTP/1.1", "1.1", (1, 1)%Z. repeat split.
  - discriminate.
  - discriminate.
  - discriminate.
Defined.

(** Against C9 as stated: a POST whose request line has no version word,
    or names version 2.0, is refused by the parser; the client gets the
    page of a 400 or 505 error, without status line and without any
    header, the three CORS headers included. *)
Lemma versionless_post_has_no_cors_headers :
  let h := reply_to Sample.world Sample.post_bare Sample.serving in
  let e := reply_to Sample.world Sample.post_http2 Sample.serving in
  wfile h
  = [Body (error_page Sample.world 400 "Bad HTTP/0.9 request type ('POST')"
             "Bad request syntax or unsupported method")]
  /\ wfile e
     = [Body (error_page Sample.world 505 "Invalid HTTP version (2.0)"
                "Cannot fulfill request")]
  /\ ~ (exists body, full_reply 501 body (wfile h))
  /\ ~ (exists body, full_reply 501 body (wfile e))
  /\ (forall f, In f cors_headers -> ~ In f (wfile h) /\ ~ In f (wfile e)).
Proof.
  intros h e.
  assert (Eh : wfile h
               = [Body (error_page Sample.world 400
                          "Bad HTTP/0.9 request type ('POST')"
                          "Bad request syntax or unsupported method")])
    by (vm_compute; reflexivity).
  assert (Ee : wfile e
               = [Body (error_page Sample.world 505
                          "Invalid HTTP version (2.0)"
                          "Cannot fulfill request")])
    by (vm_compute; reflexivity).
  rewrite Eh, Ee. clear Eh Ee h e.
  split; [reflexivity|]. split; [reflexivity|].
  split; [intros (body & message & hdrs & E & _); discriminate E|].
  split; [intros (body & message & hdrs & E & _); discriminate E|].
  intros f [<-|[<-|[<-|[]]]]; split; intros [E|[]]; discriminate E.
Qed.

Lemma port_from_command_line_witness :
  py_int Sample.world "9000" = Some 9000%Z
  /\ Serve.port_argument Sample.runtime ["serve.py"; "9000"] Sample.launch
     = (9000%Z, Sample.launch)
  /\ py_int Sample.world "dashboard" = None
  /\ fst (Serve.port_argument Sample.runtime ["serve.py"; "dashboard"]
            Sample.launch) = 8080%Z
  /\ sys_stdout (snd (Serve.port_argument Sample.runtime
                        ["serve.py"; "dashboard"] Sample.launch))
     = [Serve.warning]
  /\ (exists more,
        sys_stdout (snd (Serve.main Sample.runtime Sample.interrupted
                           ["serve.py"; "dashboard"] Sample.launch))
        = Serve.warning :: more)
  /\ Serve.port_argument Sample.runtime ["serve.py"] Sample.launch
     = (8080%Z, Sample.launch).
Proof.
  destruct (port_from_command_line Sample.runtime Sample.interrupted
              Sample.launch) as (Hnone & Hint & Hbad & _).
  split; [reflexivity|].
  split; [exact (Hint "serve.py" "9000" [] 9000%Z eq_refl)|].
  split; [reflexivity|].
  destruct (Hbad "serve.py" "dashboard" [] eq_refl)
    as (Hport & Hout & _ & _ & Hmain).
  split; [exact Hport|]. split; [exact Hout|]. split; [exact Hmain|].
  exact (Hnone "serve.py").
Defined.

Lemma out_of_range_port_reaches_bind_witness :
  py_int Sample.world "99999" = Some 99999%Z
  /\ (99999 < 1 \/ 65535 < 99999)%Z
  /\ Serve.port_argument Sample.runtime ["serve.py"; "99999"] Sample.launch
     = (99999%Z, Sample.launch)
  /\ exists more,
       calls (snd (Serve.main Sample.runtime Sample.interrupted
                     ["serve.py"; "99999"] Sample.launch))
       = calls Sample.launch ++ chdir Sample.root
           :: bind EmptyString 99999 :: more.
Proof.
  split; [reflexivity|]. split; [right; reflexivity|].
  apply (out_of_range_port_reaches_bind Sample.runtime Sample.interrupted
           Sample.launch "serve.py" "99999" [] 99999%Z).
  - reflexivity.
  - right; reflexivity.
Defined.

(** The other two integers the claim names. *)
Example out_of_range_ports_are_taken :
  Serve.port_argument Sample.runtime ["serve.py"; "-1"] Sample.launch
  = ((-1)%Z, Sample.launch)
  /\ Serve.port_argument Sample.runtime ["serve.py"; "0"] Sample.launch
     = (0%Z, Sample.launch).
Proof. split; reflexivity. Qed.

(** Two mornings ended by an interrupt: one where every request is
    answered, and one where the second request makes [open] raise. *)
Lemma interrupt_exits_cleanly_witness :
  let run := Serve.main Sample.runtime Sample.interrupted ["serve.py"]
               Sample.launch in
  let faulty := Serve.main Sample.runtime Sample.with_a_fault ["serve.py"]
                  Sample.launch in
  (fst run = Exit 0
   /\ (exists out, sys_stdout (snd run) = out ++ [Serve.stopped])
   /\ (exists before, calls (snd run) = before ++ [close])
   /\ sys_stderr (snd run) = [])
  /\ (fst faulty = Exit 0
      /\ (exists out, sys_stdout (snd faulty) = out ++ [Serve.stopped])
      /\ (exists before, calls (snd faulty) = before ++ [close])
      /\ sys_stderr (snd faulty)
         = error_report Sample.world Sample.get_nul
             "ValueError: embedded null byte").
Proof.
  split.
  - destruct (interrupt_exits_cleanly Sample.runtime Sample.interrupted
                ["serve.py"] Sample.launch eq_refl eq_refl)
      as (Hexit & Hout & Hcalls & Herr).
    split; [exact Hexit|]. split; [exact Hout|]. split; [exact Hcalls|].
    rewrite Herr. vm_compute. reflexivity.
  - destruct (interrupt_exits_cleanly Sample.runtime Sample.with_a_fault
                ["serve.py"] Sample.launch eq_refl eq_refl)
      as (Hexit & Hout & Hcalls & Herr).
    split; [exact Hexit|]. split; [exact Hout|]. split; [exact Hcalls|].
    rewrite Herr. vm_compute. reflexivity.
Defined.

Lemma bind_failure_is_fatal_witness :
  let run := Serve.main Sample.busy Sample.interrupted ["serve.py"]
               Sample.launch in
  fst run = Exit 1
  /\ calls (snd run) = [chdir Sample.root; bind EmptyString 8080; close]
  /\ sys_stderr (snd run)
     = ["Traceback (most recent call last):";
        "OSError: [Errno 98] Address already in use"]
  /\ sys_stdout (snd run) = [].
Proof.
  apply (bind_failure_is_fatal Sample.busy Sample.interrupted ["serve.py"]
           Sample.launch "OSError: [Errno 98] Address already in use").
  reflexivity.
Defined.

(** A request for the dashboard's logo with a query, and one that climbs
    above the root: both resolve under the script's directory. *)
Lemma serving_root_is_the_script_directory_witness :
  (Sample.root <> EmptyString /\ endswith_slash Sample.root = false)
  /\ SimpleHTTPRequestHandler.translate_path Sample.world Sample.root
       "/assets/logo.svg?v=2"
     = (Sample.root ++ "/assets/logo.svg")%string
  /\ SimpleHTTPRequestHandler.translate_path Sample.world Sample.root
       "/../../etc/passwd"
     = (Sample.root ++ "/etc/passwd")%string.
Proof.
  destruct (serving_root_is_the_script_directory Sample.runtime
              Sample.interrupted ["serve.py"] Sample.launch)
    as (_ & _ & _ & H).
  assert (Hroot : Sample.root <> EmptyString
                  /\ endswith_slash Sample.root = false)
    by (split; [discriminate | reflexivity]).
  split; [exact Hroot|]. split.
  - destruct (H Sample.world "/assets/logo.svg?v=2") as (_ & _ & Hb & _).
    cbn [script_directory Sample.runtime] in Hb.
    rewrite (Hb (proj1 Hroot) (proj2 Hroot)). vm_compute. reflexivity.
  - destruct (H Sample.world "/../../etc/passwd") as (_ & _ & Hb & _).
    cbn [script_directory Sample.runtime] in Hb.
    rewrite (Hb (proj1 Hroot) (proj2 Hroot)). vm_compute. reflexivity.
Defined.

(** Against C1 as stated: a request line without version word is answered
    with the file's bytes alone, and a malformed one with the error page
    alone; neither reply holds any of the three headers. *)
Lemma bare_replies_lack_the_cors_headers :
  let h := reply_to Sample.world Sample.get_index_bare Sample.serving in
  let e := reply_to Sample.world Sample.garbage Sample.serving in
  wfile h = [Body (contents Sample.index_html)]
  /\ (forall f, In f cors_headers -> ~ In f (wfile h))
  /\ wfile e
     = [Body (error_page Sample.world 400 "Bad request syntax ('garbage')"
                "Bad request syntax or unsupported method")]
  /\ (forall f, In f cors_headers -> ~ In f (wfile e)).
Proof.
  intros h e.
  assert (Eh : wfile h = [Body (contents Sample.index_html)])
    by (vm_compute; reflexivity).
  assert (Ee : wfile e
               = [Body (error_page Sample.world 400
                          "Bad request syntax ('garbage')"
                          "Bad request syntax or unsupported method")])
    by (vm_compute; reflexivity).
  rewrite Eh, Ee. clear Eh Ee h e.
  split; [reflexivity|]. split; [|split; [reflexivity|]].
  - intros f [<-|[<-|[<-|[]]]] [E|[]]; discriminate E.
  - intros f [<-|[<-|[<-|[]]]] [E|[]]; discriminate E.
Qed.


(** Against C5 as stated: a GET of a missing file prints two lines, and the
    single line of an OPTIONS request does not hold the client's address. *)
Lemma log_lines_are_not_one_with_the_address :
  let h := reply_to Sample.world Sample.get_missing Sample.serving in
  let o := reply_to Sample.world Sample.options_anything Sample.serving in
  stdout h
  = [error_line Sample.world 0 404 "File not found";
     access_line Sample.world 1 "GET /does-not-exist.xyz HTTP/1.1" 404]
  /\ List.length (stdout h) <> 1
  /\ stdout o
     = [access_line Sample.world 0 "OPTIONS /anything HTTP/1.1" 200]
  /\ client_address o = Sample.client
  /\ forallb (contains Sample.client) (stdout o) = false.
Proof.
  intros h o.
  assert (Eh : stdout h
               = [error_line Sample.world 0 404 "File not found";
                  access_line Sample.world 1
                    "GET /does-not-exist.xyz HTTP/1.1" 404])
    by (vm_compute; reflexivity).
  assert (Eo : stdout o
               = [access_line Sample.world 0 "OPTIONS /anything HTTP/1.1"
                    200])
    by (vm_compute; reflexivity).
  rewrite Eh, Eo.
  split; [reflexivity|]. split; [discriminate|].
  split; [reflexivity|]. split; vm_compute; reflexivity.
Qed.

(** The three requests of the sample that make [send_head] raise: what
    leaves the handler, and what the server prints for the first. *)
Example requests_without_answer :
  ending Sample.world Sample.get_nul Sample.serving
  = Raise "ValueError: embedded null byte"
  /\ ending Sample.world Sample.get_bracket Sample.serving
     = Raise "ValueError: Invalid IPv6 URL"
  /\ ending Sample.site Sample.get_assets_surrogate Sample.serving
     = Raise ("UnicodeEncodeError: 'utf-8' codec can't encode character "
              ++ "'\ud800' in position 103: surrogates not allowed")%string
  /\ sys_stderr (_handle_request_noblock Serve.handle Sample.runtime
                   Sample.get_nul Sample.serving)
     = [dashes;
        ("Exception occurred during processing of request from "
         ++ "('10.0.0.7', 51234)")%string;
        "Traceback (most recent call last):"]
       ++ Sample.traceback Sample.dashboard Sample.get_nul
            "ValueError: embedded null byte"
       ++ ["ValueError: embedded null byte"; dashes].
Proof. repeat split; vm_compute; reflexivity. Qed.

(** A line of blanks is no request, and a path that climbs above the root
    is looked up under it. *)
Example blank_and_climbing_requests :
  wordless Sample.blank = true
  /\ wfile (reply_to Sample.world Sample.blank Sample.serving) = []
  /\ stdout (reply_to Sample.world Sample.blank Sample.serving) = []
  /\ open_rb Sample.world (Sample.root ++ "/etc/passwd") = OSError
  /\ wfile (reply_to Sample.world Sample.get_passwd Sample.serving)
     = wfile (reply_to Sample.world Sample.get_missing Sample.serving).
Proof. repeat split; vm_compute; reflexivity. Qed.

End Instances.

(* ------------------------------------------------------------------ *)
(** * Further properties of a served request *)

Section FurtherRequestFacts.
Import PyStr Http Spec Observe SocketServer.
Local Open Scope list_scope.

Variables (w : world) (c : connection) (p : process).

Lemma reply_of_request Q :
  triple (idle w (cwd p) (peer c) (sys_stdout p) (sys_stderr p))
    (@BaseHTTPRequestHandler.handle_one_request Serve.CORSHTTPRequestHandler
       Serve.methods c)
    (fun _ => Q) ->
  Q (reply_to w c p).
Proof.
  intros T. unfold reply_to, exec, Serve.handle, Http.bind, modify.
  apply T. repeat split.
Qed.

(** X1.  The reply to a well-formed OPTIONS request is exactly the status
    line [HTTP/1.0 200 OK], the [Server] and [Date] headers, the three CORS
    headers and the blank line: no [Content-Length], no [Allow], no body. *)
Theorem options_reply_frames (target : string) (hs : list (string * string))
    (rq : request) :
  well_formed w c "OPTIONS" target hs rq ->
  exists k,
    wfile (reply_to w c p)
    = preamble w 200 "OK" k ++ cors_headers ++ [BlankLine].
Proof.
  intros Hwf.
  apply (reply_dispatch w c p "OPTIONS" target hs rq
           (fun h => exists k,
                wfile h = preamble w 200 "OK" k ++ cors_headers ++ [BlankLine])
           Hwf).
  change (Serve.methods ("do_" ++ "OPTIONS"))
    with (Some (returns Serve.do_OPTIONS)).
  apply returns_unit. intros h Hh.
  destruct (do_OPTIONS_frames w (cwd p) (peer c) (sys_stdout p) (sys_stderr p)
              rq (well_formed_not_bare w c _ _ _ _ Hwf) h Hh)
    as (k & _ & _ & Hw).
  now exists k.
Qed.

(** X2.  A well-formed HEAD request gets no body, whatever its status:
    after the blank line nothing is written, also when the answer is an
    error page's headers.  The one exception is a path that makes
    [send_head] raise: then the exception leaves the handler, and nothing
    is sent and nothing is logged. *)
Theorem head_reply_has_no_body (target : string)
    (hs : list (string * string)) (rq : request) :
  well_formed w c "HEAD" target hs rq ->
  let h := reply_to w c p in
  match send_head_fault w (cwd p) (rq_path rq) with
  | None => exists code, full_reply code [] (wfile h)
  | Some exn =>
      ending w c p = Raise exn /\ wfile h = [] /\ stdout h = sys_stdout p
  end.
Proof.
  intros Hwf h. subst h.
  destruct (reply_exact w c p) as (He & Hl). unfold left_behind in Hl.
  rewrite (well_formed_fault w c _ _ _ _ (cwd p) Hwf) in He, Hl.
  cbn [String.eqb Ascii.eqb Bool.eqb orb] in He, Hl.
  destruct (send_head_fault w (cwd p) (rq_path rq)) as [exn|].
  - cbn in He. split; [exact He|].
    destruct Hl as (_ & Hw & _ & Hout). now split.
  - destruct He as (x & He).
    assert (H : match ending w c p with
                | Return _ => exists code,
                    full_reply code [] (wfile (reply_to w c p))
                | Raise _ => True
                end).
    { apply (reply_dispatch_result w c p "HEAD" target hs rq
               (fun r h => match r with
                           | Return _ => exists code,
                               full_reply code [] (wfile h)
                           | Raise _ => True
                           end) Hwf).
      change (Serve.methods ("do_" ++ "HEAD"))
        with (Some (@SimpleHTTPRequestHandler.do_HEAD
                      Serve.CORSHTTPRequestHandler)).
      intros h Hh.
      pose proof (do_HEAD_of_head_spec w (cwd p) (peer c) (sys_stdout p)
                    (sys_stderr p) rq (well_formed_command w c _ _ _ _ Hwf)
                    h Hh) as H.
      destruct (SimpleHTTPRequestHandler.do_HEAD h) as [[v|exn] h1];
        cbn [fst snd] in *; [|exact I].
      destruct H as (code & Hd). exists code.
      eapply full_reply_of_done;
        [eapply well_formed_not_bare, Hwf | exact Hd]. }
    rewrite He in H. exact H.
Qed.

(** X3.  A GET whose path names a directory, and which [urlsplit] splits
    into parts whose path lacks the final slash, is answered 301 with a
    [Location] header, [Content-Length: 0], the three CORS headers and no
    body. *)
Theorem directory_without_slash_is_redirected (target : string)
    (hs : list (string * string)) (rq : request) (parts_path : string) :
  well_formed w c "GET" target hs rq ->
  isdir w (SimpleHTTPRequestHandler.translate_path w (cwd p) (rq_path rq))
  = true ->
  urlsplit_path w (rq_path rq) = Return parts_path ->
  endswith_slash parts_path = false ->
  exists k,
    wfile (reply_to w c p)
    = preamble w 301 "Moved Permanently" k
      ++ [HeaderLine "Location" (redirect_url w (rq_path rq));
          HeaderLine "Content-Length" "0"]
      ++ cors_headers ++ [BlankLine].
Proof.
  intros Hwf Hd Hu Hs.
  apply (reply_dispatch w c p "GET" target hs rq
           (fun h => exists k,
                wfile h
                = preamble w 301 "Moved Permanently" k
                  ++ [HeaderLine "Location" (redirect_url w (rq_path rq));
                      HeaderLine "Content-Length" "0"]
                  ++ cors_headers ++ [BlankLine])
           Hwf).
  change (Serve.methods ("do_" ++ "GET"))
    with (Some (@SimpleHTTPRequestHandler.do_GET Serve.CORSHTTPRequestHandler)).
  intros h Hh.
  destruct (do_GET_redirect w (cwd p) (peer c) (sys_stdout p) (sys_stderr p)
              rq parts_path (well_formed_not_bare w c _ _ _ _ Hwf) Hd Hu Hs
              h Hh)
    as (k & _ & _ & Hw).
  now exists k.
Qed.

(** X4.  A GET whose path names a directory, with its final slash, that
    holds a file [index.html] which opens is answered with that file:
    status 200 and the file's bytes, unless the request's
    [If-Modified-Since] condition holds. *)
Theorem directory_serves_its_index (target : string)
    (hs : list (string * string)) (rq : request) (parts_path : string)
    (f : file) :
  well_formed w c "GET" target hs rq ->
  let name := SimpleHTTPRequestHandler.translate_path w (cwd p) (rq_path rq) in
  let index := SimpleHTTPRequestHandler.os_path_join name "index.html" in
  isdir w name = true ->
  urlsplit_path w (rq_path rq) = Return parts_path ->
  endswith_slash parts_path = true ->
  isfile w index = true ->
  open_rb w index = Opened f ->
  SimpleHTTPRequestHandler.not_modified_since w hs f = false ->
  exists body,
    full_reply 200 body (wfile (reply_to w c p)) /\ wire body = contents f.
Proof.
  intros Hwf name index Hd Hu Hs Hf Ho Hn.
  assert (Ehs : rq_headers rq = hs).
  { destruct Hwf as (_ & ? & ? & ? & _ & _ & _ & _ & _ & ->). reflexivity. }
  apply (reply_dispatch w c p "GET" target hs rq
           (fun h => exists body,
                full_reply 200 body (wfile h) /\ wire body = contents f)
           Hwf).
  change (Serve.methods ("do_" ++ "GET"))
    with (Some (@SimpleHTTPRequestHandler.do_GET Serve.CORSHTTPRequestHandler)).
  intros h Hh.
  pose proof (do_GET_index w (cwd p) (peer c) (sys_stdout p) (sys_stderr p)
                rq parts_path f Hd Hu Hs Hf Ho h Hh) as H.
  cbv beta in H. rewrite Ehs, Hn in H. destruct H as (body & H & Hb).
  exists body. split; [|exact Hb].
  eapply full_reply_of_done; [eapply well_formed_not_bare, Hwf | exact H].
Qed.

(** X5.  A request line longer than 65536 bytes is answered 414 without
    being parsed; the reply has a status line and ends its headers with the
    three CORS headers. *)
Theorem over_long_request_line_gets_414 :
  (65536 < Z.of_nat (String.length (raw_requestline c)))%Z ->
  exists body, full_reply 414 body (wfile (reply_to w c p)).
Proof.
  intros Hlen.
  apply (reply_of_request
           (fun h => exists body, full_reply 414 body (wfile h))).
  intros h Hh.
  destruct (handle_over_long w (cwd p) (peer c) (sys_stdout p) (sys_stderr p)
              c Hlen h Hh) as (_ & rq & body & Hd & V).
  exists body. eapply full_reply_of_done; eassumption.
Qed.

(** X6.  A request line of two words whose first is not [GET] never reaches
    a method, [do_OPTIONS] included: it is refused with status 400 in the
    HTTP/0.9 style, so the client receives at most the error page, and the
    two lines of an error response are printed. *)
Theorem request_without_version_must_be_get (method target : string) :
  versionless c method target ->
  method <> "GET" ->
  let h := reply_to w c p in
  request_version h = "HTTP/0.9"
  /\ Forall is_body (wfile h)
  /\ exists lines,
       stdout h = sys_stdout p ++ lines
       /\ logged w (rstrip is_crlf (raw_requestline c)) 400 lines.
Proof.
  intros Hv Hm h. subst h. apply String.eqb_neq in Hm.
  apply (reply_of_request
           (fun h =>
              request_version h = "HTTP/0.9"
              /\ Forall is_body (wfile h)
              /\ exists lines,
                   stdout h = sys_stdout p ++ lines
                   /\ logged w (rstrip is_crlf (raw_requestline c)) 400 lines)).
  intros h Hh.
  destruct (handle_versionless w (cwd p) (peer c) (sys_stdout p)
              (sys_stderr p) c method target Hv Hm h Hh)
    as (rq & body & (_ & Hr & _ & Hl & Fb & Hw) & V & L).
  unfold bare in Hw. rewrite V in Hw. cbn in Hw.
  split; [now rewrite <- V, <- Hr|]. split; [now rewrite Hw|].
  destruct Hl as (lines & Ho & Hl). exists lines. rewrite <- L. now split.
Qed.

(** X7.  A connection that closes without sending a request line is
    answered with nothing and logged with nothing. *)
Theorem silent_connection_gets_no_reply :
  raw_requestline c = EmptyString ->
  let h := reply_to w c p in
  wfile h = [] /\ stdout h = sys_stdout p /\ stderr h = sys_stderr p.
Proof.
  intros E h. subst h.
  unfold reply_to, exec, Serve.handle, Http.bind, modify,
    BaseHTTPRequestHandler.handle_one_request.
  rewrite E. cbn. repeat split.
Qed.

(** X8.  Every connection carries one request: whatever the client sends,
    a [Connection: keep-alive] header and an HTTP/1.1 version included, the
    handler leaves [close_connection] set, so the loop of [handle()] ends
    after its first pass. *)
Theorem one_request_per_connection :
  close_connection (reply_to w c p) = true.
Proof. apply (reply_framed w c p). Qed.

End FurtherRequestFacts.

(* ------------------------------------------------------------------ *)
(** * Further properties of [main] *)

Section FurtherMainFacts.
Import PyStr Http SocketServer Serve Spec Observe.
Local Open Scope list_scope.

Variable rt : runtime.

(** X9.  How [main] ends is decided by the bind and the interrupt alone:
    status 1 when the bind raises, status 0 when an interrupt ends the
    serving, and otherwise it goes on serving.  It never blocks in
    [shutdown()], although that is called from the thread that ran
    [serve_forever]. *)
Theorem main_outcome (sc : scenario) (argv : list string) (p : process) :
  fst (main rt sc argv p)
  = match bind_error rt (fst (port_argument rt argv p)) with
    | Some _ => Exit 1
    | None => if interrupt sc then Exit 0 else Serving
    end
  /\ fst (main rt sc argv p) <> Deadlock.
Proof.
  unfold main. destruct (port_argument rt argv p) as [port p1].
  cbn [fst snd]. unfold serve, TCPServer. cbn [fst snd].
  destruct (bind_error rt port) as [exn|].
  - split; [reflexivity | discriminate].
  - unfold serve_forever. cbn [shutdown_request].
    destruct (interrupt sc); cbn; split; try reflexivity; discriminate.
Qed.

(** X10.  When the bind succeeds, [main] prints, after what port parsing
    printed, the seven banner lines for the bound port, naming the
    script's directory as the serving directory, then only request log
    lines, and last the shutdown notice if an interrupt ended the
    serving. *)
Theorem output_of_a_run (sc : scenario) (argv : list string) (p : process) :
  bind_error rt (fst (port_argument rt argv p)) = None ->
  exists logs,
    sys_stdout (snd (main rt sc argv p))
    = sys_stdout (snd (port_argument rt argv p))
      ++ banner (fst (port_argument rt argv p)) (script_directory rt)
      ++ logs ++ (if interrupt sc then [stopped] else [])
    /\ Forall log_line logs.
Proof.
  intros Hb. unfold main. destruct (port_argument rt argv p) as [port p1].
  cbn [fst snd] in *. unfold serve, TCPServer. cbn [fst snd]. rewrite Hb.
  unfold serve_forever. cbn [shutdown_request].
  match goal with
  | |- context [fold_left (fun p c => _handle_request_noblock handle rt c p) ?cs ?q] =>
      destruct (requests_shown rt cs q) as ((logs & Ho & Fl) & _);
      set (p2 := fold_left (fun p c => _handle_request_noblock handle rt c p) cs q)
        in *
  end.
  rewrite print_lines_stdout_app in Ho. cbn [sys_stdout record os_chdir cwd] in Ho.
  exists logs. split; [|exact Fl].
  destruct (interrupt sc); cbn [fst snd shutdown is_shut_down server_close
                                 sys_stdout SocketServer.print record].
  - rewrite Ho, <- !app_assoc. reflexivity.
  - rewrite Ho, <- !app_assoc, app_nil_r. reflexivity.
Qed.

(** X11.  When the bind succeeds, every accepted connection is handled
    once and in the order it arrived: the peers of the handled calls are
    the peers of the arrivals. *)
Theorem connections_are_served_in_order (sc : scenario) (argv : list string)
    (p : process) :
  bind_error rt (fst (port_argument rt argv p)) = None ->
  clients (calls (snd (main rt sc argv p)))
  = clients (calls p) ++ map peer (arrivals sc).
Proof.
  intros Hb. unfold main.
  destruct (port_argument_frame rt argv p) as (_ & Hc & _).
  destruct (port_argument rt argv p) as [port p1].
  cbn [fst snd] in *. unfold serve, TCPServer. cbn [fst snd]. rewrite Hb.
  unfold serve_forever. cbn [shutdown_request].
  match goal with
  | |- context [fold_left (fun p c => _handle_request_noblock handle rt c p) ?cs ?q] =>
      destruct (requests_shown rt cs q) as (_ & Hs);
      set (p2 := fold_left (fun p c => _handle_request_noblock handle rt c p) cs q)
        in *
  end.
  rewrite print_lines_calls in Hs. cbn [calls record os_chdir] in Hs.
  unfold clients in *. rewrite !flat_map_app in Hs.
  cbn [flat_map app] in Hs. rewrite !app_nil_r in Hs. rewrite Hc in Hs.
  destruct (interrupt sc); cbn [fst snd shutdown is_shut_down server_close
                                 calls SocketServer.print record].
  - rewrite flat_map_app. cbn [flat_map app]. rewrite app_nil_r. exact Hs.
  - exact Hs.
Qed.

(** X16.  [main] reads the second word of the command line and nothing
    else of it: the program name and every later argument are ignored. *)
Theorem only_the_first_argument_counts (sc : scenario)
    (argv argv' : list string) (p : process) :
  nth_error argv 1 = nth_error argv' 1 ->
  main rt sc argv p = main rt sc argv' p.
Proof.
  intros H. unfold main.
  replace (port_argument rt argv' p) with (port_argument rt argv p);
    [reflexivity|].
  unfold port_argument.
  destruct argv as [|a0 [|a1 rest]], argv' as [|b0 [|b1 rest']];
    cbn in H |- *; try reflexivity; try discriminate.
  now injection H as ->.
Qed.

End FurtherMainFacts.

(* ------------------------------------------------------------------ *)
(** * Exact replies *)

Section ExactReplies.
Import PyStr Http Spec Observe SocketServer.
Local Open Scope list_scope.

Variables (w : world) (c : connection) (p : process).

Lemma headers_hold_no_blank (fs : list frame) :
  Forall is_header fs -> blank_count fs = 0.
Proof.
  induction 1 as [|f fs Hf _ IH]; [reflexivity|].
  destruct f; try contradiction. exact IH.
Qed.

Lemma bodies_hold_no_blank (fs : list frame) :
  Forall is_body fs -> blank_count fs = 0.
Proof.
  induction 1 as [|f fs Hf _ IH]; [reflexivity|].
  destruct f; try contradiction. exact IH.
Qed.

(** X12.  No reply carries a CORS header twice: a reply has at most one
    blank line, and each of the three header names occurs on exactly as
    many header lines as there are blank lines, since no inherited code
    path sends a header of such a name. *)
Theorem cors_headers_are_never_duplicated :
  let h := reply_to w c p in
  blank_count (wfile h) <= 1
  /\ Forall (fun kw => header_count kw (wfile h) = blank_count (wfile h))
       cors_names.
Proof.
  intros h. subst h. split.
  - destruct (reply_answered w c p) as
      [(_ & Hw & _) | (rq & code & body & _ & _ & _ & _ & Fb & Hw)].
    + rewrite Hw. cbn. lia.
    + destruct (bare rq).
      * rewrite Hw, (bodies_hold_no_blank body Fb). lia.
      * destruct Hw as (message & hdrs & -> & Fh).
        change (StatusLine BaseHTTPRequestHandler.protocol_version code message
                  :: hdrs ++ cors_headers ++ BlankLine :: body)
          with ([StatusLine BaseHTTPRequestHandler.protocol_version code
                   message]
                ++ hdrs ++ cors_headers ++ [BlankLine] ++ body).
        rewrite !blank_count_app, (headers_hold_no_blank hdrs Fh),
          (bodies_hold_no_blank body Fb).
        cbn. lia.
  - apply Forall_forall. intros kw Hkw.
    assert (Hb : headers_buffer (reply_to w c p) = []).
    { destruct (reply_answered w c p) as
        [(_ & _ & Hb & _) | (rq & code & body & _ & _ & Hb & _)]; exact Hb. }
    pose proof (handle_balanced kw Hkw c (new_handler w c p) eq_refl) as H.
    unfold balanced in H. fold (exec (Serve.handle c) (new_handler w c p)) in H.
    fold (reply_to w c p) in H. rewrite Hb in H. cbn in H. lia.
Qed.

(** X13.  The reply to a GET of a file that opens and whose
    [If-Modified-Since] condition does not hold is exactly: the status
    line [HTTP/1.0 200 OK], [Server], [Date], [Content-type],
    [Content-Length] giving the size [os.fstat] reports, [Last-Modified]
    giving the date of the modification time it reports, the three CORS
    headers, the blank line and the bytes read from the file. *)
Theorem file_reply_frames (target : string) (hs : list (string * string))
    (rq : request) (f : file) :
  well_formed w c "GET" target hs rq ->
  let name := SimpleHTTPRequestHandler.translate_path w (cwd p) (rq_path rq) in
  isdir w name = false ->
  endswith_slash name = false ->
  open_rb w name = Opened f ->
  SimpleHTTPRequestHandler.not_modified_since w hs f = false ->
  exists k,
    wfile (reply_to w c p)
    = preamble w 200 "OK" k ++ file_headers w name f
      ++ cors_headers ++ [BlankLine] ++ body_frames (contents f).
Proof.
  intros Hwf name Hd Hs Ho Hn.
  assert (Ehs : rq_headers rq = hs).
  { destruct Hwf as (_ & ? & ? & ? & _ & _ & _ & _ & _ & ->). reflexivity. }
  apply (reply_dispatch w c p "GET" target hs rq
           (fun h => exists k,
                wfile h
                = preamble w 200 "OK" k ++ file_headers w name f
                  ++ cors_headers ++ [BlankLine] ++ body_frames (contents f))
           Hwf).
  change (Serve.methods ("do_" ++ "GET"))
    with (Some (@SimpleHTTPRequestHandler.do_GET Serve.CORSHTTPRequestHandler)).
  rewrite <- Ehs in Hn.
  exact (do_GET_file_frames w (cwd p) (peer c) (sys_stdout p) (sys_stderr p)
           rq f (well_formed_not_bare w c _ _ _ _ Hwf) Hd Hs Ho Hn).
Qed.

(** X14.  The reply to a GET of a name that is no directory and that
    ends in a slash, or for which [open] raises [OSError], is exactly: the
    status line [HTTP/1.0 404 File not found], [Server], [Date],
    [Connection: close], [Content-Type], [Content-Length] giving the number
    of bytes of the error page, the three CORS headers, the blank line and
    the page. *)
Theorem missing_file_reply_frames (target : string)
    (hs : list (string * string)) (rq : request) :
  well_formed w c "GET" target hs rq ->
  let name := SimpleHTTPRequestHandler.translate_path w (cwd p) (rq_path rq) in
  let page :=
    error_page w 404 "File not found" "Nothing matches the given URI" in
  isdir w name = false ->
  endswith_slash name = true \/ open_rb w name = OSError ->
  exists k,
    wfile (reply_to w c p)
    = preamble w 404 "File not found" k ++ error_headers page
      ++ cors_headers ++ [BlankLine] ++ body_frames page.
Proof.
  intros Hwf name page Hd Ho.
  apply (reply_dispatch w c p "GET" target hs rq
           (fun h => exists k,
                wfile h
                = preamble w 404 "File not found" k ++ error_headers page
                  ++ cors_headers ++ [BlankLine] ++ body_frames page)
           Hwf).
  change (Serve.methods ("do_" ++ "GET"))
    with (Some (@SimpleHTTPRequestHandler.do_GET Serve.CORSHTTPRequestHandler)).
  apply (do_GET_missing_frames w (cwd p) (peer c) (sys_stdout p)
           (sys_stderr p) rq (well_formed_not_bare w c _ _ _ _ Hwf)).
  - rewrite (well_formed_command w c _ _ _ _ Hwf). discriminate.
  - exact Hd.
  - exact Ho.
Qed.

(** X15.  A GET whose path names a directory, with its final slash, that
    holds neither [index.html] nor [index.htm] is answered 200 with a page
    listing the directory, when the page can be encoded: the server shows
    the names of the files beside the dashboard. *)
Theorem directory_without_index_is_listed (target : string)
    (hs : list (string * string)) (rq : request) (parts_path page : string)
    (entries : list string) :
  well_formed w c "GET" target hs rq ->
  let name :=
    SimpleHTTPRequestHandler.translate_path w (cwd p) (rq_path rq) in
  isdir w name = true ->
  urlsplit_path w (rq_path rq) = Return parts_path ->
  endswith_slash parts_path = true ->
  isfile w (SimpleHTTPRequestHandler.os_path_join name "index.html") = false ->
  isfile w (SimpleHTTPRequestHandler.os_path_join name "index.htm") = false ->
  listdir w name = Some entries ->
  listing_page w name (rq_path rq) entries = Return page ->
  exists k,
    wfile (reply_to w c p)
    = preamble w 200 "OK" k ++ listing_headers w page
      ++ cors_headers ++ [BlankLine] ++ body_frames page.
Proof.
  intros Hwf name Hd Hu Hs Hi Hj Hl Hp.
  apply (reply_dispatch w c p "GET" target hs rq
           (fun h => exists k,
                wfile h
                = preamble w 200 "OK" k ++ listing_headers w page
                  ++ cors_headers ++ [BlankLine] ++ body_frames page)
           Hwf).
  change (Serve.methods ("do_" ++ "GET"))
    with (Some (@SimpleHTTPRequestHandler.do_GET Serve.CORSHTTPRequestHandler)).
  exact (do_GET_listing_frames w (cwd p) (peer c) (sys_stdout p)
           (sys_stderr p) rq parts_path page entries
           (well_formed_not_bare w c _ _ _ _ Hwf) Hd Hu Hs Hi Hj Hl Hp).
Qed.

End ExactReplies.

(* ------------------------------------------------------------------ *)
(** * The sample installation: further instances *)

Section FurtherInstances.
Import PyStr Http Spec Observe SocketServer.
Local Open Scope list_scope.

Lemma options_reply_frames_witness :
  exists k,
    wfile (reply_to Sample.world Sample.options_anything Sample.serving)
    = preamble Sample.world 200 "OK" k ++ cors_headers ++ [BlankLine].
Proof.
  apply (options_reply_frames Sample.world Sample.options_anything
           Sample.serving "/anything" []
           (mkRequest "OPTIONS /anything HTTP/1.1" "HTTP/1.1"
              (Some "OPTIONS"%string) "/anything" [])).
  split; [vm_compute; discriminate|].
  exists "HTTP/1.1"%string, "1.1"%string, (1, 1)%Z. repeat split.
Defined.

(** [head_index] gets the headers of the file and no body; [head_nul]
    makes [open] raise, and gets nothing. *)
Lemma head_reply_has_no_body_witness :
  (exists code,
     full_reply code []
       (wfile (reply_to Sample.world Sample.head_index Sample.serving)))
  /\ (ending Sample.world Sample.head_nul Sample.serving
      = Raise "ValueError: embedded null byte"
      /\ wfile (reply_to Sample.world Sample.head_nul Sample.serving) = []
      /\ stdout (reply_to Sample.world Sample.head_nul Sample.serving) = []).
Proof.
  split.
  - apply (head_reply_has_no_body Sample.world Sample.head_index
             Sample.serving "/index.html" []
             (mkRequest "HEAD /index.html HTTP/1.1" "HTTP/1.1"
                (Some "HEAD"%string) "/index.html" [])).
    split; [vm_compute; discriminate|].
    exists "HTTP/1.1"%string, "1.1"%string, (1, 1)%Z. repeat split.
  - apply (head_reply_has_no_body Sample.world Sample.head_nul
             Sample.serving "/%00" []
             (mkRequest "HEAD /%00 HTTP/1.1" "HTTP/1.1"
                (Some "HEAD"%string) "/%00" [])).
    split; [vm_compute; discriminate|].
    exists "HTTP/1.1"%string, "1.1"%string, (1, 1)%Z. repeat split.
Defined.

Lemma directory_without_slash_is_redirected_witness :
  exists k,
    wfile (reply_to Sample.site Sample.get_assets Sample.serving)
    = preamble Sample.site 301 "Moved Permanently" k
      ++ [HeaderLine "Location" "/assets/"; HeaderLine "Content-Length" "0"]
      ++ cors_headers ++ [BlankLine].
Proof.
  apply (directory_without_slash_is_redirected Sample.site Sample.get_assets
           Sample.serving "/assets" []
           (mkRequest "GET /assets HTTP/1.1" "HTTP/1.1"
              (Some "GET"%string) "/assets" [])
           "/assets").
  - split; [vm_compute; discriminate|].
    exists "HTTP/1.1"%string, "1.1"%string, (1, 1)%Z. repeat split.
  - vm_compute; reflexivity.
  - vm_compute; reflexivity.
  - vm_compute; reflexivity.
Defined.

Lemma directory_serves_its_index_witness :
  exists body,
    full_reply 200 body
      (wfile (reply_to Sample.world Sample.get_root Sample.serving))
    /\ wire body = contents Sample.index_html.
Proof.
  apply (directory_serves_its_index Sample.world Sample.get_root
           Sample.serving "/" []
           (mkRequest "GET / HTTP/1.1" "HTTP/1.1"
              (Some "GET"%string) "/" [])
           "/" Sample.index_html).
  - split; [vm_compute; discriminate|].
    exists "HTTP/1.1"%string, "1.1"%string, (1, 1)%Z. repeat split.
  - vm_compute; reflexivity.
  - vm_compute; reflexivity.
  - vm_compute; reflexivity.
  - vm_compute; reflexivity.
  - vm_compute; reflexivity.
  - vm_compute; reflexivity.
Defined.

Lemma over_long_request_line_gets_414_witness :
  exists body,
    full_reply 414 body
      (wfile (reply_to Sample.world Sample.get_long Sample.serving)).
Proof.
  apply (over_long_request_line_gets_414 Sample.world Sample.get_long
           Sample.serving).
  vm_compute; reflexivity.
Defined.

Lemma request_without_version_must_be_get_witness :
  let h := reply_to Sample.world Sample.options_bare Sample.serving in
  request_version h = "HTTP/0.9"%string
  /\ Forall is_body (wfile h)
  /\ exists lines,
       stdout h = sys_stdout Sample.serving ++ lines
       /\ logged Sample.world "OPTIONS /anything" 400 lines.
Proof.
  apply (request_without_version_must_be_get Sample.world Sample.options_bare
           Sample.serving "OPTIONS" "/anything").
  - split; [vm_compute; discriminate | vm_compute; reflexivity].
  - discriminate.
Defined.

Lemma silent_connection_gets_no_reply_witness :
  let h := reply_to Sample.world Sample.silent Sample.serving in
  wfile h = [] /\ stdout h = [] /\ stderr h = [].
Proof.
  apply (silent_connection_gets_no_reply Sample.world Sample.silent
           Sample.serving).
  reflexivity.
Defined.

Lemma output_of_a_run_witness :
  exists logs,
    sys_stdout (snd (Serve.main Sample.runtime Sample.busy_morning
                       ["serve.py"%string; "9000"%string] Sample.launch))
    = Serve.banner 9000 Sample.root ++ logs
    /\ Forall log_line logs.
Proof.
  destruct (output_of_a_run Sample.runtime Sample.busy_morning
              ["serve.py"%string; "9000"%string] Sample.launch eq_refl)
    as (logs & E & F).
  exists logs. split; [|exact F].
  rewrite E. cbn [Sample.busy_morning interrupt]. rewrite app_nil_r.
  reflexivity.
Defined.

Lemma connections_are_served_in_order_witness :
  clients (calls (snd (Serve.main Sample.runtime Sample.busy_morning
                         ["serve.py"%string] Sample.launch)))
  = ["10.0.0.7"%string; "10.0.0.8"%string; "10.0.0.7"%string].
Proof.
  exact (connections_are_served_in_order Sample.runtime Sample.busy_morning
           ["serve.py"%string] Sample.launch eq_refl).
Defined.

Lemma file_reply_frames_witness :
  exists k,
    wfile (reply_to Sample.world Sample.get_index Sample.serving)
    = preamble Sample.world 200 "OK" k
      ++ [HeaderLine "Content-type" "text/html";
          HeaderLine "Content-Length" "45";
          HeaderLine "Last-Modified" "Mon, 21 Sep 2026 14:13:20 GMT"]
      ++ cors_headers
      ++ [BlankLine; Body (contents Sample.index_html)].
Proof.
  apply (file_reply_frames Sample.world Sample.get_index Sample.serving
           "/index.html" []
           (mkRequest "GET /index.html HTTP/1.1" "HTTP/1.1"
              (Some "GET"%string) "/index.html" [])
           Sample.index_html).
  - split; [vm_compute; discriminate|].
    exists "HTTP/1.1"%string, "1.1"%string, (1, 1)%Z. repeat split.
  - vm_compute; reflexivity.
  - vm_compute; reflexivity.
  - vm_compute; reflexivity.
  - vm_compute; reflexivity.
Defined.

Lemma missing_file_reply_frames_witness :
  let page :=
    Sample.error_page 404 "File not found" "Nothing matches the given URI" in
  String.length page = 335
  /\ exists k,
       wfile (reply_to Sample.world Sample.get_missing Sample.serving)
       = preamble Sample.world 404 "File not found" k
         ++ [HeaderLine "Connection" "close";
             HeaderLine "Content-Type" "text/html;charset=utf-8";
             HeaderLine "Content-Length" "335"]
         ++ cors_headers
         ++ [BlankLine; Body page].
Proof.
  split; [vm_compute; reflexivity|].
  apply (missing_file_reply_frames Sample.world Sample.get_missing
           Sample.serving "/does-not-exist.xyz" []
           (mkRequest "GET /does-not-exist.xyz HTTP/1.1" "HTTP/1.1"
              (Some "GET"%string) "/does-not-exist.xyz" [])).
  - split; [vm_compute; discriminate|].
    exists "HTTP/1.1"%string, "1.1"%string, (1, 1)%Z. repeat split.
  - vm_compute; reflexivity.
  - right. vm_compute; reflexivity.
Defined.

Lemma directory_without_index_is_listed_witness :
  exists page,
    listing_page Sample.site (Sample.root ++ "/assets/") "/assets/"
      ["logo.svg"%string] = Return page
    /\ String.length page = 242
    /\ exists k,
         wfile (reply_to Sample.site Sample.get_assets_listing Sample.serving)
         = preamble Sample.site 200 "OK" k
           ++ [HeaderLine "Content-type" "text/html; charset=utf-8";
               HeaderLine "Content-Length" "242"]
           ++ cors_headers ++ [BlankLine; Body page].
Proof.
  destruct (listing_page Sample.site (Sample.root ++ "/assets/") "/assets/"
              ["logo.svg"%string]) as [page|exn] eqn:E;
    [|vm_compute in E; discriminate E].
  exists page. split; [reflexivity|].
  assert (L : String.length page = 242).
  { vm_compute in E. inversion E. vm_compute. reflexivity. }
  split; [exact L|].
  destruct (directory_without_index_is_listed Sample.site
              Sample.get_assets_listing Sample.serving "/assets/" []
              (mkRequest "GET /assets/ HTTP/1.1" "HTTP/1.1"
                 (Some "GET"%string) "/assets/" [])
              "/assets/" page ["logo.svg"%string]) as (k & Hk).
  - split; [vm_compute; discriminate|].
    exists "HTTP/1.1"%string, "1.1"%string, (1, 1)%Z. repeat split.
  - vm_compute; reflexivity.
  - vm_compute; reflexivity.
  - vm_compute; reflexivity.
  - vm_compute; reflexivity.
  - vm_compute; reflexivity.
  - vm_compute; reflexivity.
  - exact E.
  - exists k. rewrite Hk. unfold listing_headers, body_frames. rewrite L.
    destruct page; [discriminate L | reflexivity].
Defined.

Lemma only_the_first_argument_counts_witness :
  Serve.main Sample.runtime Sample.busy_morning
    ["serve.py"%string; "9000"%string; "--verbose"%string] Sample.launch
  = Serve.main Sample.runtime Sample.busy_morning
      ["explorer/serve.py"%string; "9000"%string] Sample.launch.
Proof.
  apply (only_the_first_argument_counts Sample.runtime Sample.busy_morning).
  reflexivity.
Defined.

End FurtherInstances.
